(** * Vacation calculator: the period search and ranking engine of [App.tsx]

    A shallow embedding of the engine inside [VacationCalculator]
    (the [holidays] memo, [isHoliday], [isWeekendOrHoliday] and everything
    nested in [handleCalculate]) together with the properties the
    specification states about it.

    ** Two levels

    The calendar level, which most of the file is about, takes a [Date] as
    an integer number of milliseconds on the local wall clock, counted from
    local 1970-01-01T00:00.  It is exact for valid dates in a zone with a
    fixed offset from universal time, where
      - [d.setDate(d.getDate() + n)] adds [n] times 86 400 000 ms,
      - [d.setHours(0, 0, 0, 0)] rounds down to a multiple of 86 400 000 ms,
      - [d.getDay()] is the day number plus 4 (1970-01-01 was a Thursday)
        modulo 7, with 0 for Sunday and 6 for Saturday,
    and it has neither the Invalid Date nor daylight saving.  Properties
    that only concern which calendar days are visited, attached and compared
    are stated at this level.

    The level of time values (module [Js]) embeds the engine again on what a
    [Date] object holds: a time value in universal time that is NaN for an
    Invalid Date, clipped at 8.64e15 ms by every setter, with the local
    fields read and written through a time zone.  The day count of the
    engine across a change of the clocks and its behaviour on dates past the
    last time value are computed there.  The lemmas [fixed_zone_getDay],
    [fixed_zone_addDays], [fixed_zone_setHoursZero] and
    [fixed_zone_totalDaysOff] relate the two levels.

    Time values and day counts are integers below 2^53 wherever they are
    finite, so the floating point arithmetic of the source is exact integer
    arithmetic. *)

From Stdlib Require Import ZArith List Bool Lia String.
From Stdlib Require Import Sorting.Sorted Sorting.Permutation.
Import ListNotations.
Open Scope Z_scope.

(** ** Dates *)

Definition Date := Z.

(** [1000 * 60 * 60 * 24], as written in [calculateTotalDaysOff]. *)
Definition msPerDay : Z := 1000 * 60 * 60 * 24.

Definition getTime (d : Date) : Z := d.

(** Number of the local calendar day that contains the instant. *)
Definition dayNumber (d : Date) : Z := d / msPerDay.

(** [d.getDay()] *)
Definition getDay (d : Date) : Z := (dayNumber d + 4) mod 7.

(** [d.setDate(d.getDate() + n)] *)
Definition addDays (d : Date) (n : Z) : Date := d + n * msPerDay.

(** [d.setHours(0, 0, 0, 0)] *)
Definition setHoursZero (d : Date) : Date := dayNumber d * msPerDay.

(** Proleptic Gregorian calendar: day number of a civil date and the year of
    a day number, used by [getFullYear] and to write dates down. *)
Definition daysFromCivil (y m d : Z) : Z :=
  let y' := if m <=? 2 then y - 1 else y in
  let era := y' / 400 in
  let yoe := y' - era * 400 in
  let mp := if m >? 2 then m - 3 else m + 9 in
  let doy := (153 * mp + 2) / 5 + d - 1 in
  let doe := yoe * 365 + yoe / 4 - yoe / 100 + doy in
  era * 146097 + doe - 719468.

Definition yearOfDay (n : Z) : Z :=
  let z := n + 719468 in
  let era := z / 146097 in
  let doe := z - era * 146097 in
  let yoe := (doe - doe / 1460 + doe / 36524 - doe / 146096) / 365 in
  let doy := doe - (365 * yoe + yoe / 4 - yoe / 100) in
  let mp := (5 * doy + 2) / 153 in
  let m := if mp <? 10 then mp + 3 else mp - 9 in
  if m <=? 2 then yoe + era * 400 + 1 else yoe + era * 400.

(** [d.getFullYear()] *)
Definition getFullYear (d : Date) : Z := yearOfDay (dayNumber d).

(** Local midnight of a civil date, and a civil date with a time of day. *)
Definition ymd (y m d : Z) : Date := daysFromCivil y m d * msPerDay.

Definition ymdhm (y m d hh mm : Z) : Date :=
  ymd y m d + (hh * 60 + mm) * 60000.

(** ** Records of the source *)

(** [HolidaysTypes.Holiday] of the holiday provider: a span with an
    exclusive end. *)
Record ProviderHoliday : Type := mkProviderHoliday {
  h_start : Date;
  h_end : Date;
  h_name : string
}.

Record Holiday : Type := mkHoliday {
  date : Date;
  name : string
}.

Record VacationPeriod : Type := mkVacationPeriod {
  startDate : Date;
  endDate : Date;
  usedStartDate : Date;
  usedEndDate : Date;
  daysCount : Z
}.

Record FormData : Type := mkFormData {
  workCountry : string;
  workState : string;
  minVacationDays : Z;
  maxVacationDays : Z;
  formStartDate : Date;
  formEndDate : Date
}.

(** Outcome of a call that may [throw]. *)
Inductive result (A : Type) : Type :=
| Ok : A -> result A
| Thrown : string -> result A.
Arguments Ok {A} _.
Arguments Thrown {A} _.

(** ** [Array.prototype.sort] with a comparator

    The sort of the language is stable, and for a comparator that is a total
    preorder its result is determined: the stable insertion sort below
    computes it.  An element goes in front of the first later element it
    does not compare greater than. *)
Fixpoint insertBy {A : Type} (cmp : A -> A -> Z) (x : A) (l : list A)
    : list A :=
  match l with
  | [] => [x]
  | y :: l' => if cmp x y <=? 0 then x :: y :: l' else y :: insertBy cmp x l'
  end.

Definition sortBy {A : Type} (cmp : A -> A -> Z) (l : list A) : list A :=
  fold_right (insertBy cmp) [] l.

(** ** HolidayIndex: the [holidays] memo *)

(** The inner [while (currentDate < end)] of the memo; [fuel] bounds the
    number of iterations and [None] means it was not enough. *)
Fixpoint flattenLoop (fuel : nat) (currentDate end_ : Date) (nm : string)
    (holidayList : list Holiday) : option (list Holiday) :=
  match fuel with
  | O => None
  | S fuel' =>
      if currentDate <? end_
      then flattenLoop fuel' (addDays currentDate 1) end_ nm
             (holidayList ++ [mkHoliday currentDate nm])
      else Some holidayList
  end.

Definition flattenFuel (start end_ : Date) : nat :=
  S (Z.to_nat ((end_ - start) / msPerDay + 1)).

(** Body of [yearHolidays.forEach]. *)
Definition flattenHoliday (holidayList : list Holiday) (h : ProviderHoliday)
    : list Holiday :=
  match flattenLoop (flattenFuel (h_start h) (h_end h))
          (h_start h) (h_end h) (h_name h) holidayList with
  | Some l => l
  | None => holidayList
  end.

Section HolidayIndex.

(** [holidayCalendar.getHolidays(year)] after
    [holidayCalendar.init(workCountry, workState)]. *)
Variable getHolidays : Z -> list ProviderHoliday.

(** [for (let year = startYear; year <= endYear; year++)] *)
Fixpoint yearLoop (fuel : nat) (year endYear : Z)
    (holidayList : list Holiday) : option (list Holiday) :=
  match fuel with
  | O => None
  | S fuel' =>
      if year <=? endYear
      then yearLoop fuel' (year + 1) endYear
             (fold_left flattenHoliday (getHolidays year) holidayList)
      else Some holidayList
  end.

Definition buildHolidayList (startYear endYear : Z) : list Holiday :=
  match yearLoop (S (Z.to_nat (endYear - startYear + 1))) startYear endYear []
  with
  | Some l => l
  | None => []
  end.

Definition holidaysMemo (formData : FormData) : list Holiday :=
  buildHolidayList (getFullYear (formStartDate formData))
                   (getFullYear (formEndDate formData)).

End HolidayIndex.

(** [hasErrors], on dates that are not invalid. *)
Definition hasErrors (formData : FormData) : bool :=
  if formEndDate formData <=? formStartDate formData then true
  else if (minVacationDays formData <=? 0) || (maxVacationDays formData <=? 0)
  then true
  else if minVacationDays formData >? maxVacationDays formData then true
  else false.

(** ** The engine, over a fixed holiday list *)

Section Engine.

Variable holidays : list Holiday.

Definition isHoliday (d : Date) : bool :=
  let normalizedDate := setHoursZero d in
  existsb (fun holiday =>
             let holidayDate := setHoursZero (date holiday) in
             getTime holidayDate =? getTime normalizedDate) holidays.

Definition isWeekendOrHoliday (d : Date) : bool :=
  let day := getDay d in
  (day =? 0) || (day =? 6) || isHoliday d.

(** The [while (isWeekendOrHoliday(tempDate))] of
    [calculateExtraStartDate]. *)
Fixpoint extraStartLoop (fuel : nat) (extraStartDate tempDate : Date)
    : option Date :=
  match fuel with
  | O => None
  | S fuel' =>
      if isWeekendOrHoliday tempDate
      then extraStartLoop fuel' (addDays extraStartDate (-1))
             (addDays tempDate (-1))
      else Some extraStartDate
  end.

(** The same loop of [calculateExtraEndDate]. *)
Fixpoint extraEndLoop (fuel : nat) (extraEndDate tempDate : Date)
    : option Date :=
  match fuel with
  | O => None
  | S fuel' =>
      if isWeekendOrHoliday tempDate
      then extraEndLoop fuel' (addDays extraEndDate 1) (addDays tempDate 1)
      else Some extraEndDate
  end.

(** Day numbers of the holiday records, and the least and greatest of
    them together with a given day: past these only weekends are left. *)
Definition holidayDays : list Z :=
  map (fun holiday => dayNumber (date holiday)) holidays.

Definition lowestDay (n : Z) : Z := fold_right Z.min n holidayDays.
Definition highestDay (n : Z) : Z := fold_right Z.max n holidayDays.

Definition startFuel (tempDate : Date) : nat :=
  Z.to_nat (dayNumber tempDate - lowestDay (dayNumber tempDate)) + 4.

Definition endFuel (tempDate : Date) : nat :=
  Z.to_nat (highestDay (dayNumber tempDate) - dayNumber tempDate) + 4.

(** [calculateExtraStartDate] and [calculateExtraEndDate]: the loops are
    given a number of iterations that is always enough
    ([extraStartLoop_startFuel], [extraEndLoop_endFuel]), so the [None]
    branches are never taken. *)
Definition calculateExtraStartDate (vacationStartDate : Date) : Date :=
  let extraStartDate := vacationStartDate in
  let tempDate := addDays vacationStartDate (-1) in
  match extraStartLoop (startFuel tempDate) extraStartDate tempDate with
  | Some r => r
  | None => extraStartDate
  end.

Definition calculateExtraEndDate (vacationEndDate : Date) : Date :=
  let extraEndDate := vacationEndDate in
  let tempDate := addDays vacationEndDate 1 in
  match extraEndLoop (endFuel tempDate) extraEndDate tempDate with
  | Some r => r
  | None => extraEndDate
  end.

(** [checkForOverlaps]: the [for ... of] returns at the first period the
    buffered window reaches. *)
Definition checkForOverlaps (startDate0 endDate0 : Date)
    (existingPeriods : list VacationPeriod) (minGapBetweenPeriods : Z)
    : bool :=
  let bufferStartDate := addDays startDate0 (- minGapBetweenPeriods) in
  let bufferEndDate := addDays endDate0 minGapBetweenPeriods in
  (fix loop (periods : list VacationPeriod) : bool :=
     match periods with
     | [] => false
     | period :: rest =>
         if (bufferStartDate <=? endDate period)
            && (bufferEndDate >=? startDate period)
         then true
         else loop rest
     end) existingPeriods.

Definition calculateTotalDaysOff (period : VacationPeriod) : Z :=
  let totalDays := (getTime (endDate period) - getTime (startDate period))
                   / msPerDay + 1 in
  totalDays.

(** Entries of [candidatePeriods]. *)
Record Candidate : Type := mkCandidate {
  period : VacationPeriod;
  totalDaysOff : Z
}.

(** The [while (currentDate <= maxSearchDate)] of
    [findBestAvailablePeriods], with its [break]. *)
Fixpoint searchLoop (fuel : nat) (maxSearchDate : Date)
    (existingPeriods : list VacationPeriod) (daysCount0 : Z)
    (minGapBetweenPeriods : Z) (currentDate : Date)
    (candidatePeriods : list Candidate) : option (list Candidate) :=
  match fuel with
  | O => None
  | S fuel' =>
      if currentDate <=? maxSearchDate then
        if negb (getDay currentDate =? 0) && negb (getDay currentDate =? 6)
           && negb (isHoliday currentDate)
        then
          let vacationStartDate := currentDate in
          let vacationEndDate := addDays vacationStartDate (daysCount0 - 1) in
          if vacationEndDate >? maxSearchDate then Some candidatePeriods
          else
            let extraStartDate := calculateExtraStartDate vacationStartDate in
            let extraEndDate := calculateExtraEndDate vacationEndDate in
            let overlaps := checkForOverlaps extraStartDate extraEndDate
                              existingPeriods minGapBetweenPeriods in
            if negb overlaps then
              let period0 := mkVacationPeriod extraStartDate extraEndDate
                               vacationStartDate vacationEndDate daysCount0 in
              let totalDaysOff0 := calculateTotalDaysOff period0 in
              searchLoop fuel' maxSearchDate existingPeriods daysCount0
                minGapBetweenPeriods (addDays currentDate 1)
                (candidatePeriods ++ [mkCandidate period0 totalDaysOff0])
            else
              searchLoop fuel' maxSearchDate existingPeriods daysCount0
                minGapBetweenPeriods (addDays currentDate 1) candidatePeriods
        else
          searchLoop fuel' maxSearchDate existingPeriods daysCount0
            minGapBetweenPeriods (addDays currentDate 1) candidatePeriods
      else Some candidatePeriods
  end.

Definition searchFuel (startDate0 endDate0 : Date) : nat :=
  S (Z.to_nat ((endDate0 - startDate0) / msPerDay + 1)).

(** The candidates the scan has collected when the loop is left. *)
Definition collectCandidates (startDate0 endDate0 : Date)
    (existingPeriods : list VacationPeriod) (daysCount0 : Z)
    (minGapBetweenPeriods : Z) : list Candidate :=
  match searchLoop (searchFuel startDate0 endDate0) endDate0 existingPeriods
          daysCount0 minGapBetweenPeriods startDate0 [] with
  | Some l => l
  | None => []
  end.

(** Comparator of the sort inside [findBestAvailablePeriods]. *)
Definition compareCandidates (startDate0 : Date) (a b : Candidate) : Z :=
  if negb (totalDaysOff b =? totalDaysOff a)
  then totalDaysOff b - totalDaysOff a
  else
    let diffA := Z.abs (getTime (usedStartDate (period a)) - getTime startDate0) in
    let diffB := Z.abs (getTime (usedStartDate (period b)) - getTime startDate0) in
    diffA - diffB.

Definition noPeriodMessage : string :=
  "Could not find any valid vacation period within the search range".

Definition findBestAvailablePeriods (startDate0 endDate0 : Date)
    (existingPeriods : list VacationPeriod) (daysCount0 : Z)
    (minGapBetweenPeriods : Z) : result (list VacationPeriod) :=
  let candidatePeriods := collectCandidates startDate0 endDate0
                            existingPeriods daysCount0 minGapBetweenPeriods in
  if (Z.of_nat (List.length candidatePeriods) =? 0)
  then Thrown noPeriodMessage
  else Ok (map period (sortBy (compareCandidates startDate0) candidatePeriods)).

(** One turn of the sweep: [try { ... push(...periods) } catch { }]. *)
Definition tryPush (allCandidatePeriods : list VacationPeriod)
    (r : result (list VacationPeriod)) : list VacationPeriod :=
  match r with
  | Ok periods => allCandidatePeriods ++ periods
  | Thrown _ => allCandidatePeriods
  end.

(** [for (let vacationDays = minVacationDays;
          vacationDays <= maxVacationDays; vacationDays++)] *)
Fixpoint sweepLoop (fuel : nat) (currentStartDate searchEndDate : Date)
    (vacationDays maxVacationDays0 : Z)
    (allCandidatePeriods : list VacationPeriod)
    : option (list VacationPeriod) :=
  match fuel with
  | O => None
  | S fuel' =>
      if vacationDays <=? maxVacationDays0 then
        sweepLoop fuel' currentStartDate searchEndDate (vacationDays + 1)
          maxVacationDays0
          (tryPush allCandidatePeriods
             (findBestAvailablePeriods currentStartDate searchEndDate []
                vacationDays 0))
      else Some allCandidatePeriods
  end.

Definition sweepFuel (minVacationDays0 maxVacationDays0 : Z) : nat :=
  S (Z.to_nat (maxVacationDays0 - minVacationDays0 + 1)).

Definition collectAllCandidates (minVacationDays0 maxVacationDays0 : Z)
    (startDate0 endDate0 : Date) : list VacationPeriod :=
  match sweepLoop (sweepFuel minVacationDays0 maxVacationDays0)
          startDate0 endDate0 minVacationDays0 maxVacationDays0 [] with
  | Some l => l
  | None => []
  end.

(** [extraDays] as both the filter and the final comparator compute it. *)
Definition extraDaysOf (period0 : VacationPeriod) : Z :=
  let totalDays := calculateTotalDaysOff period0 in
  totalDays - daysCount period0.

Definition keepPeriod (period0 : VacationPeriod) : bool :=
  let extraDays := extraDaysOf period0 in
  extraDays >? 0.

Definition comparePeriods (a b : VacationPeriod) : Z :=
  let extraDaysA := extraDaysOf a in
  let extraDaysB := extraDaysOf b in
  if negb (extraDaysB =? extraDaysA)
  then extraDaysB - extraDaysA
  else getTime (usedStartDate a) - getTime (usedStartDate b).

(** [handleCalculate]: the value handed to [setVacationPeriods]. *)
Definition handleCalculate (formData : FormData) : list VacationPeriod :=
  let currentStartDate := formStartDate formData in
  let searchEndDate := formEndDate formData in
  let allCandidatePeriods :=
    collectAllCandidates (minVacationDays formData)
      (maxVacationDays formData) currentStartDate searchEndDate in
  let filteredPeriods := filter keepPeriod allCandidatePeriods in
  sortBy comparePeriods filteredPeriods.

End Engine.


(** ** Numbers that may be NaN

    Where the source can hold NaN (the result of [parseInt], the time value
    of an Invalid Date and what is computed from them) a number is an
    integer or NaN: [None].  Arithmetic on NaN gives NaN, every ordering
    comparison with NaN is false, [===] with NaN is false and [!==] with NaN
    is true. *)

Definition Number : Type := option Z.

Definition NaN : Number := None.

Definition numAdd (a b : Number) : Number :=
  match a, b with Some x, Some y => Some (x + y) | _, _ => None end.

Definition numSub (a b : Number) : Number :=
  match a, b with Some x, Some y => Some (x - y) | _, _ => None end.

(** [Math.floor(a / b)] for a non-zero integer [b]. *)
Definition numFloorDiv (a : Number) (b : Z) : Number :=
  match a with Some x => Some (x / b) | None => None end.

(** [Math.abs] *)
Definition numAbs (a : Number) : Number :=
  match a with Some x => Some (Z.abs x) | None => None end.

Definition numLe (a b : Number) : bool :=
  match a, b with Some x, Some y => x <=? y | _, _ => false end.

Definition numLt (a b : Number) : bool :=
  match a, b with Some x, Some y => x <? y | _, _ => false end.

Definition numGe (a b : Number) : bool := numLe b a.

Definition numGt (a b : Number) : bool := numLt b a.

(** [a === b] and [a !== b] *)
Definition numEq (a b : Number) : bool :=
  match a, b with Some x, Some y => x =? y | _, _ => false end.

Definition numNe (a b : Number) : bool := negb (numEq a b).

(** [isNaN] *)
Definition isNaN (a : Number) : bool :=
  match a with Some _ => false | None => true end.

(** ** The form: validation and its warnings

    The form keeps its two dates as [Date] objects that may be invalid (time
    value NaN): [None] below.  The number fields hold what
    [handleNumberChange] stores, [0] or the result of [parseInt]: an integer
    or NaN. *)

Record FormState : Type := mkFormState {
  st_workCountry : string;
  st_workState : string;
  st_minVacationDays : Number;
  st_maxVacationDays : Number;
  st_startDate : option Date;
  st_endDate : option Date
}.

(** [hasErrors], test by test. *)
Definition hasErrorsState (st : FormState) : bool :=
  match st_startDate st, st_endDate st with
  | Some s, Some e =>
      if e <=? s then true
      else if numLe (st_minVacationDays st) (Some 0)
              || numLe (st_maxVacationDays st) (Some 0) then true
      else if numGt (st_minVacationDays st) (st_maxVacationDays st) then true
      else false
  | _, _ => true
  end.

Definition getStartDateErrorMessage (st : FormState) : option string :=
  match st_startDate st with
  | None => Some "Please enter a valid start date"%string
  | Some _ => None
  end.

Definition getEndDateErrorMessage (st : FormState) : option string :=
  match st_endDate st with
  | None => Some "Please enter a valid end date"%string
  | Some e =>
      match st_startDate st with
      | Some s =>
          if e <=? s then Some "End date must be after start date"%string
          else None
      | None => None
      end
  end.

(** The warning under a [NumberInputField]:
    [hasError && errorMessage && <WarningMessage ... />]. *)
Definition numberFieldWarning (value : Number) (errorMessage : string)
    : option string :=
  let hasError := numLe value (Some 0) in
  if hasError then Some errorMessage else None.

(** Every [WarningMessage] the form renders, top to bottom. *)
Definition displayedWarnings (st : FormState) : list (option string) :=
  [ numberFieldWarning (st_minVacationDays st)
      "Min vacation days must be greater than 0";
    numberFieldWarning (st_maxVacationDays st)
      "Max vacation days must be greater than 0";
    (if numGt (st_minVacationDays st) (st_maxVacationDays st)
     then Some "Min vacation days cannot be greater than max vacation days"%string
     else None);
    getStartDateErrorMessage st;
    getEndDateErrorMessage st ].


(** ** The results view *)

(** [getHolidayName] of [CalendarMonth]. *)
Definition getHolidayName (holidays : list Holiday) (d : Date) : string :=
  let normalizedDate := setHoursZero d in
  let holiday :=
    find (fun h =>
            let holidayDate := setHoursZero (date h) in
            getTime holidayDate =? getTime normalizedDate) holidays in
  match holiday with
  | Some h => name h
  | None => EmptyString
  end.

(** What the callback of [days.map] in [CalendarMonth] computes for the
    date [new Date(year, month.getMonth(), day)] of a cell. *)
Record DayCell : Type := mkDayCell {
  isVacationDay : bool;
  isExtraDay : bool;
  showHolidayIcon : bool;
  holidayName : string;
  className : string
}.

Definition calendarCell (holidays : list Holiday)
    (startDate0 endDate0 usedStartDate0 usedEndDate0 : Date)
    (cellDate : Date) : DayCell :=
  let currentDate := setHoursZero cellDate in
  let vacationStart := setHoursZero usedStartDate0 in
  let vacationEnd := setHoursZero usedEndDate0 in
  let fullStart := setHoursZero startDate0 in
  let fullEnd := setHoursZero endDate0 in
  let currentTime := getTime currentDate in
  let isVacationDay0 :=
    (currentTime >=? getTime vacationStart)
    && (currentTime <=? getTime vacationEnd) in
  let isExtraDay0 :=
    (((currentTime >=? getTime fullStart)
      && (currentTime <? getTime vacationStart))
     || ((currentTime >? getTime vacationEnd)
         && (currentTime <=? getTime fullEnd)))
    && (((getDay currentDate =? 0) || (getDay currentDate =? 6))
        || isHoliday holidays currentDate) in
  let showHolidayIcon0 := isHoliday holidays currentDate in
  let holidayName0 :=
    if showHolidayIcon0 then getHolidayName holidays currentDate
    else EmptyString in
  let className0 :=
    if isVacationDay0
    then ("text-sm py-1 "
          ++ "rounded-full bg-indigo-500 text-white font-medium")%string
    else if isExtraDay0
    then ("text-sm py-1 "
          ++ "rounded-full bg-indigo-100 text-indigo-800 font-medium")%string
    else "text-sm py-1 "%string in
  mkDayCell isVacationDay0 isExtraDay0 showHolidayIcon0 holidayName0
    className0.

(** Month (1 to 12) and day of the month of a day number, by the same
    computation as [yearOfDay]. *)
Definition monthDayOfDay (n : Z) : Z * Z :=
  let z := n + 719468 in
  let era := z / 146097 in
  let doe := z - era * 146097 in
  let yoe := (doe - doe / 1460 + doe / 36524 - doe / 146096) / 365 in
  let doy := doe - (365 * yoe + yoe / 4 - yoe / 100) in
  let mp := (5 * doy + 2) / 153 in
  let m := if mp <? 10 then mp + 3 else mp - 9 in
  (m, doy - (153 * mp + 2) / 5 + 1).

(** [d.getMonth()], from 0, and [d.getDate()]. *)
Definition getMonth (d : Date) : Z := fst (monthDayOfDay (dayNumber d)) - 1.
Definition getDate (d : Date) : Z := snd (monthDayOfDay (dayNumber d)).

(** [new Date(year, monthIndex, day)]: months and days out of range carry
    over, as the language defines it (years from 0 to 99, which it maps to
    1900 and on, are left aside). *)
Definition newDate (year monthIndex day : Z) : Date :=
  (daysFromCivil (year + monthIndex / 12) (monthIndex mod 12 + 1) 1
   + (day - 1)) * msPerDay.

(** The two loops of [CalendarMonth] that fill [days]: blanks up to the
    weekday of the first of the month, then the day numbers. *)
Fixpoint pushBlanks (fuel : nat) (i firstDayOfMonth : Z)
    (days : list (option Z)) : option (list (option Z)) :=
  match fuel with
  | O => None
  | S fuel' =>
      if i <? firstDayOfMonth
      then pushBlanks fuel' (i + 1) firstDayOfMonth (days ++ [None])
      else Some days
  end.

Fixpoint pushDays (fuel : nat) (i daysInMonth : Z)
    (days : list (option Z)) : option (list (option Z)) :=
  match fuel with
  | O => None
  | S fuel' =>
      if i <=? daysInMonth
      then pushDays fuel' (i + 1) daysInMonth (days ++ [Some i])
      else Some days
  end.

Definition monthDays (month : Date) : list (option Z) :=
  let year := getFullYear month in
  let daysInMonth := getDate (newDate year (getMonth month + 1) 0) in
  let firstDayOfMonth := getDay (newDate year (getMonth month) 1) in
  match pushBlanks (S (Z.to_nat firstDayOfMonth)) 0 firstDayOfMonth [] with
  | None => []
  | Some blanks =>
      match pushDays (S (Z.to_nat daysInMonth)) 1 daysInMonth blanks with
      | None => []
      | Some days => days
      end
  end.

(** The date of the cell of [day]:
    [new Date(year, month.getMonth(), day)]. *)
Definition cellDate (month : Date) (day : Z) : Date :=
  newDate (getFullYear month) (getMonth month) day.

(** The [while (currentDate <= endDateValue)] of [CalendarView] that counts
    [totalDays]. *)
Fixpoint totalDaysLoop (fuel : nat) (currentDate endDateValue : Date)
    (totalDays : Z) : option Z :=
  match fuel with
  | O => None
  | S fuel' =>
      if currentDate <=? endDateValue
      then totalDaysLoop fuel' (addDays currentDate 1) endDateValue
             (totalDays + 1)
      else Some totalDays
  end.

(** [totalDays] and [extraDays] as [CalendarView] shows them. *)
Definition viewTotalDays (startDate0 endDate0 : Date) : Z :=
  let currentDate := setHoursZero startDate0 in
  let endDateValue := setHoursZero endDate0 in
  match totalDaysLoop
          (S (Z.to_nat ((endDateValue - currentDate) / msPerDay + 1)))
          currentDate endDateValue 0 with
  | Some totalDays => totalDays
  | None => 0
  end.

Definition viewExtraDays (p : VacationPeriod) : Z :=
  let usedDays := daysCount p in
  let totalDays := viewTotalDays (startDate p) (endDate p) in
  totalDays - usedDays.

(** The [Map<number, VacationPeriod[]>] of the results column: entries in
    insertion order, one per key. *)
Definition PeriodMap : Type := list (Z * list VacationPeriod).

Fixpoint mapHas (k : Z) (m : PeriodMap) : bool :=
  match m with
  | [] => false
  | (k', _) :: m' => if k' =? k then true else mapHas k m'
  end.

Fixpoint mapGet (k : Z) (m : PeriodMap) : option (list VacationPeriod) :=
  match m with
  | [] => None
  | (k', v) :: m' => if k' =? k then Some v else mapGet k m'
  end.

(** [Map.prototype.set]: a present key keeps its place. *)
Fixpoint mapSet (k : Z) (v : list VacationPeriod) (m : PeriodMap)
    : PeriodMap :=
  match m with
  | [] => [(k, v)]
  | (k', v') :: m' =>
      if k' =? k then (k, v) :: m' else (k', v') :: mapSet k v m'
  end.

(** [map.get(k)!.push(p)]: the array held by the map is the one extended. *)
Fixpoint mapPush (k : Z) (p : VacationPeriod) (m : PeriodMap) : PeriodMap :=
  match m with
  | [] => []
  | (k', v') :: m' =>
      if k' =? k then (k', v' ++ [p]) :: m' else (k', v') :: mapPush k p m'
  end.

(** Body of [vacationPeriods.forEach]. *)
Definition groupStep (periodsByExtraDays : PeriodMap)
    (period0 : VacationPeriod) : PeriodMap :=
  let totalDays := (getTime (endDate period0) - getTime (startDate period0))
                   / msPerDay + 1 in
  let extraDays := totalDays - daysCount period0 in
  let m := if negb (mapHas extraDays periodsByExtraDays)
           then mapSet extraDays [] periodsByExtraDays
           else periodsByExtraDays in
  mapPush extraDays period0 m.

Definition groupPeriods (vacationPeriods : list VacationPeriod) : PeriodMap :=
  fold_left groupStep vacationPeriods [].

(** [Array.from(periodsByExtraDays.keys()).sort((a, b) => b - a)] *)
Definition sortedExtraDays (periodsByExtraDays : PeriodMap) : list Z :=
  sortBy (fun a b => b - a) (map fst periodsByExtraDays).

(** The rows of the accordion: each key with [periodsByExtraDays.get(key)!]. *)
Definition accordion (vacationPeriods : list VacationPeriod)
    : list (Z * list VacationPeriod) :=
  let periodsByExtraDays := groupPeriods vacationPeriods in
  map (fun extraDays =>
         (extraDays,
          match mapGet extraDays periodsByExtraDays with
          | Some periods => periods
          | None => []
          end))
      (sortedExtraDays periodsByExtraDays).

(** * The engine on time values

    The definitions above follow the calendar: they are exact for valid
    dates in a zone with a fixed offset.  The module below embeds the same
    functions on what a [Date] object holds, so that the two things the
    calendar level leaves out can be computed with:
      - the time value is a number of milliseconds of universal time, or NaN
        for an Invalid Date; every setter ends in [TimeClip], which gives
        NaN beyond 8.64e15 ms, and an Invalid Date stays invalid, reads NaN
        from every getter and makes every comparison false;
      - local fields are read and written through the time zone:
        [LocalTime(t) = t + offset at t], [UTC(l) = l - offset at local l],
        so that a local day need not last 86 400 000 ms.
    A loop that is given too few iterations ends in [OutOfFuel], which is
    not a result of the program. *)

Module Js.

Inductive outcome (A : Type) : Type :=
| Returns : A -> outcome A
| Throws : string -> outcome A
| OutOfFuel : outcome A.
Arguments Returns {A} _.
Arguments Throws {A} _.
Arguments OutOfFuel {A}.

Definition bind {A B : Type} (c : outcome A) (k : A -> outcome B)
    : outcome B :=
  match c with
  | Returns a => k a
  | Throws msg => Throws msg
  | OutOfFuel => OutOfFuel
  end.

Notation "x <- c ;; k" := (bind c (fun x => k))
  (at level 61, c at next level, right associativity).

(** The time value of a [Date] object. *)
Definition Date : Type := Number.

Definition maxTimeValue : Z := 8640000000000000.

Definition TimeClip (t : Number) : Date :=
  match t with
  | Some v => if Z.abs v >? maxTimeValue then None else Some v
  | None => None
  end.

(** A time zone: the offset of local time from universal time, in
    milliseconds, at a universal time and at a local time (where a local
    time is skipped or repeated, the offset before the transition). *)
Record TimeZone : Type := mkTimeZone {
  offsetOfUTC : Z -> Z;
  offsetOfLocal : Z -> Z
}.

Definition fixedZone (offset : Z) : TimeZone :=
  mkTimeZone (fun _ => offset) (fun _ => offset).

Definition utcZone : TimeZone := fixedZone 0.

(** Eastern time as it runs through 2025: five hours behind universal time,
    four hours behind from 2025-03-09 07:00 to 2025-11-02 06:00 universal
    time. *)
Definition easternStandard : Z := -5 * 3600000.
Definition easternDaylight : Z := -4 * 3600000.
Definition springForward2025 : Z := ymdhm 2025 3 9 7 0.
Definition fallBack2025 : Z := ymdhm 2025 11 2 6 0.

Definition newYork2025 : TimeZone :=
  mkTimeZone
    (fun t => if (springForward2025 <=? t) && (t <? fallBack2025)
              then easternDaylight else easternStandard)
    (fun l => if (springForward2025 + easternDaylight <=? l)
                 && (l <? fallBack2025 + easternDaylight)
              then easternDaylight else easternStandard).

Record Holiday : Type := mkHoliday {
  date : Date;
  name : string
}.

Record VacationPeriod : Type := mkVacationPeriod {
  startDate : Date;
  endDate : Date;
  usedStartDate : Date;
  usedEndDate : Date;
  daysCount : Number
}.

Record Candidate : Type := mkCandidate {
  period : VacationPeriod;
  totalDaysOff : Number
}.

Record FormData : Type := mkFormData {
  minVacationDays : Number;
  maxVacationDays : Number;
  formStartDate : Date;
  formEndDate : Date
}.

(** [hasErrors] on a form whose two dates are [Date] objects (the form
    with a date that is [null] is [hasErrorsState] above): an invalid date,
    dates the wrong way round, a day count that is at most 0, day counts
    the wrong way round. *)
Definition hasErrors (formData : FormData) : bool :=
  if isNaN (formStartDate formData) || isNaN (formEndDate formData) then true
  else if numLe (formEndDate formData) (formStartDate formData) then true
  else if numLe (minVacationDays formData) (Some 0)
          || numLe (maxVacationDays formData) (Some 0) then true
  else if numGt (minVacationDays formData) (maxVacationDays formData)
  then true
  else false.

(** A comparator result as the sort reads it: NaN counts as 0. *)
Definition sortKey {A : Type} (cmp : A -> A -> Number) (a b : A) : Z :=
  match cmp a b with
  | Some v => v
  | None => 0
  end.

Section Zone.

Variable zone : TimeZone.

Definition LocalTime (t : Z) : Z := t + offsetOfUTC zone t.

Definition UTC (l : Z) : Z := l - offsetOfLocal zone l.

Definition getTime (d : Date) : Number := d.

(** The number of the local day of a date. *)
Definition localDay (d : Date) : Number :=
  match d with
  | Some t => Some (LocalTime t / msPerDay)
  | None => None
  end.

(** [d.getDay()] *)
Definition getDay (d : Date) : Number :=
  match d with
  | Some t => Some ((LocalTime t / msPerDay + 4) mod 7)
  | None => None
  end.

(** [d.setDate(d.getDate() + n)]: the local time moves by [n] whole days
    of 86 400 000 ms and is read back through the zone. *)
Definition addDays (d : Date) (n : Number) : Date :=
  match d, n with
  | Some t, Some k => TimeClip (Some (UTC (LocalTime t + k * msPerDay)))
  | _, _ => None
  end.

(** [d.setHours(0, 0, 0, 0)] *)
Definition setHoursZero (d : Date) : Date :=
  match d with
  | Some t => TimeClip (Some (UTC (LocalTime t / msPerDay * msPerDay)))
  | None => None
  end.

Variable holidays : list Holiday.

Definition isHoliday (d : Date) : bool :=
  let normalizedDate := setHoursZero d in
  existsb (fun holiday =>
             let holidayDate := setHoursZero (date holiday) in
             numEq (getTime holidayDate) (getTime normalizedDate)) holidays.

Definition isWeekendOrHoliday (d : Date) : bool :=
  let day := getDay d in
  numEq day (Some 0) || numEq day (Some 6) || isHoliday d.

Fixpoint extraStartLoop (fuel : nat) (extraStartDate tempDate : Date)
    : outcome Date :=
  match fuel with
  | O => OutOfFuel
  | S fuel' =>
      if isWeekendOrHoliday tempDate
      then extraStartLoop fuel' (addDays extraStartDate (Some (-1)))
             (addDays tempDate (Some (-1)))
      else Returns extraStartDate
  end.

Definition calculateExtraStartDate (fuel : nat) (vacationStartDate : Date)
    : outcome Date :=
  let extraStartDate := vacationStartDate in
  let tempDate := addDays vacationStartDate (Some (-1)) in
  extraStartLoop fuel extraStartDate tempDate.

Fixpoint extraEndLoop (fuel : nat) (extraEndDate tempDate : Date)
    : outcome Date :=
  match fuel with
  | O => OutOfFuel
  | S fuel' =>
      if isWeekendOrHoliday tempDate
      then extraEndLoop fuel' (addDays extraEndDate (Some 1))
             (addDays tempDate (Some 1))
      else Returns extraEndDate
  end.

Definition calculateExtraEndDate (fuel : nat) (vacationEndDate : Date)
    : outcome Date :=
  let extraEndDate := vacationEndDate in
  let tempDate := addDays vacationEndDate (Some 1) in
  extraEndLoop fuel extraEndDate tempDate.

Definition checkForOverlaps (startDate0 endDate0 : Date)
    (existingPeriods : list VacationPeriod) (minGapBetweenPeriods : Number)
    : bool :=
  let bufferStartDate :=
    addDays startDate0 (numSub (Some 0) minGapBetweenPeriods) in
  let bufferEndDate := addDays endDate0 minGapBetweenPeriods in
  (fix loop (periods : list VacationPeriod) : bool :=
     match periods with
     | [] => false
     | period0 :: rest =>
         if numLe bufferStartDate (endDate period0)
            && numGe bufferEndDate (startDate period0)
         then true
         else loop rest
     end) existingPeriods.

Definition calculateTotalDaysOff (period0 : VacationPeriod) : Number :=
  let totalDays :=
    numAdd (numFloorDiv (numSub (getTime (endDate period0))
                                (getTime (startDate period0)))
                        msPerDay)
           (Some 1) in
  totalDays.

Fixpoint searchLoop (fuel : nat) (maxSearchDate : Date)
    (existingPeriods : list VacationPeriod) (daysCount0 : Number)
    (minGapBetweenPeriods : Number) (currentDate : Date)
    (candidatePeriods : list Candidate) : outcome (list Candidate) :=
  match fuel with
  | O => OutOfFuel
  | S fuel' =>
      if numLe currentDate maxSearchDate then
        if numNe (getDay currentDate) (Some 0)
           && numNe (getDay currentDate) (Some 6)
           && negb (isHoliday currentDate)
        then
          let vacationStartDate := currentDate in
          let vacationEndDate :=
            addDays vacationStartDate (numSub daysCount0 (Some 1)) in
          if numGt vacationEndDate maxSearchDate
          then Returns candidatePeriods
          else
            extraStartDate <- calculateExtraStartDate fuel vacationStartDate ;;
            extraEndDate <- calculateExtraEndDate fuel vacationEndDate ;;
            let overlaps := checkForOverlaps extraStartDate extraEndDate
                              existingPeriods minGapBetweenPeriods in
            if negb overlaps then
              let period0 := mkVacationPeriod extraStartDate extraEndDate
                               vacationStartDate vacationEndDate daysCount0 in
              let totalDaysOff0 := calculateTotalDaysOff period0 in
              searchLoop fuel' maxSearchDate existingPeriods daysCount0
                minGapBetweenPeriods (addDays currentDate (Some 1))
                (candidatePeriods ++ [mkCandidate period0 totalDaysOff0])
            else
              searchLoop fuel' maxSearchDate existingPeriods daysCount0
                minGapBetweenPeriods (addDays currentDate (Some 1))
                candidatePeriods
        else
          searchLoop fuel' maxSearchDate existingPeriods daysCount0
            minGapBetweenPeriods (addDays currentDate (Some 1))
            candidatePeriods
      else Returns candidatePeriods
  end.

Definition compareCandidates (startDate0 : Date) (a b : Candidate) : Number :=
  if numNe (totalDaysOff b) (totalDaysOff a)
  then numSub (totalDaysOff b) (totalDaysOff a)
  else
    let diffA := numAbs (numSub (getTime (usedStartDate (period a)))
                                (getTime startDate0)) in
    let diffB := numAbs (numSub (getTime (usedStartDate (period b)))
                                (getTime startDate0)) in
    numSub diffA diffB.

Definition findBestAvailablePeriods (fuel : nat) (startDate0 endDate0 : Date)
    (existingPeriods : list VacationPeriod) (daysCount0 : Number)
    (minGapBetweenPeriods : Number) : outcome (list VacationPeriod) :=
  candidatePeriods <- searchLoop fuel endDate0 existingPeriods daysCount0
                        minGapBetweenPeriods startDate0 [] ;;
  if Z.of_nat (List.length candidatePeriods) =? 0
  then Throws noPeriodMessage
  else Returns (map period
                  (sortBy (sortKey (compareCandidates startDate0))
                          candidatePeriods)).

(** [for (let vacationDays = minVacationDays;
          vacationDays <= maxVacationDays; vacationDays++)] with its
    [try] and [catch]. *)
Fixpoint sweepLoop (fuel : nat) (currentStartDate searchEndDate : Date)
    (vacationDays maxVacationDays0 : Number)
    (allCandidatePeriods : list VacationPeriod)
    : outcome (list VacationPeriod) :=
  match fuel with
  | O => OutOfFuel
  | S fuel' =>
      if numLe vacationDays maxVacationDays0 then
        match findBestAvailablePeriods fuel currentStartDate searchEndDate []
                vacationDays (Some 0) with
        | Returns periods =>
            sweepLoop fuel' currentStartDate searchEndDate
              (numAdd vacationDays (Some 1)) maxVacationDays0
              (allCandidatePeriods ++ periods)
        | Throws _ =>
            sweepLoop fuel' currentStartDate searchEndDate
              (numAdd vacationDays (Some 1)) maxVacationDays0
              allCandidatePeriods
        | OutOfFuel => OutOfFuel
        end
      else Returns allCandidatePeriods
  end.

Definition extraDaysOf (period0 : VacationPeriod) : Number :=
  let totalDays := calculateTotalDaysOff period0 in
  numSub totalDays (daysCount period0).

Definition keepPeriod (period0 : VacationPeriod) : bool :=
  let extraDays := extraDaysOf period0 in
  numGt extraDays (Some 0).

Definition comparePeriods (a b : VacationPeriod) : Number :=
  let extraDaysA := extraDaysOf a in
  let extraDaysB := extraDaysOf b in
  if numNe extraDaysB extraDaysA
  then numSub extraDaysB extraDaysA
  else numSub (getTime (usedStartDate a)) (getTime (usedStartDate b)).

Definition handleCalculate (fuel : nat) (formData : FormData)
    : outcome (list VacationPeriod) :=
  let currentStartDate := formStartDate formData in
  let searchEndDate := formEndDate formData in
  allCandidatePeriods <- sweepLoop fuel currentStartDate searchEndDate
                           (minVacationDays formData)
                           (maxVacationDays formData) [] ;;
  let filteredPeriods := filter keepPeriod allCandidatePeriods in
  Returns (sortBy (sortKey comparePeriods) filteredPeriods).

(** [totalDays] of [CalendarView], counted day by day. *)
Fixpoint totalDaysLoop (fuel : nat) (currentDate endDateValue : Date)
    (totalDays : Z) : outcome Z :=
  match fuel with
  | O => OutOfFuel
  | S fuel' =>
      if numLe currentDate endDateValue
      then totalDaysLoop fuel' (addDays currentDate (Some 1)) endDateValue
             (totalDays + 1)
      else Returns totalDays
  end.

Definition viewTotalDays (fuel : nat) (startDate0 endDate0 : Date)
    : outcome Z :=
  let currentDate := setHoursZero startDate0 in
  let endDateValue := setHoursZero endDate0 in
  totalDaysLoop fuel currentDate endDateValue 0.

(** The extra days of the specification: the calendar days of the extended
    window, both ends included, less the day count. *)
Definition calendarExtraDays (p : VacationPeriod) : Number :=
  numSub (numAdd (numSub (localDay (endDate p)) (localDay (startDate p)))
                 (Some 1))
         (daysCount p).

End Zone.

End Js.

(** ** Scenarios on time values *)

(** The date fields of the form give midnight universal time.  A horizon
    entered as 2025-03-04 to 2025-03-22, five vacation days. *)
Definition marchForm : Js.FormData :=
  Js.mkFormData (Some 5) (Some 5) (Some (ymd 2025 3 4)) (Some (ymd 2025 3 22)).

(** In New York that horizon starts on Monday 2025-03-03 at 19:00.  The
    period of that Monday: Saturday 03-01 19:00 to Sunday 03-09 19:00, the
    clocks going forward in its last night. *)
Definition marchThirdPeriod : Js.VacationPeriod :=
  Js.mkVacationPeriod (Some (ymd 2025 3 2)) (Some (ymdhm 2025 3 9 23 0))
    (Some (ymd 2025 3 4)) (Some (ymd 2025 3 8)) (Some 5).

(** The period of Tuesday 03-04: it ends on Saturday and has Sunday 03-09
    attached. *)
Definition marchFourthPeriod : Js.VacationPeriod :=
  Js.mkVacationPeriod (Some (ymd 2025 3 5)) (Some (ymdhm 2025 3 9 23 0))
    (Some (ymd 2025 3 5)) (Some (ymd 2025 3 9)) (Some 5).

(** The period of Monday 03-17, all in daylight time. *)
Definition marchSeventeenthPeriod : Js.VacationPeriod :=
  Js.mkVacationPeriod (Some (ymdhm 2025 3 15 23 0))
    (Some (ymdhm 2025 3 23 23 0)) (Some (ymdhm 2025 3 17 23 0))
    (Some (ymdhm 2025 3 21 23 0)) (Some 5).

(** The week Monday 2025-01-06 to Friday 2025-01-10 with day counts that
    [hasErrors] accepts and that carry a date past the last time value. *)
Definition hugeDayCount : Z := 100000000.

Definition firstOverflowingDayCount : Z := 99979908.

Definition hugeForm (dayCount : Z) : Js.FormData :=
  Js.mkFormData (Some dayCount) (Some dayCount)
    (Some (ymd 2025 1 6)) (Some (ymd 2025 1 10)).

(** A period whose core end and extended end are Invalid Dates. *)
Definition brokenPeriod (dayCount : Z) (startDate0 usedStartDate0 : Z)
    : Js.VacationPeriod :=
  Js.mkVacationPeriod (Some startDate0) None (Some usedStartDate0) None
    (Some dayCount).

Definition brokenWeek (dayCount : Z) : list Js.VacationPeriod :=
  [ brokenPeriod dayCount (ymd 2025 1 4) (ymd 2025 1 6);
    brokenPeriod dayCount (ymd 2025 1 7) (ymd 2025 1 7);
    brokenPeriod dayCount (ymd 2025 1 8) (ymd 2025 1 8);
    brokenPeriod dayCount (ymd 2025 1 9) (ymd 2025 1 9);
    brokenPeriod dayCount (ymd 2025 1 10) (ymd 2025 1 10) ].


(** ** Vocabulary of the statements

    Nothing below is part of the program: these definitions name what the
    properties talk about. *)

(** Saturday and Sunday: what [getDay] tests in both places of the source. *)
Definition isWeekend (d : Date) : bool := (getDay d =? 0) || (getDay d =? 6).

(** [m] instants one day apart, from [d] on. *)
Fixpoint daysFrom (m : nat) (d : Date) : list Date :=
  match m with
  | O => []
  | S m' => d :: daysFrom m' (addDays d 1)
  end.

(** The dates a scan of the horizon looks at: [startDate], one day later,
    and so on while not after [endDate]. *)
Definition horizonDates (startDate0 endDate0 : Date) : list Date :=
  daysFrom (Z.to_nat ((endDate0 - startDate0) / msPerDay + 1)) startDate0.

(** The integers [lo], [lo + 1], ..., [hi]. *)
Definition fromTo (lo hi : Z) : list Z :=
  map (fun k => lo + Z.of_nat k) (seq 0 (Z.to_nat (hi - lo + 1))).

(** The records one provider span turns into. *)
Definition spanLength (h : ProviderHoliday) : nat :=
  if h_start h <? h_end h
  then Z.to_nat ((h_end h - h_start h - 1) / msPerDay + 1)
  else O.

Definition flattenSpan (h : ProviderHoliday) : list Holiday :=
  map (fun d => mkHoliday d (h_name h)) (daysFrom (spanLength h) (h_start h)).

Section Vocabulary.

Variable holidays : list Holiday.

(** The candidate built for the start date [d] and [n] vacation days. *)
Definition periodAt (n : Z) (d : Date) : VacationPeriod :=
  mkVacationPeriod (calculateExtraStartDate holidays d)
    (calculateExtraEndDate holidays (addDays d (n - 1)))
    d (addDays d (n - 1)) n.

Definition candidateAt (n : Z) (d : Date) : Candidate :=
  mkCandidate (periodAt n d) (calculateTotalDaysOff (periodAt n d)).

(** A start date is a workday whose core window ends inside the horizon. *)
Definition fitsAt (endDate0 : Date) (n : Z) (d : Date) : bool :=
  negb (isWeekendOrHoliday holidays d) && (addDays d (n - 1) <=? endDate0).

(** ... and whose extended window passes the overlap check. *)
Definition admissible (endDate0 : Date) (existingPeriods : list VacationPeriod)
    (n : Z) (minGap : Z) (d : Date) : bool :=
  fitsAt endDate0 n d &&
  negb (checkForOverlaps (startDate (periodAt n d)) (endDate (periodAt n d))
          existingPeriods minGap).

(** The invariants of a vacation period. *)
Definition wellFormedPeriod (p : VacationPeriod) : Prop :=
  (startDate p <= usedStartDate p /\ usedStartDate p <= usedEndDate p /\
   usedEndDate p <= endDate p) /\
  dayNumber (usedEndDate p) - dayNumber (usedStartDate p) + 1 = daysCount p /\
  isWeekend (usedStartDate p) = false /\
  isHoliday holidays (usedStartDate p) = false.

(** The order of the final result: more extra days first, and among equal
    extra days the earlier vacation first. *)
Definition rankedBefore (a b : VacationPeriod) : Prop :=
  extraDaysOf b < extraDaysOf a \/
  (extraDaysOf a = extraDaysOf b /\ usedStartDate a <= usedStartDate b).

End Vocabulary.

(** The order inside what [findBestAvailablePeriods] returns: more days off
    first, and among equal days off the earlier vacation first. *)
Definition internalRank (a b : VacationPeriod) : Prop :=
  calculateTotalDaysOff b < calculateTotalDaysOff a \/
  (calculateTotalDaysOff a = calculateTotalDaysOff b /\
   usedStartDate a <= usedStartDate b).

(** The complete order of the final result: by extra days descending, then
    by first vacation day ascending, then by day count ascending. *)
Definition fullRank (a b : VacationPeriod) : Prop :=
  extraDaysOf b < extraDaysOf a \/
  (extraDaysOf a = extraDaysOf b /\
   (usedStartDate a < usedStartDate b \/
    (usedStartDate a = usedStartDate b /\ daysCount a < daysCount b))).

(** What one day count adds to [allCandidatePeriods]. *)
Definition contribution (r : result (list VacationPeriod))
    : list VacationPeriod :=
  match r with
  | Ok periods => periods
  | Thrown _ => []
  end.

(** ** Scenarios *)

(** Wednesday 2025-01-01 is the only holiday. *)
Definition scenarioHolidays : list Holiday :=
  [mkHoliday (ymd 2025 1 1) "New Year"].

(** The whole of 2025, five vacation days. *)
Definition yearForm : FormData :=
  mkFormData "BR" EmptyString 5 5 (ymd 2025 1 1) (ymd 2025 12 31).

(** The working week Monday 2025-01-06 to Friday 2025-01-10. *)
Definition weekForm (minDays maxDays : Z) : FormData :=
  mkFormData "BR" EmptyString minDays maxDays (ymd 2025 1 6) (ymd 2025 1 10).

(** The period of the week above with its two weekends. *)
Definition weekPeriod : VacationPeriod :=
  mkVacationPeriod (ymd 2025 1 4) (ymd 2025 1 12)
                   (ymd 2025 1 6) (ymd 2025 1 10) 5.

(** ** Facts about dates *)

Example ymd_epoch : ymd 1970 1 1 = 0.
Proof. reflexivity. Qed.

Example ymd_2025 : ymd 2025 1 1 = 1735689600000.
Proof. reflexivity. Qed.

Example getDay_thursday : getDay (ymd 1970 1 1) = 4.
Proof. reflexivity. Qed.

Example getDay_before_epoch : getDay (ymdhm 1969 12 28 23 59) = 0.
Proof. reflexivity. Qed.

Example getFullYear_last_day : getFullYear (ymdhm 2024 12 31 23 59) = 2024.
Proof. reflexivity. Qed.

Example getFullYear_first_day : getFullYear (ymd 2025 1 1) = 2025.
Proof. reflexivity. Qed.

Example getFullYear_leap_day : getFullYear (ymd 2024 2 29) = 2024.
Proof. reflexivity. Qed.

Example setHoursZero_afternoon :
  setHoursZero (ymdhm 2025 1 6 15 30) = ymd 2025 1 6.
Proof. reflexivity. Qed.

Example addDays_over_month : addDays (ymd 2025 1 30) 3 = ymd 2025 2 2.
Proof. reflexivity. Qed.

Lemma msPerDay_pos : 0 < msPerDay.
Proof. reflexivity. Qed.

Lemma dayNumber_addDays (d : Date) (n : Z) :
  dayNumber (addDays d n) = dayNumber d + n.
Proof.
  unfold dayNumber, addDays. apply Z.div_add. pose proof msPerDay_pos. lia.
Qed.

Lemma addDays_addDays (d : Date) (n m : Z) :
  addDays (addDays d n) m = addDays d (n + m).
Proof. unfold addDays, Date. ring. Qed.

Lemma addDays_0 (d : Date) : addDays d 0 = d.
Proof. unfold addDays, Date. ring. Qed.

Lemma addDays_le (d : Date) (n m : Z) : n <= m -> addDays d n <= addDays d m.
Proof. unfold addDays. pose proof msPerDay_pos. nia. Qed.

Lemma addDays_lt (d : Date) (n m : Z) : n < m -> addDays d n < addDays d m.
Proof. unfold addDays. pose proof msPerDay_pos. nia. Qed.

Lemma setHoursZero_eq_iff (a b : Date) :
  setHoursZero a = setHoursZero b <-> dayNumber a = dayNumber b.
Proof.
  unfold setHoursZero. split; intros H.
  - apply Z.mul_cancel_r in H; [exact H | pose proof msPerDay_pos; lia].
  - now rewrite H.
Qed.

Lemma setHoursZero_le (d : Date) :
  setHoursZero d <= d < setHoursZero d + msPerDay.
Proof.
  unfold setHoursZero, dayNumber.
  pose proof (Z.mul_div_le d msPerDay msPerDay_pos).
  pose proof (Z.mul_succ_div_gt d msPerDay msPerDay_pos). lia.
Qed.

Lemma dayNumber_mono (a b : Date) : a <= b -> dayNumber a <= dayNumber b.
Proof. intros H. apply Z.div_le_mono; [reflexivity | exact H]. Qed.

Lemma isWeekend_three_days (d : Date) :
  isWeekend d = true -> isWeekend (addDays d (-1)) = true ->
  isWeekend (addDays d (-2)) = false.
Proof.
  unfold isWeekend, getDay. rewrite !dayNumber_addDays.
  rewrite !orb_true_iff, orb_false_iff, !Z.eqb_eq, !Z.eqb_neq.
  generalize (dayNumber d). intros n. Z.div_mod_to_equations. lia.
Qed.

Lemma isWeekend_three_days_fwd (d : Date) :
  isWeekend d = true -> isWeekend (addDays d 1) = true ->
  isWeekend (addDays d 2) = false.
Proof.
  unfold isWeekend, getDay. rewrite !dayNumber_addDays.
  rewrite !orb_true_iff, orb_false_iff, !Z.eqb_eq, !Z.eqb_neq.
  generalize (dayNumber d). intros n. Z.div_mod_to_equations. lia.
Qed.

(** ** Facts about the day classifier and the expansion loops *)

Section EngineFacts.

Variable holidays : list Holiday.

Lemma isHoliday_iff (d : Date) :
  isHoliday holidays d = true <->
  exists holiday, In holiday holidays /\
                  dayNumber (date holiday) = dayNumber d.
Proof.
  unfold isHoliday, getTime. rewrite existsb_exists.
  split; intros [h [Hin Hd]]; exists h; split; trivial.
  - apply Z.eqb_eq in Hd. now apply setHoursZero_eq_iff.
  - apply Z.eqb_eq. now apply setHoursZero_eq_iff.
Qed.

Lemma isHoliday_same_day (a b : Date) :
  dayNumber a = dayNumber b -> isHoliday holidays a = isHoliday holidays b.
Proof.
  intros H. apply eq_true_iff_eq. rewrite !isHoliday_iff. now rewrite H.
Qed.

Lemma isWeekendOrHoliday_split (d : Date) :
  isWeekendOrHoliday holidays d = isWeekend d || isHoliday holidays d.
Proof. reflexivity. Qed.

Lemma isWeekendOrHoliday_same_day (a b : Date) :
  dayNumber a = dayNumber b ->
  isWeekendOrHoliday holidays a = isWeekendOrHoliday holidays b.
Proof.
  intros H. rewrite !isWeekendOrHoliday_split.
  rewrite (isHoliday_same_day a b H). unfold isWeekend, getDay. now rewrite H.
Qed.

Lemma lowestDay_le (n : Z) : lowestDay holidays n <= n.
Proof.
  unfold lowestDay. induction (holidayDays holidays); simpl; lia.
Qed.

Lemma lowestDay_le_holiday (n : Z) (holiday : Holiday) :
  In holiday holidays -> lowestDay holidays n <= dayNumber (date holiday).
Proof.
  intros Hin. unfold lowestDay.
  assert (Hd : In (dayNumber (date holiday)) (holidayDays holidays))
    by (unfold holidayDays; apply in_map_iff; eauto).
  revert Hd. induction (holidayDays holidays) as [|x l IH]; simpl;
    [intros [] | intros [->|H]; [lia | specialize (IH H); lia]].
Qed.

Lemma highestDay_ge (n : Z) : n <= highestDay holidays n.
Proof.
  unfold highestDay. induction (holidayDays holidays); simpl; lia.
Qed.

Lemma highestDay_ge_holiday (n : Z) (holiday : Holiday) :
  In holiday holidays -> dayNumber (date holiday) <= highestDay holidays n.
Proof.
  intros Hin. unfold highestDay.
  assert (Hd : In (dayNumber (date holiday)) (holidayDays holidays))
    by (unfold holidayDays; apply in_map_iff; eauto).
  revert Hd. induction (holidayDays holidays) as [|x l IH]; simpl;
    [intros [] | intros [->|H]; [lia | specialize (IH H); lia]].
Qed.

Lemma isHoliday_below (n : Z) (d : Date) :
  dayNumber d < lowestDay holidays n -> isHoliday holidays d = false.
Proof.
  intros H. apply not_true_is_false. rewrite isHoliday_iff.
  intros [h [Hin Hd]]. pose proof (lowestDay_le_holiday n h Hin). lia.
Qed.

Lemma isHoliday_above (n : Z) (d : Date) :
  highestDay holidays n < dayNumber d -> isHoliday holidays d = false.
Proof.
  intros H. apply not_true_is_false. rewrite isHoliday_iff.
  intros [h [Hin Hd]]. pose proof (highestDay_ge_holiday n h Hin). lia.
Qed.



(** Below every holiday the backward walk meets a weekday within three
    probes. *)
Lemma extraStartLoop_weekends_only (m : Z) (e t : Date) :
  dayNumber t < lowestDay holidays m ->
  exists r, extraStartLoop holidays 3 e t = Some r.
Proof.
  intros Hlow. simpl.
  assert (H0 : isHoliday holidays t = false) by (apply (isHoliday_below m); lia).
  assert (H1 : isHoliday holidays (addDays t (-1)) = false)
    by (apply (isHoliday_below m); rewrite dayNumber_addDays; lia).
  assert (H2 : isHoliday holidays (addDays (addDays t (-1)) (-1)) = false)
    by (apply (isHoliday_below m); rewrite !dayNumber_addDays; lia).
  rewrite !isWeekendOrHoliday_split, H0, H1, H2, !orb_false_r.
  destruct (isWeekend t) eqn:W0; [|eauto].
  destruct (isWeekend (addDays t (-1))) eqn:W1; [|eauto].
  rewrite addDays_addDays. simpl Z.add.
  rewrite (isWeekend_three_days t W0 W1). eauto.
Qed.

Lemma extraStartLoop_enough (m : Z) (n : nat) (e t : Date) :
  dayNumber t - lowestDay holidays m < Z.of_nat n ->
  exists r, extraStartLoop holidays (n + 3) e t = Some r.
Proof.
  revert e t. induction n as [|n IH]; intros e t H.
  - apply (extraStartLoop_weekends_only m). lia.
  - simpl. destruct (isWeekendOrHoliday holidays t); [|eauto].
    apply IH. rewrite dayNumber_addDays. lia.
Qed.

Lemma extraEndLoop_weekends_only (m : Z) (e t : Date) :
  highestDay holidays m < dayNumber t ->
  exists r, extraEndLoop holidays 3 e t = Some r.
Proof.
  intros Hhigh. simpl.
  assert (H0 : isHoliday holidays t = false) by (apply (isHoliday_above m); lia).
  assert (H1 : isHoliday holidays (addDays t 1) = false)
    by (apply (isHoliday_above m); rewrite dayNumber_addDays; lia).
  assert (H2 : isHoliday holidays (addDays (addDays t 1) 1) = false)
    by (apply (isHoliday_above m); rewrite !dayNumber_addDays; lia).
  rewrite !isWeekendOrHoliday_split, H0, H1, H2, !orb_false_r.
  destruct (isWeekend t) eqn:W0; [|eauto].
  destruct (isWeekend (addDays t 1)) eqn:W1; [|eauto].
  rewrite addDays_addDays. simpl Z.add.
  rewrite (isWeekend_three_days_fwd t W0 W1). eauto.
Qed.

Lemma extraEndLoop_enough (m : Z) (n : nat) (e t : Date) :
  highestDay holidays m - dayNumber t < Z.of_nat n ->
  exists r, extraEndLoop holidays (n + 3) e t = Some r.
Proof.
  revert e t. induction n as [|n IH]; intros e t H.
  - apply (extraEndLoop_weekends_only m). lia.
  - simpl. destruct (isWeekendOrHoliday holidays t); [|eauto].
    apply IH. rewrite dayNumber_addDays. lia.
Qed.

Lemma extraStartLoop_startFuel (e t : Date) :
  exists r, extraStartLoop holidays (startFuel holidays t) e t = Some r.
Proof.
  unfold startFuel.
  replace (Z.to_nat (dayNumber t - lowestDay holidays (dayNumber t)) + 4)%nat
    with ((Z.to_nat (dayNumber t - lowestDay holidays (dayNumber t)) + 1) + 3)%nat
    by lia.
  apply (extraStartLoop_enough (dayNumber t)).
  pose proof (lowestDay_le (dayNumber t)). lia.
Qed.

Lemma extraEndLoop_endFuel (e t : Date) :
  exists r, extraEndLoop holidays (endFuel holidays t) e t = Some r.
Proof.
  unfold endFuel.
  replace (Z.to_nat (highestDay holidays (dayNumber t) - dayNumber t) + 4)%nat
    with ((Z.to_nat (highestDay holidays (dayNumber t) - dayNumber t) + 1) + 3)%nat
    by lia.
  apply (extraEndLoop_enough (dayNumber t)).
  pose proof (highestDay_ge (dayNumber t)). lia.
Qed.

(** What a returned backward walk has seen: [k] non-workdays in a row,
    then a workday. *)
Lemma extraStartLoop_run (f : nat) (e t r : Date) :
  extraStartLoop holidays f e t = Some r ->
  exists k : nat,
    r = addDays e (- Z.of_nat k) /\
    (forall j, 0 <= j < Z.of_nat k ->
               isWeekendOrHoliday holidays (addDays t (- j)) = true) /\
    isWeekendOrHoliday holidays (addDays t (- Z.of_nat k)) = false.
Proof.
  revert e t. induction f as [|f IH]; intros e t H; [discriminate|].
  simpl in H. destruct (isWeekendOrHoliday holidays t) eqn:W.
  - destruct (IH _ _ H) as [k [Hr [Hrun Hstop]]]. exists (S k).
    rewrite addDays_addDays in Hr, Hstop.
    replace (- Z.of_nat (S k)) with (-1 + - Z.of_nat k) by lia.
    repeat split; trivial. intros j Hj.
    destruct (Z.eq_dec j 0) as [->|Hne]; [now rewrite addDays_0|].
    specialize (Hrun (j - 1)). rewrite addDays_addDays in Hrun.
    replace (-1 + - (j - 1)) with (- j) in Hrun by lia. apply Hrun. lia.
  - injection H as <-. exists 0%nat. simpl. rewrite !addDays_0.
    repeat split; trivial. intros j Hj. lia.
Qed.

Lemma extraEndLoop_run (f : nat) (e t r : Date) :
  extraEndLoop holidays f e t = Some r ->
  exists k : nat,
    r = addDays e (Z.of_nat k) /\
    (forall j, 0 <= j < Z.of_nat k ->
               isWeekendOrHoliday holidays (addDays t j) = true) /\
    isWeekendOrHoliday holidays (addDays t (Z.of_nat k)) = false.
Proof.
  revert e t. induction f as [|f IH]; intros e t H; [discriminate|].
  simpl in H. destruct (isWeekendOrHoliday holidays t) eqn:W.
  - destruct (IH _ _ H) as [k [Hr [Hrun Hstop]]]. exists (S k).
    rewrite addDays_addDays in Hr, Hstop.
    replace (Z.of_nat (S k)) with (1 + Z.of_nat k) by lia.
    repeat split; trivial. intros j Hj.
    destruct (Z.eq_dec j 0) as [->|Hne]; [now rewrite addDays_0|].
    specialize (Hrun (j - 1)). rewrite addDays_addDays in Hrun.
    replace (1 + (j - 1)) with j in Hrun by lia. apply Hrun. lia.
  - injection H as <-. exists 0%nat. simpl. rewrite !addDays_0.
    repeat split; trivial. intros j Hj. lia.
Qed.

(** The two expanders, in terms of the number of days they attach. *)
Lemma calculateExtraStartDate_run (v : Date) :
  exists k : nat,
    calculateExtraStartDate holidays v = addDays v (- Z.of_nat k) /\
    (forall j, 1 <= j <= Z.of_nat k ->
               isWeekendOrHoliday holidays (addDays v (- j)) = true) /\
    isWeekendOrHoliday holidays (addDays v (- Z.of_nat k - 1)) = false.
Proof.
  unfold calculateExtraStartDate.
  destruct (extraStartLoop_startFuel v (addDays v (-1))) as [r Hr].
  rewrite Hr. destruct (extraStartLoop_run _ _ _ _ Hr) as [k [-> [Hrun Hstop]]].
  exists k. rewrite addDays_addDays in Hstop.
  replace (-1 + - Z.of_nat k) with (- Z.of_nat k - 1) in Hstop by lia.
  repeat split; trivial. intros j Hj.
  specialize (Hrun (j - 1)). rewrite addDays_addDays in Hrun.
  replace (-1 + - (j - 1)) with (- j) in Hrun by lia. apply Hrun. lia.
Qed.

Lemma calculateExtraEndDate_run (v : Date) :
  exists k : nat,
    calculateExtraEndDate holidays v = addDays v (Z.of_nat k) /\
    (forall j, 1 <= j <= Z.of_nat k ->
               isWeekendOrHoliday holidays (addDays v j) = true) /\
    isWeekendOrHoliday holidays (addDays v (Z.of_nat k + 1)) = false.
Proof.
  unfold calculateExtraEndDate.
  destruct (extraEndLoop_endFuel v (addDays v 1)) as [r Hr].
  rewrite Hr. destruct (extraEndLoop_run _ _ _ _ Hr) as [k [-> [Hrun Hstop]]].
  exists k. rewrite addDays_addDays in Hstop.
  replace (1 + Z.of_nat k) with (Z.of_nat k + 1) in Hstop by lia.
  repeat split; trivial. intros j Hj.
  specialize (Hrun (j - 1)). rewrite addDays_addDays in Hrun.
  replace (1 + (j - 1)) with j in Hrun by lia. apply Hrun. lia.
Qed.

Lemma calculateExtraStartDate_le (v : Date) :
  calculateExtraStartDate holidays v <= v.
Proof.
  destruct (calculateExtraStartDate_run v) as [k [-> _]].
  rewrite <- (addDays_0 v) at 2. apply addDays_le. lia.
Qed.

Lemma calculateExtraEndDate_ge (v : Date) :
  v <= calculateExtraEndDate holidays v.
Proof.
  destruct (calculateExtraEndDate_run v) as [k [-> _]].
  rewrite <- (addDays_0 v) at 1. apply addDays_le. lia.
Qed.

(** C3. The expander attaches to a core window exactly the maximal run of
    non-workdays that touches it.  For every core window, with
    [extendedStart = calculateExtraStartDate coreStart] and
    [extendedEnd = calculateExtraEndDate coreEnd]: the extended window
    contains the core window and is a whole number of days away from it on
    each side; every calendar day from that of [extendedStart] up to the day
    before [coreStart], and from the day after [coreEnd] up to that of
    [extendedEnd], is a weekend day or a holiday; the day just before
    [extendedStart] and the day just after [extendedEnd] are workdays; hence
    a workday before (after) the core window is never inside or jumped over
    by the extension: it lies strictly before [extendedStart]
    (after [extendedEnd]). *)
Theorem C3_expansion_is_maximal_contiguous_run (coreStart coreEnd : Date) :
  let extendedStart := calculateExtraStartDate holidays coreStart in
  let extendedEnd := calculateExtraEndDate holidays coreEnd in
  (extendedStart <= coreStart /\ coreEnd <= extendedEnd) /\
  (exists k, 0 <= k /\ extendedStart = addDays coreStart (- k)) /\
  (exists k, 0 <= k /\ extendedEnd = addDays coreEnd k) /\
  (forall d, dayNumber extendedStart <= dayNumber d < dayNumber coreStart ->
             isWeekendOrHoliday holidays d = true) /\
  (forall d, dayNumber coreEnd < dayNumber d <= dayNumber extendedEnd ->
             isWeekendOrHoliday holidays d = true) /\
  isWeekendOrHoliday holidays (addDays extendedStart (-1)) = false /\
  isWeekendOrHoliday holidays (addDays extendedEnd 1) = false /\
  (forall d, isWeekendOrHoliday holidays d = false ->
             dayNumber d < dayNumber coreStart ->
             dayNumber d < dayNumber extendedStart) /\
  (forall d, isWeekendOrHoliday holidays d = false ->
             dayNumber coreEnd < dayNumber d ->
             dayNumber extendedEnd < dayNumber d).
Proof.
  intros extendedStart extendedEnd.
  pose proof (calculateExtraStartDate_le coreStart) as Hle.
  pose proof (calculateExtraEndDate_ge coreEnd) as Hge.
  destruct (calculateExtraStartDate_run coreStart) as [ks [Hs [Hruns Hstops]]].
  destruct (calculateExtraEndDate_run coreEnd) as [ke [He [Hrune Hstope]]].
  fold extendedStart in Hs, Hle. fold extendedEnd in He, Hge.
  assert (Back : forall d,
             dayNumber extendedStart <= dayNumber d < dayNumber coreStart ->
             isWeekendOrHoliday holidays d = true).
  { intros d Hd. rewrite Hs, dayNumber_addDays in Hd.
    rewrite (isWeekendOrHoliday_same_day d
               (addDays coreStart (- (dayNumber coreStart - dayNumber d)))).
    - apply Hruns. lia.
    - rewrite dayNumber_addDays. lia. }
  assert (Forth : forall d,
             dayNumber coreEnd < dayNumber d <= dayNumber extendedEnd ->
             isWeekendOrHoliday holidays d = true).
  { intros d Hd. rewrite He, dayNumber_addDays in Hd.
    rewrite (isWeekendOrHoliday_same_day d
               (addDays coreEnd (dayNumber d - dayNumber coreEnd))).
    - apply Hrune. lia.
    - rewrite dayNumber_addDays. lia. }
  split; [split; assumption|].
  split; [exists (Z.of_nat ks); split; [lia | exact Hs]|].
  split; [exists (Z.of_nat ke); split; [lia | exact He]|].
  split; [exact Back|]. split; [exact Forth|].
  split; [rewrite Hs, addDays_addDays;
          replace (- Z.of_nat ks + -1) with (- Z.of_nat ks - 1) by lia;
          exact Hstops|].
  split; [rewrite He, addDays_addDays; exact Hstope|].
  split.
  - intros d Hw Hd.
    destruct (Z.lt_ge_cases (dayNumber d) (dayNumber extendedStart)) as [?|Hc];
      trivial.
    rewrite Back in Hw by lia. discriminate.
  - intros d Hw Hd.
    destruct (Z.lt_ge_cases (dayNumber extendedEnd) (dayNumber d)) as [?|Hc];
      trivial.
    rewrite Forth in Hw by lia. discriminate.
Qed.


End EngineFacts.

(** ** Facts about lists of dates *)

Lemma daysFrom_In (m : nat) (s d : Date) :
  In d (daysFrom m s) <->
  exists k, 0 <= k < Z.of_nat m /\ d = addDays s k.
Proof.
  revert s. induction m as [|m IH]; intros s; simpl.
  - split; [intros [] | intros [k [Hk _]]; lia].
  - rewrite IH. split.
    + intros [<-|[k [Hk ->]]].
      * exists 0. rewrite addDays_0. split; [lia | reflexivity].
      * exists (1 + k). rewrite addDays_addDays. split; [lia | reflexivity].
    + intros [k [Hk ->]]. destruct (Z.eq_dec k 0) as [->|Hne].
      * left. now rewrite addDays_0.
      * right. exists (k - 1). rewrite addDays_addDays.
        split; [lia | f_equal; lia].
Qed.

Lemma daysFrom_NoDup_days (m : nat) (s : Date) :
  NoDup (map dayNumber (daysFrom m s)).
Proof.
  revert s. induction m as [|m IH]; intros s; simpl; constructor.
  - rewrite in_map_iff. intros [d [Hd Hin]].
    apply daysFrom_In in Hin. destruct Hin as [k [Hk ->]].
    rewrite !dayNumber_addDays in Hd. lia.
  - apply IH.
Qed.

Lemma NoDup_map_inv_list {A B : Type} (f : A -> B) (l : list A) :
  NoDup (map f l) -> NoDup l.
Proof.
  induction l as [|x l IH]; simpl; intros H; constructor;
    inversion H as [|? ? Hn Hd]; subst.
  - intros Hin. apply Hn. now apply in_map.
  - now apply IH.
Qed.

Lemma daysFrom_NoDup (m : nat) (s : Date) : NoDup (daysFrom m s).
Proof. apply (NoDup_map_inv_list dayNumber), daysFrom_NoDup_days. Qed.

Lemma horizonDates_In (s e d : Date) :
  In d (horizonDates s e) <-> exists k, 0 <= k /\ d = addDays s k /\ d <= e.
Proof.
  unfold horizonDates. rewrite daysFrom_In.
  pose proof msPerDay_pos as Hpos.
  split; intros [k [Hk Hd]]; exists k.
  - subst d. split; [lia|]. split; [reflexivity|].
    assert (Hq : k <= (e - s) / msPerDay) by lia.
    pose proof (Z.mul_div_le (e - s) msPerDay Hpos).
    unfold addDays. nia.
  - destruct Hd as [-> Hle]. split; [|reflexivity].
    assert (Hq : k <= (e - s) / msPerDay).
    { apply Z.div_le_lower_bound; [exact Hpos|]. unfold addDays in Hle. lia. }
    lia.
Qed.

Lemma fromTo_In (lo hi n : Z) : In n (fromTo lo hi) <-> lo <= n <= hi.
Proof.
  unfold fromTo. rewrite in_map_iff. split.
  - intros [k [<- Hk]]. apply in_seq in Hk. lia.
  - intros H. exists (Z.to_nat (n - lo)). split; [lia|]. apply in_seq. lia.
Qed.

Lemma fromTo_cons (lo hi : Z) :
  lo <= hi -> fromTo lo hi = lo :: fromTo (lo + 1) hi.
Proof.
  intros H. unfold fromTo.
  replace (Z.to_nat (hi - lo + 1)) with (S (Z.to_nat (hi - (lo + 1) + 1)))
    by lia.
  simpl. f_equal; [lia|]. rewrite <- seq_shift, map_map.
  apply map_ext. intros k. lia.
Qed.

Lemma fromTo_nil (lo hi : Z) : hi < lo -> fromTo lo hi = [].
Proof.
  intros H. unfold fromTo. replace (Z.to_nat (hi - lo + 1)) with O by lia.
  reflexivity.
Qed.

(** ** Facts about the stable sort *)

Section SortFacts.

Context {A : Type}.
Variable cmp : A -> A -> Z.

Let le (a b : A) : Prop := cmp a b <= 0.

Hypothesis cmp_total : forall a b, cmp a b <= 0 \/ cmp b a <= 0.
Hypothesis cmp_trans :
  forall a b c, cmp a b <= 0 -> cmp b c <= 0 -> cmp a c <= 0.

Lemma insertBy_Permutation (x : A) (l : list A) :
  Permutation (x :: l) (insertBy cmp x l).
Proof.
  induction l as [|y l IH]; simpl; [reflexivity|].
  destruct (cmp x y <=? 0); [reflexivity|].
  etransitivity; [apply perm_swap|]. now constructor.
Qed.

Lemma sortBy_Permutation (l : list A) : Permutation l (sortBy cmp l).
Proof.
  induction l as [|x l IH]; simpl; [constructor|].
  etransitivity; [|apply insertBy_Permutation]. now constructor.
Qed.

Lemma insertBy_sorted (x : A) (l : list A) :
  StronglySorted le l -> StronglySorted le (insertBy cmp x l).
Proof.
  induction 1 as [|y l Hs IH Hall]; simpl.
  - constructor; constructor.
  - destruct (cmp x y <=? 0) eqn:C.
    + apply Z.leb_le in C. constructor; [now constructor|].
      constructor; [exact C|].
      eapply Forall_impl; [|exact Hall]. intros b Hb.
      exact (cmp_trans _ _ _ C Hb).
    + apply Z.leb_gt in C. constructor; [exact IH|].
      apply (Permutation_Forall (insertBy_Permutation x l)).
      constructor; [|exact Hall].
      destruct (cmp_total y x) as [H|H]; [exact H | lia].
Qed.

Lemma sortBy_sorted (l : list A) : StronglySorted le (sortBy cmp l).
Proof.
  induction l as [|x l IH]; simpl; [constructor|]. now apply insertBy_sorted.
Qed.

End SortFacts.

Lemma sortBy_In {A : Type} (cmp : A -> A -> Z) (l : list A) (x : A) :
  In x (sortBy cmp l) <-> In x l.
Proof.
  split; intros H.
  - eapply Permutation_in; [symmetry; apply sortBy_Permutation | exact H].
  - eapply Permutation_in; [apply sortBy_Permutation | exact H].
Qed.

Lemma StronglySorted_weaken {A : Type} (R R' : A -> A -> Prop) (l : list A) :
  (forall a b, R a b -> R' a b) -> StronglySorted R l -> StronglySorted R' l.
Proof.
  intros HR. induction 1 as [|x l Hs IH Hall]; constructor; trivial.
  eapply Forall_impl; [|exact Hall]. intros b. apply HR.
Qed.

Lemma StronglySorted_nth_error {A : Type} (R : A -> A -> Prop) (l : list A) :
  StronglySorted R l ->
  forall (i j : nat) (a b : A),
    (i < j)%nat -> nth_error l i = Some a -> nth_error l j = Some b -> R a b.
Proof.
  induction 1 as [|x l Hs IH Hall]; intros i j a b Hij Hi Hj.
  - destruct i; discriminate.
  - destruct j as [|j]; [lia|]. simpl in Hj. destruct i as [|i].
    + injection Hi as <-. rewrite Forall_forall in Hall.
      apply Hall. eapply nth_error_In, Hj.
    + simpl in Hi. apply (IH i j); trivial. lia.
Qed.

(** ** Facts about the scan of the horizon *)

Section SearchFacts.

Variable holidays : list Holiday.

Lemma workday_test (d : Date) :
  negb (getDay d =? 0) && negb (getDay d =? 6) && negb (isHoliday holidays d)
  = negb (isWeekendOrHoliday holidays d).
Proof.
  unfold isWeekendOrHoliday.
  destruct (getDay d =? 0), (getDay d =? 6), (isHoliday holidays d);
    reflexivity.
Qed.

Lemma filter_none {A : Type} (f : A -> bool) (l : list A) :
  (forall x, In x l -> f x = false) -> filter f l = [].
Proof.
  induction l as [|x l IH]; simpl; intros H; [reflexivity|].
  rewrite (H x) by now left. apply IH. intros y Hy. apply H. now right.
Qed.

(** The scan, whatever is already collected and wherever it stands, adds the
    candidates of the admissible dates still ahead, in order. *)
Lemma searchLoop_collects (e : Date) (ex : list VacationPeriod) (n g : Z) :
  forall (m fuel : nat) (cur : Date) (acc : list Candidate),
    (m < fuel)%nat ->
    Z.of_nat m = Z.max 0 ((e - cur) / msPerDay + 1) ->
    searchLoop holidays fuel e ex n g cur acc =
    Some (acc ++ map (candidateAt holidays n)
                     (filter (admissible holidays e ex n g) (daysFrom m cur))).
Proof.
  pose proof msPerDay_pos as Hpos.
  induction m as [|m IH]; intros fuel cur acc Hfuel Hm;
    (destruct fuel as [|fuel]; [lia|]); cbn [searchLoop].
  - assert (Hlt : e < cur).
    { destruct (Z.lt_ge_cases e cur) as [?|Hc]; trivial.
      assert (0 <= (e - cur) / msPerDay) by (apply Z.div_pos; lia). lia. }
    apply Z.leb_gt in Hlt. rewrite Hlt. simpl. now rewrite app_nil_r.
  - assert (Hle : cur <= e).
    { destruct (Z.le_gt_cases cur e) as [?|Hc]; trivial.
      assert ((e - cur) / msPerDay < 0)
        by (apply Z.div_lt_upper_bound; lia). lia. }
    assert (Hnext : Z.of_nat m
                    = Z.max 0 ((e - addDays cur 1) / msPerDay + 1)).
    { unfold addDays.
      replace (e - (cur + 1 * msPerDay)) with (e - cur + (-1) * msPerDay)
        by (unfold Date in *; ring).
      rewrite Z.div_add by lia. lia. }
    apply Z.leb_le in Hle. rewrite Hle, workday_test.
    cbn [daysFrom filter]. unfold admissible at 1, fitsAt at 1.
    destruct (isWeekendOrHoliday holidays cur) eqn:W; cbn [negb andb].
    + apply IH; [lia | exact Hnext].
    + destruct (addDays cur (n - 1) >? e) eqn:G.
      * rewrite Z.gtb_lt in G.
        replace (addDays cur (n - 1) <=? e) with false
          by (symmetry; apply Z.leb_gt; exact G).
        cbn [andb]. rewrite filter_none; [now rewrite app_nil_r|].
        intros d Hd. apply daysFrom_In in Hd. destruct Hd as [k [Hk ->]].
        unfold admissible, fitsAt.
        replace (addDays (addDays (addDays cur 1) k) (n - 1) <=? e) with false;
          [now rewrite andb_false_r|].
        symmetry. apply Z.leb_gt. unfold addDays in *. nia.
      * assert (G' : (addDays cur (n - 1) <=? e) = true).
        { apply Z.leb_le. rewrite Z.gtb_ltb in G. apply Z.ltb_ge in G. exact G. }
        rewrite G'. cbn [andb periodAt startDate endDate].
        destruct (checkForOverlaps _ _ ex g); cbn [negb].
        -- apply IH; [lia | exact Hnext].
        -- rewrite (IH fuel _ _ ltac:(lia) Hnext). cbn [map].
           now rewrite <- app_assoc.
Qed.

Lemma collectCandidates_eq (s e : Date) (ex : list VacationPeriod) (n g : Z) :
  collectCandidates holidays s e ex n g =
  map (candidateAt holidays n)
      (filter (admissible holidays e ex n g) (horizonDates s e)).
Proof.
  unfold collectCandidates, searchFuel, horizonDates.
  rewrite (searchLoop_collects e ex n g
             (Z.to_nat ((e - s) / msPerDay + 1))); [reflexivity | lia | lia].
Qed.

(** The shape of every period the scan builds. *)
Lemma periodAt_days (n : Z) (d : Date) :
  exists ks ke : Z,
    0 <= ks /\ 0 <= ke /\
    startDate (periodAt holidays n d) = addDays d (- ks) /\
    endDate (periodAt holidays n d) = addDays d (n - 1 + ke) /\
    calculateTotalDaysOff (periodAt holidays n d) = ks + n + ke /\
    dayNumber (endDate (periodAt holidays n d))
    - dayNumber (startDate (periodAt holidays n d)) + 1 = ks + n + ke.
Proof.
  destruct (calculateExtraStartDate_run holidays d) as [ks [Hs _]].
  destruct (calculateExtraEndDate_run holidays (addDays d (n - 1)))
    as [ke [He _]].
  exists (Z.of_nat ks), (Z.of_nat ke).
  unfold calculateTotalDaysOff, getTime. cbn [periodAt startDate endDate].
  rewrite Hs, He, addDays_addDays, !dayNumber_addDays.
  repeat split; try lia.
  unfold addDays.
  replace (d + (n - 1 + Z.of_nat ke) * msPerDay - (d + - Z.of_nat ks * msPerDay))
    with ((n - 1 + Z.of_nat ke + Z.of_nat ks) * msPerDay)
    by (unfold Date in *; ring).
  rewrite Z.div_mul by (pose proof msPerDay_pos; lia). lia.
Qed.

Lemma periodAt_wellFormed (n : Z) (d : Date) :
  1 <= n -> isWeekendOrHoliday holidays d = false ->
  wellFormedPeriod holidays (periodAt holidays n d).
Proof.
  intros Hn Hw. unfold wellFormedPeriod.
  cbn [periodAt startDate endDate usedStartDate usedEndDate daysCount].
  rewrite isWeekendOrHoliday_split in Hw. apply orb_false_iff in Hw.
  destruct Hw as [Hwk Hh].
  repeat split; trivial.
  - apply calculateExtraStartDate_le.
  - rewrite <- (addDays_0 d) at 1. apply addDays_le. lia.
  - apply calculateExtraEndDate_ge.
  - rewrite dayNumber_addDays. lia.
Qed.

Lemma admissible_fitsAt (e : Date) (ex : list VacationPeriod) (n g : Z)
    (d : Date) :
  admissible holidays e ex n g d = true -> fitsAt holidays e n d = true.
Proof. unfold admissible. intros H. now apply andb_true_iff in H. Qed.

Lemma admissible_no_periods (e : Date) (n g : Z) (d : Date) :
  admissible holidays e [] n g d = fitsAt holidays e n d.
Proof. unfold admissible. simpl. now rewrite andb_true_r. Qed.

Lemma fitsAt_iff (e : Date) (n : Z) (d : Date) :
  fitsAt holidays e n d = true <->
  isWeekendOrHoliday holidays d = false /\ addDays d (n - 1) <= e.
Proof.
  unfold fitsAt. rewrite andb_true_iff, negb_true_iff, Z.leb_le. tauto.
Qed.

(** [findBestAvailablePeriods] throws exactly on an empty collection, and
    otherwise returns the collected periods in some order. *)
Lemma findBest_Thrown_iff (s e : Date) (ex : list VacationPeriod) (n g : Z) :
  (exists msg, findBestAvailablePeriods holidays s e ex n g = Thrown msg) <->
  collectCandidates holidays s e ex n g = [].
Proof.
  unfold findBestAvailablePeriods.
  destruct (collectCandidates holidays s e ex n g) as [|c l]; simpl.
  - split; eauto.
  - split; [intros [msg H] | intros H]; discriminate.
Qed.

Lemma findBest_Ok_Permutation (s e : Date) (ex : list VacationPeriod)
    (n g : Z) (l : list VacationPeriod) :
  findBestAvailablePeriods holidays s e ex n g = Ok l ->
  Permutation l (map (periodAt holidays n)
                     (filter (admissible holidays e ex n g)
                             (horizonDates s e))).
Proof.
  unfold findBestAvailablePeriods.
  destruct (Z.of_nat _ =? 0); [discriminate|]. intros H. injection H as <-.
  rewrite collectCandidates_eq.
  etransitivity;
    [apply Permutation_map; symmetry; apply sortBy_Permutation|].
  rewrite map_map. reflexivity.
Qed.

Lemma contribution_In (s e : Date) (ex : list VacationPeriod) (n g : Z)
    (p : VacationPeriod) :
  In p (contribution (findBestAvailablePeriods holidays s e ex n g)) <->
  exists d, In d (horizonDates s e) /\
            admissible holidays e ex n g d = true /\
            p = periodAt holidays n d.
Proof.
  destruct (findBestAvailablePeriods holidays s e ex n g) as [l|msg] eqn:F;
    simpl.
  - pose proof (findBest_Ok_Permutation _ _ _ _ _ _ F) as P. split.
    + intros H. apply (Permutation_in _ P) in H.
      apply in_map_iff in H. destruct H as [d [<- Hd]].
      apply filter_In in Hd. destruct Hd. eauto.
    + intros [d [Hd [Ha ->]]]. apply (Permutation_in _ (Permutation_sym P)).
      apply in_map, filter_In. now split.
  - split; [intros [] | intros [d [Hd [Ha _]]]].
    assert (Hnil : collectCandidates holidays s e ex n g = [])
      by (apply findBest_Thrown_iff; eauto).
    rewrite collectCandidates_eq in Hnil.
    apply map_eq_nil in Hnil.
    assert (Hin : In d (filter (admissible holidays e ex n g)
                               (horizonDates s e)))
      by (apply filter_In; now split).
    rewrite Hnil in Hin. destruct Hin.
Qed.

(** The sweep: each day count adds its contribution and the loop goes on. *)
Lemma tryPush_contribution (acc : list VacationPeriod)
    (r : result (list VacationPeriod)) :
  tryPush acc r = acc ++ contribution r.
Proof. destruct r; simpl; [reflexivity | now rewrite app_nil_r]. Qed.

Lemma sweepLoop_collects (s e hi : Date) :
  forall (m fuel : nat) (v : Z) (acc : list VacationPeriod),
    (m < fuel)%nat -> Z.of_nat m = Z.max 0 (hi - v + 1) ->
    sweepLoop holidays fuel s e v hi acc =
    Some (acc ++ flat_map
                   (fun n => contribution
                               (findBestAvailablePeriods holidays s e [] n 0))
                   (fromTo v hi)).
Proof.
  induction m as [|m IH]; intros fuel v acc Hfuel Hm;
    (destruct fuel as [|fuel]; [lia|]); cbn [sweepLoop].
  - replace (v <=? hi) with false by (symmetry; apply Z.leb_gt; lia).
    rewrite fromTo_nil by lia. simpl. now rewrite app_nil_r.
  - replace (v <=? hi) with true by (symmetry; apply Z.leb_le; lia).
    rewrite (IH fuel) by lia. rewrite (fromTo_cons v hi) by lia.
    rewrite tryPush_contribution. cbn [flat_map]. now rewrite <- app_assoc.
Qed.

Lemma collectAllCandidates_eq (lo hi : Z) (s e : Date) :
  collectAllCandidates holidays lo hi s e =
  flat_map (fun n => contribution
                       (findBestAvailablePeriods holidays s e [] n 0))
           (fromTo lo hi).
Proof.
  unfold collectAllCandidates, sweepFuel.
  rewrite (sweepLoop_collects s e hi (Z.to_nat (hi - lo + 1)));
    [reflexivity | lia | lia].
Qed.

Lemma collectAllCandidates_In (lo hi : Z) (s e : Date) (p : VacationPeriod) :
  In p (collectAllCandidates holidays lo hi s e) <->
  exists n d, lo <= n <= hi /\ In d (horizonDates s e) /\
              fitsAt holidays e n d = true /\ p = periodAt holidays n d.
Proof.
  rewrite collectAllCandidates_eq, in_flat_map. split.
  - intros [n [Hn Hp]]. apply fromTo_In in Hn. apply contribution_In in Hp.
    destruct Hp as [d [Hd [Ha ->]]]. rewrite admissible_no_periods in Ha.
    exists n, d. auto.
  - intros [n [d [Hn [Hd [Hf ->]]]]]. exists n. split; [now apply fromTo_In|].
    apply contribution_In. exists d. rewrite admissible_no_periods. auto.
Qed.

Lemma handleCalculate_In (formData : FormData) (p : VacationPeriod) :
  In p (handleCalculate holidays formData) <->
  In p (collectAllCandidates holidays (minVacationDays formData)
          (maxVacationDays formData) (formStartDate formData)
          (formEndDate formData)) /\
  0 < extraDaysOf p.
Proof.
  unfold handleCalculate. rewrite sortBy_In, filter_In.
  unfold keepPeriod. rewrite Z.gtb_lt. reflexivity.
Qed.

(** The final comparator is a total preorder: it orders by [rankedBefore]. *)
Lemma comparePeriods_le (a b : VacationPeriod) :
  comparePeriods a b <= 0 <-> rankedBefore a b.
Proof.
  unfold comparePeriods, rankedBefore, getTime.
  destruct (extraDaysOf b =? extraDaysOf a) eqn:E; cbn [negb].
  - apply Z.eqb_eq in E. lia.
  - apply Z.eqb_neq in E. lia.
Qed.

Lemma handleCalculate_sorted (formData : FormData) :
  StronglySorted rankedBefore (handleCalculate holidays formData).
Proof.
  unfold handleCalculate.
  eapply StronglySorted_weaken;
    [|apply (sortBy_sorted comparePeriods)].
  - intros a b H. now apply comparePeriods_le.
  - intros a b.
    destruct (Z.le_gt_cases (comparePeriods a b) 0) as [?|H]; [now left|].
    right. unfold comparePeriods, getTime in *.
    destruct (extraDaysOf b =? extraDaysOf a) eqn:E; cbn [negb] in *.
    + apply Z.eqb_eq in E. rewrite E, Z.eqb_refl. cbn [negb]. lia.
    + apply Z.eqb_neq in E.
      replace (extraDaysOf a =? extraDaysOf b) with false
        by (symmetry; apply Z.eqb_neq; lia).
      cbn [negb]. lia.
  - intros a b c. rewrite !comparePeriods_le. unfold rankedBefore. lia.
Qed.

End SearchFacts.

(** ** The final result: filtering and ranking *)

(** At calendar level the sequence [handleCalculate] hands over holds
    exactly the
    collected periods whose [extraDays] is strictly positive, where
    [extraDays] is the number of days of the extended window, both ends
    included, minus [daysCount]; and it is ordered by [extraDays]
    descending, ties by [usedStartDate] ascending: for adjacent periods, and
    so for any two periods in sequence order, [extraDays] does not increase
    and, where it is equal, [usedStartDate] does not decrease. *)
Lemma calendar_output_filtered_and_ranked (holidays : list Holiday)
    (formData : FormData) :
  let output := handleCalculate holidays formData in
  (forall p, In p output ->
     0 < extraDaysOf p /\
     extraDaysOf p
     = (dayNumber (endDate p) - dayNumber (startDate p) + 1) - daysCount p) /\
  (forall p, In p output <->
     In p (collectAllCandidates holidays (minVacationDays formData)
             (maxVacationDays formData) (formStartDate formData)
             (formEndDate formData)) /\
     0 < extraDaysOf p) /\
  (forall (i : nat) (a b : VacationPeriod),
     nth_error output i = Some a -> nth_error output (S i) = Some b ->
     extraDaysOf b <= extraDaysOf a /\
     (extraDaysOf a = extraDaysOf b -> usedStartDate a <= usedStartDate b)) /\
  (forall (i j : nat) (a b : VacationPeriod),
     (i < j)%nat -> nth_error output i = Some a -> nth_error output j = Some b ->
     extraDaysOf b <= extraDaysOf a /\
     (extraDaysOf a = extraDaysOf b -> usedStartDate a <= usedStartDate b)).
Proof.
  intros output.
  assert (Ranked : forall (i j : nat) (a b : VacationPeriod),
             (i < j)%nat -> nth_error output i = Some a ->
             nth_error output j = Some b ->
             extraDaysOf b <= extraDaysOf a /\
             (extraDaysOf a = extraDaysOf b ->
              usedStartDate a <= usedStartDate b)).
  { intros i j a b Hij Ha Hb.
    pose proof (StronglySorted_nth_error _ _
                  (handleCalculate_sorted holidays formData) i j a b Hij Ha Hb)
      as H.
    unfold rankedBefore in H. lia. }
  repeat split.
  - now apply handleCalculate_In in H.
  - apply handleCalculate_In in H. destruct H as [H _].
    apply collectAllCandidates_In in H. destruct H as [n [d [_ [_ [_ ->]]]]].
    destruct (periodAt_days holidays n d) as [ks [ke [_ [_ [_ [_ [Ht Hd]]]]]]].
    unfold extraDaysOf. rewrite Ht, Hd. reflexivity.
  - now apply handleCalculate_In in H.
  - now apply handleCalculate_In in H.
  - intros H. now apply handleCalculate_In.
  - apply (Ranked i (S i) a b); trivial. lia.
  - apply (Ranked i (S i) a b); trivial. lia.
  - apply (Ranked i j a b); trivial.
  - apply (Ranked i j a b); trivial.
Qed.

(** ** The invariants of the periods *)

(** At calendar level, for a form that [hasErrors] accepts, every period
    of the final
    result is well formed: [startDate <= usedStartDate <= usedEndDate <=
    endDate], the core window spans exactly [daysCount] calendar days, and
    [usedStartDate] is neither a Saturday or Sunday nor a holiday.  The same
    holds for every period [findBestAvailablePeriods] returns for a day
    count of at least one, whatever the horizon, the existing periods and
    the gap. *)
Lemma calendar_periods_well_formed (holidays : list Holiday) (formData : FormData)
    (Hvalid : hasErrors formData = false) :
  (forall p, In p (handleCalculate holidays formData) ->
             wellFormedPeriod holidays p) /\
  (forall (s e : Date) (ex : list VacationPeriod) (n g : Z)
          (l : list VacationPeriod) (p : VacationPeriod),
     1 <= n -> findBestAvailablePeriods holidays s e ex n g = Ok l ->
     In p l -> wellFormedPeriod holidays p).
Proof.
  split.
  - intros p Hp. apply handleCalculate_In in Hp. destruct Hp as [Hp _].
    apply collectAllCandidates_In in Hp.
    destruct Hp as [n [d [Hn [_ [Hf ->]]]]].
    apply fitsAt_iff in Hf. destruct Hf as [Hw _].
    apply periodAt_wellFormed; trivial.
    unfold hasErrors in Hvalid.
    destruct (formEndDate formData <=? formStartDate formData);
      [discriminate|].
    destruct (minVacationDays formData <=? 0) eqn:Hmin; [discriminate|].
    apply Z.leb_gt in Hmin. lia.
  - intros s e ex n g l p Hn Hl Hp.
    assert (Hc : In p (contribution
                         (findBestAvailablePeriods holidays s e ex n g)))
      by (rewrite Hl; exact Hp).
    apply contribution_In in Hc. destruct Hc as [d [_ [Ha ->]]].
    apply admissible_fitsAt, fitsAt_iff in Ha. destruct Ha as [Hw _].
    now apply periodAt_wellFormed.
Qed.

(** ** The scan of one day count *)

(** At calendar level, with no existing periods, the scan of
    [findBestAvailablePeriods]
    collects, in scan order, the candidate of every scanned date that is a
    workday and whose core window ends inside the horizon, and nothing else.
    The scanned dates are [startDate] and the dates whole days after it that
    are not after [endDate].  So: no start date is collected twice; a date is
    the start of a collected candidate exactly when it is a scanned workday
    [d] with [d + daysCount - 1 <= endDate]; every collected candidate has
    the given [daysCount] and a core window of that length ending inside the
    horizon; and what the function returns is a reordering of the
    collection. *)
Lemma calendar_scan_collects_fitting_workdays (holidays : list Holiday)
    (s e : Date) (n g : Z) :
  let candidates := collectCandidates holidays s e [] n g in
  let starts := map (fun c => usedStartDate (period c)) candidates in
  candidates = map (candidateAt holidays n)
                   (filter (fitsAt holidays e n) (horizonDates s e)) /\
  NoDup starts /\
  (forall d, In d starts <->
     (exists k, 0 <= k /\ d = addDays s k) /\ d <= e /\
     isWeekendOrHoliday holidays d = false /\ addDays d (n - 1) <= e) /\
  (forall c, In c candidates ->
     daysCount (period c) = n /\
     usedEndDate (period c) = addDays (usedStartDate (period c)) (n - 1) /\
     usedEndDate (period c) <= e) /\
  (forall l, findBestAvailablePeriods holidays s e [] n g = Ok l ->
             Permutation l (map period candidates)).
Proof.
  intros candidates starts.
  assert (Hc : candidates = map (candidateAt holidays n)
                 (filter (fitsAt holidays e n) (horizonDates s e))).
  { unfold candidates. rewrite collectCandidates_eq. f_equal.
    apply filter_ext. intros d. apply admissible_no_periods. }
  assert (Hs : starts = filter (fitsAt holidays e n) (horizonDates s e)).
  { unfold starts. rewrite Hc, map_map. cbn [candidateAt period periodAt
      usedStartDate]. apply map_id. }
  split; [exact Hc|]. split; [|split; [|split]].
  - rewrite Hs. apply NoDup_filter, daysFrom_NoDup.
  - intros d. rewrite Hs, filter_In, horizonDates_In, fitsAt_iff. split.
    + intros [[k [Hk [Hd Hle]]] [Hw Hfit]]. eauto 10.
    + intros [[k [Hk Hd]] [Hle [Hw Hfit]]]. eauto 10.
  - intros c Hin. rewrite Hc in Hin. apply in_map_iff in Hin.
    destruct Hin as [d [<- Hd]]. apply filter_In in Hd.
    destruct Hd as [_ Hf]. apply fitsAt_iff in Hf.
    cbn [candidateAt period periodAt usedStartDate usedEndDate daysCount].
    tauto.
  - intros l Hl. apply findBest_Ok_Permutation in Hl.
    rewrite Hc, map_map. cbn [candidateAt period].
    etransitivity; [exact Hl|].
    rewrite (filter_ext _ _ (admissible_no_periods holidays e n g)).
    reflexivity.
Qed.

(** ** No candidate found *)

Lemma fromTo_split (lo n hi : Z) :
  lo <= n <= hi -> fromTo lo hi = fromTo lo (n - 1) ++ n :: fromTo (n + 1) hi.
Proof.
  intros H. remember (Z.to_nat (n - lo)) as k eqn:Hk.
  revert lo H Hk. induction k as [|k IH]; intros lo H Hk.
  - assert (lo = n) by lia. subst lo.
    rewrite (fromTo_nil n (n - 1)) by lia. simpl. apply fromTo_cons. lia.
  - rewrite (fromTo_cons lo hi) by lia. rewrite (fromTo_cons lo (n - 1)) by lia.
    simpl. f_equal. apply IH; lia.
Qed.

Lemma too_long_never_fits (holidays : list Holiday) (s e : Date) (n : Z)
    (d : Date) :
  (e - s) / msPerDay + 1 < n -> In d (horizonDates s e) ->
  fitsAt holidays e n d = false.
Proof.
  intros Hn Hd. apply horizonDates_In in Hd. destruct Hd as [k [Hk [-> Hle]]].
  unfold fitsAt. replace (addDays (addDays s k) (n - 1) <=? e) with false;
    [apply andb_false_r|].
  symmetry. apply Z.leb_gt.
  pose proof msPerDay_pos as Hpos.
  pose proof (Z.mul_succ_div_gt (e - s) msPerDay Hpos) as Hq.
  unfold addDays in *. nia.
Qed.

(** At calendar level [findBestAvailablePeriods] throws exactly when the
    scan has
    collected nothing, that is when no scanned date is admissible; it does so
    in particular when [daysCount] exceeds the number of days of the horizon.
    The sweep of [handleCalculate] catches the throw: the list it
    accumulates is the concatenation, over the day counts from
    [minVacationDays] to [maxVacationDays] in order, of what each call
    returned, a call that threw adding nothing and the calls before and after
    it adding what they add on their own.  In the week Monday 2025-01-06 to
    Friday 2025-01-10 swept with five and six days, six days throw and five
    days still give their period. *)
Lemma calendar_no_candidate_found (holidays : list Holiday) (s e : Date) :
  (forall (ex : list VacationPeriod) (n g : Z),
     findBestAvailablePeriods holidays s e ex n g = Thrown noPeriodMessage <->
     collectCandidates holidays s e ex n g = []) /\
  (forall (ex : list VacationPeriod) (n g : Z),
     collectCandidates holidays s e ex n g = [] <->
     forall d, In d (horizonDates s e) ->
               admissible holidays e ex n g d = false) /\
  (forall (ex : list VacationPeriod) (n g : Z),
     (e - s) / msPerDay + 1 < n ->
     findBestAvailablePeriods holidays s e ex n g = Thrown noPeriodMessage) /\
  (forall lo hi : Z,
     collectAllCandidates holidays lo hi s e =
     flat_map (fun n => contribution
                          (findBestAvailablePeriods holidays s e [] n 0))
              (fromTo lo hi)) /\
  (forall lo hi n : Z,
     lo <= n <= hi ->
     findBestAvailablePeriods holidays s e [] n 0 = Thrown noPeriodMessage ->
     collectAllCandidates holidays lo hi s e =
     collectAllCandidates holidays lo (n - 1) s e ++
     collectAllCandidates holidays (n + 1) hi s e) /\
  (findBestAvailablePeriods scenarioHolidays (ymd 2025 1 6) (ymd 2025 1 10)
     [] 6 0 = Thrown noPeriodMessage /\
   findBestAvailablePeriods scenarioHolidays (ymd 2025 1 6) (ymd 2025 1 10)
     [] 5 0 = Ok [weekPeriod] /\
   handleCalculate scenarioHolidays (weekForm 5 6) = [weekPeriod]).
Proof.
  assert (Thrown_iff : forall ex n g,
             findBestAvailablePeriods holidays s e ex n g
             = Thrown noPeriodMessage <->
             collectCandidates holidays s e ex n g = []).
  { intros ex n g. unfold findBestAvailablePeriods.
    destruct (collectCandidates holidays s e ex n g); simpl.
    - tauto.
    - split; discriminate. }
  assert (Nil_iff : forall ex n g,
             collectCandidates holidays s e ex n g = [] <->
             forall d, In d (horizonDates s e) ->
                       admissible holidays e ex n g d = false).
  { intros ex n g. rewrite collectCandidates_eq. split.
    - intros H d Hd. apply map_eq_nil in H.
      destruct (admissible holidays e ex n g d) eqn:A; trivial.
      assert (Hin : In d (filter (admissible holidays e ex n g)
                                 (horizonDates s e)))
        by (apply filter_In; now split).
      rewrite H in Hin. destruct Hin.
    - intros H. now rewrite filter_none. }
  split; [exact Thrown_iff|]. split; [exact Nil_iff|]. split; [|split; [|split]].
  - intros ex n g Hn. apply Thrown_iff, Nil_iff. intros d Hd.
    unfold admissible. now rewrite (too_long_never_fits holidays s e n d).
  - intros lo hi. apply collectAllCandidates_eq.
  - intros lo hi n Hn Hthrow. rewrite !collectAllCandidates_eq.
    rewrite (fromTo_split lo n hi Hn), flat_map_app. cbn [flat_map].
    rewrite Hthrow. reflexivity.
  - repeat split; vm_compute; reflexivity.
Qed.

(** ** The overlap check *)

Lemma checkForOverlaps_iff (s e : Date) (ps : list VacationPeriod) (g : Z) :
  checkForOverlaps s e ps g = true <->
  exists p, In p ps /\
            addDays s (- g) <= endDate p /\ startDate p <= addDays e g.
Proof.
  unfold checkForOverlaps. induction ps as [|q ps IH].
  - split; [discriminate | intros [p [[] _]]].
  - destruct ((addDays s (- g) <=? endDate q)
              && (addDays e g >=? startDate q)) eqn:C.
    + split; [intros _ | reflexivity].
      apply andb_true_iff in C. destruct C as [C1 C2].
      apply Z.leb_le in C1. apply Z.geb_le in C2.
      exists q. split; [now left | lia].
    + rewrite IH. split; intros [p [Hin Hp]].
      * exists p. split; [now right | exact Hp].
      * destruct Hin as [<-|Hin]; [|eauto].
        apply andb_false_iff in C. destruct C as [C|C].
        -- apply Z.leb_gt in C. lia.
        -- rewrite Z.geb_leb in C. apply Z.leb_gt in C. lia.
Qed.

(** At calendar level the overlap check rejects a window exactly when its
    buffered window
    [[startDate - minGap, endDate + minGap]] reaches an existing period:
    the buffer starts no later than the period ends and ends no earlier than
    the period starts; for a window and periods that are not empty and a gap
    that is not negative this is to say that the two share an instant.  The
    scan collects a fitting workday exactly when the check on its extended
    window is false.  The
    sweep of [handleCalculate] calls the search with no existing periods and
    gap 0 for every day count, with no periods the check rejects nothing, and
    so each of those searches collects every scanned workday whose core
    window ends inside the horizon. *)
Lemma calendar_overlap_check (holidays : list Holiday) :
  (forall (s e : Date) (ps : list VacationPeriod) (g : Z),
     checkForOverlaps s e ps g = true <->
     exists p, In p ps /\
               addDays s (- g) <= endDate p /\ startDate p <= addDays e g) /\
  (forall (s e : Date) (ps : list VacationPeriod) (g : Z),
     0 <= g -> s <= e -> Forall (fun p => startDate p <= endDate p) ps ->
     (checkForOverlaps s e ps g = true <->
      exists p t, In p ps /\
                  addDays s (- g) <= t <= addDays e g /\
                  startDate p <= t <= endDate p)) /\
  (forall (s e : Date) (ex : list VacationPeriod) (n g : Z),
     collectCandidates holidays s e ex n g =
     map (candidateAt holidays n)
         (filter (fun d =>
                    fitsAt holidays e n d &&
                    negb (checkForOverlaps
                            (calculateExtraStartDate holidays d)
                            (calculateExtraEndDate holidays (addDays d (n - 1)))
                            ex g))
                 (horizonDates s e))) /\
  (forall (s e : Date) (g : Z), checkForOverlaps s e [] g = false) /\
  (forall (lo hi : Z) (s e : Date),
     collectAllCandidates holidays lo hi s e =
     flat_map (fun n => contribution
                          (findBestAvailablePeriods holidays s e [] n 0))
              (fromTo lo hi)) /\
  (forall (s e : Date) (n : Z),
     collectCandidates holidays s e [] n 0 =
     map (candidateAt holidays n)
         (filter (fitsAt holidays e n) (horizonDates s e))).
Proof.
  split; [exact checkForOverlaps_iff|]. split; [|split; [|split; [|split]]].
  - intros s e ps g Hg Hse Hwf. rewrite checkForOverlaps_iff.
    rewrite Forall_forall in Hwf. split.
    + intros [p [Hin [H1 H2]]]. specialize (Hwf p Hin). cbv beta in Hwf.
      exists p, (Z.max (addDays s (- g)) (startDate p)).
      assert (addDays s (- g) <= addDays e g)
        by (pose proof msPerDay_pos; unfold addDays; nia).
      split; [exact Hin | lia].
    + intros [p [t [Hin [H1 H2]]]]. exists p. split; [exact Hin | lia].
  - intros s e ex n g. apply collectCandidates_eq.
  - reflexivity.
  - intros lo hi s e. apply collectAllCandidates_eq.
  - intros s e n. rewrite collectCandidates_eq. f_equal.
    apply filter_ext. intros d. apply admissible_no_periods.
Qed.

(** ** The holiday index *)

Lemma flattenLoop_collects (e : Date) (nm : string) :
  forall (m fuel : nat) (cur : Date) (acc : list Holiday),
    (m < fuel)%nat ->
    Z.of_nat m = (if cur <? e then (e - cur - 1) / msPerDay + 1 else 0) ->
    flattenLoop fuel cur e nm acc =
    Some (acc ++ map (fun d => mkHoliday d nm) (daysFrom m cur)).
Proof.
  pose proof msPerDay_pos as Hpos.
  induction m as [|m IH]; intros fuel cur acc Hfuel Hm;
    (destruct fuel as [|fuel]; [lia|]); cbn [flattenLoop];
    destruct (cur <? e) eqn:C.
  - apply Z.ltb_lt in C.
    assert (0 <= (e - cur - 1) / msPerDay) by (apply Z.div_pos; lia). lia.
  - simpl. now rewrite app_nil_r.
  - apply Z.ltb_lt in C. rewrite (IH fuel); [|lia|].
    + cbn [daysFrom map]. now rewrite <- app_assoc.
    + assert (Hq : (e - addDays cur 1 - 1) / msPerDay
                   = (e - cur - 1) / msPerDay - 1).
      { unfold addDays.
        replace (e - (cur + 1 * msPerDay) - 1)
          with (e - cur - 1 + (-1) * msPerDay) by (unfold Date in *; ring).
        rewrite Z.div_add by lia. lia. }
      destruct (addDays cur 1 <? e) eqn:C'.
      * lia.
      * apply Z.ltb_ge in C'. unfold addDays in C'.
        assert ((e - cur - 1) / msPerDay < 1)
          by (apply Z.div_lt_upper_bound; lia).
        lia.
  - lia.
Qed.

Lemma flattenHoliday_eq (acc : list Holiday) (h : ProviderHoliday) :
  flattenHoliday acc h = acc ++ flattenSpan h.
Proof.
  unfold flattenHoliday, flattenSpan, flattenFuel.
  rewrite (flattenLoop_collects (h_end h) (h_name h) (spanLength h));
    [reflexivity | | ]; unfold spanLength;
    destruct (h_start h <? h_end h) eqn:C.
  - apply Z.ltb_lt in C.
    assert ((h_end h - h_start h - 1) / msPerDay
            <= (h_end h - h_start h) / msPerDay)
      by (apply Z.div_le_mono; [reflexivity | lia]).
    lia.
  - lia.
  - apply Z.ltb_lt in C.
    assert (0 <= (h_end h - h_start h - 1) / msPerDay)
      by (apply Z.div_pos; [lia | reflexivity]).
    lia.
  - reflexivity.
Qed.

Lemma fold_flattenHoliday (hs : list ProviderHoliday) (acc : list Holiday) :
  fold_left flattenHoliday hs acc = acc ++ flat_map flattenSpan hs.
Proof.
  revert acc. induction hs as [|h hs IH]; intros acc; simpl.
  - now rewrite app_nil_r.
  - now rewrite IH, flattenHoliday_eq, <- app_assoc.
Qed.

Lemma yearLoop_collects (getHolidays : Z -> list ProviderHoliday)
    (endYear : Z) :
  forall (m fuel : nat) (year : Z) (acc : list Holiday),
    (m < fuel)%nat -> Z.of_nat m = Z.max 0 (endYear - year + 1) ->
    yearLoop getHolidays fuel year endYear acc =
    Some (acc ++ flat_map (fun y => flat_map flattenSpan (getHolidays y))
                          (fromTo year endYear)).
Proof.
  induction m as [|m IH]; intros fuel year acc Hfuel Hm;
    (destruct fuel as [|fuel]; [lia|]); cbn [yearLoop].
  - replace (year <=? endYear) with false by (symmetry; apply Z.leb_gt; lia).
    rewrite fromTo_nil by lia. simpl. now rewrite app_nil_r.
  - replace (year <=? endYear) with true by (symmetry; apply Z.leb_le; lia).
    rewrite (IH fuel) by lia. rewrite (fromTo_cons year endYear) by lia.
    rewrite fold_flattenHoliday. cbn [flat_map]. now rewrite <- app_assoc.
Qed.

Lemma buildHolidayList_eq (getHolidays : Z -> list ProviderHoliday)
    (startYear endYear : Z) :
  buildHolidayList getHolidays startYear endYear =
  flat_map (fun y => flat_map flattenSpan (getHolidays y))
           (fromTo startYear endYear).
Proof.
  unfold buildHolidayList.
  rewrite (yearLoop_collects getHolidays endYear
             (Z.to_nat (endYear - startYear + 1)));
    [reflexivity | lia | lia].
Qed.

Lemma spanLength_lt (h : ProviderHoliday) (k : Z) :
  0 <= k -> (k < Z.of_nat (spanLength h) <-> addDays (h_start h) k < h_end h).
Proof.
  intros Hk. pose proof msPerDay_pos as Hpos. unfold spanLength, addDays.
  destruct (h_start h <? h_end h) eqn:C.
  - apply Z.ltb_lt in C.
    assert (0 <= (h_end h - h_start h - 1) / msPerDay)
      by (apply Z.div_pos; lia).
    rewrite Z2Nat.id by lia. split; intros H1.
    + assert (k <= (h_end h - h_start h - 1) / msPerDay) by lia.
      pose proof (Z.mul_div_le (h_end h - h_start h - 1) msPerDay Hpos). nia.
    + assert (k <= (h_end h - h_start h - 1) / msPerDay)
        by (apply Z.div_le_lower_bound; lia).
      lia.
  - apply Z.ltb_ge in C. simpl. split; intros H1; [lia | nia].
Qed.

Lemma flattenSpan_In (h : ProviderHoliday) (x : Holiday) :
  In x (flattenSpan h) <->
  name x = h_name h /\
  exists k, 0 <= k /\ date x = addDays (h_start h) k /\ date x < h_end h.
Proof.
  unfold flattenSpan. rewrite in_map_iff. split.
  - intros [d [<- Hd]]. apply daysFrom_In in Hd. destruct Hd as [k [Hk ->]].
    simpl. split; [reflexivity|]. exists k.
    split; [lia|]. split; [reflexivity|]. apply spanLength_lt; lia.
  - intros [Hn [k [Hk [Hd Hlt]]]]. exists (date x). split.
    + destruct x as [d nm]. simpl in *. now subst.
    + apply daysFrom_In. exists k. split; [|exact Hd].
      rewrite Hd in Hlt. apply spanLength_lt in Hlt; lia.
Qed.


(** ** Scenarios *)

(** The expansion is determined by the days next to the window: a run of
    [k] non-workdays followed by a workday gives [k] attached days. *)
Lemma calculateExtraStartDate_unique (holidays : list Holiday) (v : Date)
    (k : Z) :
  0 <= k ->
  (forall j, 1 <= j <= k ->
             isWeekendOrHoliday holidays (addDays v (- j)) = true) ->
  isWeekendOrHoliday holidays (addDays v (- k - 1)) = false ->
  calculateExtraStartDate holidays v = addDays v (- k).
Proof.
  intros Hk Hrun Hstop.
  destruct (calculateExtraStartDate_run holidays v) as [k' [-> [Hrun' Hstop']]].
  destruct (Z.lt_trichotomy (Z.of_nat k') k) as [Hlt|[Heq|Hgt]].
  - specialize (Hrun (Z.of_nat k' + 1)).
    replace (- (Z.of_nat k' + 1)) with (- Z.of_nat k' - 1) in Hrun by lia.
    rewrite Hrun in Hstop' by lia. discriminate.
  - now rewrite Heq.
  - specialize (Hrun' (k + 1)).
    replace (- (k + 1)) with (- k - 1) in Hrun' by lia.
    rewrite Hrun' in Hstop by lia. discriminate.
Qed.

Lemma calculateExtraEndDate_unique (holidays : list Holiday) (v : Date)
    (k : Z) :
  0 <= k ->
  (forall j, 1 <= j <= k -> isWeekendOrHoliday holidays (addDays v j) = true) ->
  isWeekendOrHoliday holidays (addDays v (k + 1)) = false ->
  calculateExtraEndDate holidays v = addDays v k.
Proof.
  intros Hk Hrun Hstop.
  destruct (calculateExtraEndDate_run holidays v) as [k' [-> [Hrun' Hstop']]].
  destruct (Z.lt_trichotomy (Z.of_nat k') k) as [Hlt|[Heq|Hgt]].
  - specialize (Hrun (Z.of_nat k' + 1)).
    rewrite Hrun in Hstop' by lia. discriminate.
  - now rewrite Heq.
  - specialize (Hrun' (k + 1)).
    rewrite Hrun' in Hstop by lia. discriminate.
Qed.

(** C7. Scenario A.  With Wednesday 2025-01-01 the only holiday, the core
    window of five days from Monday 2025-01-06 ends on Friday 2025-01-10;
    its expansion probes Sunday 01-05 and Saturday 01-04, stops at the
    workday Friday 01-03 and gives [extendedStart] 2025-01-04; forward it
    probes Saturday 01-11 and Sunday 01-12, stops at the workday Monday 01-13
    and gives [extendedEnd] 2025-01-12; the period has 9 days off and 4
    extra days, and it is the first period of the result for the horizon
    2025-01-01 to 2025-12-31.  The two expansions are the same for any
    holiday list in which 2025-01-03 and 2025-01-13 are not holidays. *)
Theorem C7_scenario_A :
  (getDay (ymd 2025 1 1) = 3 /\ isHoliday scenarioHolidays (ymd 2025 1 1) = true /\
   getDay (ymd 2025 1 6) = 1 /\ getDay (ymd 2025 1 10) = 5 /\
   addDays (ymd 2025 1 6) (5 - 1) = ymd 2025 1 10) /\
  (isWeekendOrHoliday scenarioHolidays (ymd 2025 1 5) = true /\
   isWeekendOrHoliday scenarioHolidays (ymd 2025 1 4) = true /\
   isWeekendOrHoliday scenarioHolidays (ymd 2025 1 3) = false /\
   calculateExtraStartDate scenarioHolidays (ymd 2025 1 6) = ymd 2025 1 4) /\
  (isWeekendOrHoliday scenarioHolidays (ymd 2025 1 11) = true /\
   isWeekendOrHoliday scenarioHolidays (ymd 2025 1 12) = true /\
   isWeekendOrHoliday scenarioHolidays (ymd 2025 1 13) = false /\
   calculateExtraEndDate scenarioHolidays (ymd 2025 1 10) = ymd 2025 1 12) /\
  (periodAt scenarioHolidays 5 (ymd 2025 1 6) = weekPeriod /\
   calculateTotalDaysOff weekPeriod = 9 /\
   extraDaysOf weekPeriod = 4) /\
  nth_error (handleCalculate scenarioHolidays yearForm) 0 = Some weekPeriod /\
  (forall holidays : list Holiday,
     isHoliday holidays (ymd 2025 1 3) = false ->
     isHoliday holidays (ymd 2025 1 13) = false ->
     calculateExtraStartDate holidays (ymd 2025 1 6) = ymd 2025 1 4 /\
     calculateExtraEndDate holidays (ymd 2025 1 10) = ymd 2025 1 12).
Proof.
  split; [repeat split; vm_compute; reflexivity|].
  split; [repeat split; vm_compute; reflexivity|].
  split; [repeat split; vm_compute; reflexivity|].
  split; [repeat split; vm_compute; reflexivity|].
  split; [vm_compute; reflexivity|].
  intros holidays H3 H13. split.
  - change (ymd 2025 1 4) with (addDays (ymd 2025 1 6) (Z.opp 2)).
    apply (calculateExtraStartDate_unique holidays (ymd 2025 1 6) 2); [lia | |].
    + intros j Hj. rewrite isWeekendOrHoliday_split. apply orb_true_iff. left.
      assert (Hc : j = 1 \/ j = 2) by lia.
      destruct Hc as [-> | ->]; vm_compute; reflexivity.
    + rewrite isWeekendOrHoliday_split. apply orb_false_iff. split.
      * vm_compute; reflexivity.
      * exact H3.
  - change (ymd 2025 1 12) with (addDays (ymd 2025 1 10) 2).
    apply (calculateExtraEndDate_unique holidays (ymd 2025 1 10) 2); [lia | |].
    + intros j Hj. rewrite isWeekendOrHoliday_split. apply orb_true_iff. left.
      assert (Hc : j = 1 \/ j = 2) by lia.
      destruct Hc as [-> | ->]; vm_compute; reflexivity.
    + rewrite isWeekendOrHoliday_split. apply orb_false_iff. split.
      * vm_compute; reflexivity.
      * exact H13.
Qed.

(** C10. The extended window is not clipped to the horizon.  For the valid
    form whose horizon is the week Monday 2025-01-06 to Friday 2025-01-10,
    with five vacation days, the result is one period whose core window is
    the horizon and whose extended window starts on Saturday 2025-01-04,
    before the horizon, and ends on Sunday 2025-01-12, after it; the four
    days outside the horizon are counted: 9 days off, 4 extra days, on a
    horizon of 5 days.  In general the period built for a start date is the
    same whatever the horizon it is collected for. *)
Theorem C10_extension_not_clipped :
  (exists (holidays : list Holiday) (formData : FormData) (p : VacationPeriod),
     hasErrors formData = false /\
     In p (handleCalculate holidays formData) /\
     startDate p < formStartDate formData /\
     formEndDate formData < endDate p /\
     (formStartDate formData <= usedStartDate p /\
      usedEndDate p <= formEndDate formData) /\
     dayNumber (formEndDate formData) - dayNumber (formStartDate formData) + 1
     = 5 /\
     calculateTotalDaysOff p = 9 /\
     extraDaysOf p = 4) /\
  handleCalculate scenarioHolidays (weekForm 5 5) = [weekPeriod] /\
  (forall (holidays : list Holiday) (s e : Date) (ex : list VacationPeriod)
          (n g : Z) (c : Candidate),
     In c (collectCandidates holidays s e ex n g) ->
     startDate (period c)
     = calculateExtraStartDate holidays (usedStartDate (period c)) /\
     endDate (period c)
     = calculateExtraEndDate holidays (usedEndDate (period c)) /\
     totalDaysOff c
     = dayNumber (endDate (period c)) - dayNumber (startDate (period c)) + 1).
Proof.
  split; [|split].
  - exists scenarioHolidays, (weekForm 5 5), weekPeriod.
    split; [reflexivity|].
    split; [vm_compute; left; reflexivity|].
    repeat split; vm_compute; reflexivity || discriminate.
  - vm_compute. reflexivity.
  - intros holidays s e ex n g c Hc. rewrite collectCandidates_eq in Hc.
    apply in_map_iff in Hc. destruct Hc as [d [<- _]].
    cbn [candidateAt period totalDaysOff periodAt startDate endDate
         usedStartDate usedEndDate].
    split; [reflexivity|]. split; [reflexivity|].
    destruct (periodAt_days holidays n d) as [ks [ke [_ [_ [_ [_ [Ht Hd]]]]]]].
    cbn [periodAt startDate endDate] in Hd.
    fold (periodAt holidays n d). rewrite Ht. symmetry. exact Hd.
Qed.

(** * Further properties of the engine *)

Lemma StronglySorted_weaken_In {A : Type} (R R' : A -> A -> Prop)
    (l : list A) :
  (forall a b, In a l -> In b l -> R a b -> R' a b) ->
  StronglySorted R l -> StronglySorted R' l.
Proof.
  intros HR Hs. induction Hs as [|x l Hs IH Hall]; constructor.
  - apply IH. intros a b Ha Hb. apply HR; now right.
  - rewrite Forall_forall in *. intros b Hb.
    apply HR; [now left | now right | now apply Hall].
Qed.

Lemma StronglySorted_map {A B : Type} (f : A -> B) (R : B -> B -> Prop)
    (l : list A) :
  StronglySorted (fun a b => R (f a) (f b)) l -> StronglySorted R (map f l).
Proof.
  induction 1 as [|x l Hs IH Hall]; simpl; constructor; trivial.
  rewrite Forall_forall in *. intros b Hb. apply in_map_iff in Hb.
  destruct Hb as [a [<- Ha]]. now apply Hall.
Qed.

Section RankingFacts.

Variable holidays : list Holiday.

Lemma compareCandidates_le (s : Date) (a b : Candidate) :
  compareCandidates s a b <= 0 <->
  totalDaysOff b < totalDaysOff a \/
  (totalDaysOff a = totalDaysOff b /\
   Z.abs (usedStartDate (period a) - s)
   <= Z.abs (usedStartDate (period b) - s)).
Proof.
  unfold compareCandidates, getTime.
  destruct (totalDaysOff b =? totalDaysOff a) eqn:E; cbn [negb].
  - apply Z.eqb_eq in E. lia.
  - apply Z.eqb_neq in E. lia.
Qed.

Lemma collectCandidates_In (s e : Date) (ex : list VacationPeriod) (n g : Z)
    (c : Candidate) :
  In c (collectCandidates holidays s e ex n g) <->
  exists d, In d (horizonDates s e) /\
            admissible holidays e ex n g d = true /\
            c = candidateAt holidays n d.
Proof.
  rewrite collectCandidates_eq, in_map_iff. split.
  - intros [d [<- Hd]]. apply filter_In in Hd. destruct Hd. eauto.
  - intros [d [Hd [Ha ->]]]. exists d. split; [reflexivity|].
    apply filter_In. now split.
Qed.

(** X1. What [findBestAvailablePeriods] returns is ranked: a period with
    more days off comes before one with fewer, and of two periods with the
    same days off the one that starts earlier comes first (the distance of
    the start from the beginning of the horizon, which the comparator uses,
    is the start itself, as no scanned date lies before the horizon). *)
Theorem X1_search_result_ranked (s e : Date) (ex : list VacationPeriod)
    (n g : Z) :
  StronglySorted internalRank
    (contribution (findBestAvailablePeriods holidays s e ex n g)).
Proof.
  unfold findBestAvailablePeriods.
  destruct (Z.of_nat _ =? 0); cbn [contribution]; [constructor|].
  apply StronglySorted_map.
  eapply StronglySorted_weaken_In;
    [|apply (sortBy_sorted (compareCandidates s))].
  - intros a b Ha Hb Hab. rewrite compareCandidates_le in Hab.
    apply sortBy_In, collectCandidates_In in Ha.
    apply sortBy_In, collectCandidates_In in Hb.
    destruct Ha as [da [Hda [_ ->]]]. destruct Hb as [db [Hdb [_ ->]]].
    apply horizonDates_In in Hda. destruct Hda as [ka [Hka [-> _]]].
    apply horizonDates_In in Hdb. destruct Hdb as [kb [Hkb [-> _]]].
    unfold internalRank.
    cbn [candidateAt period totalDaysOff periodAt usedStartDate] in *.
    pose proof msPerDay_pos. unfold addDays in *.
    rewrite !Z.abs_eq in Hab by nia. lia.
  - intros a b.
    destruct (Z.le_gt_cases (compareCandidates s a b) 0) as [?|H]; [now left|].
    right. apply compareCandidates_le.
    assert (Hn : ~ compareCandidates s a b <= 0) by lia.
    rewrite compareCandidates_le in Hn. lia.
  - intros a b c. rewrite !compareCandidates_le. lia.
Qed.

(** The runs on both sides of a period, and its extra days. *)
Lemma periodAt_runs (n : Z) (d : Date) :
  exists ks ke : nat,
    startDate (periodAt holidays n d) = addDays d (- Z.of_nat ks) /\
    endDate (periodAt holidays n d) = addDays d (n - 1 + Z.of_nat ke) /\
    extraDaysOf (periodAt holidays n d) = Z.of_nat ks + Z.of_nat ke /\
    (ks = O <-> isWeekendOrHoliday holidays (addDays d (-1)) = false) /\
    (ke = O <-> isWeekendOrHoliday holidays (addDays d n) = false).
Proof.
  destruct (calculateExtraStartDate_run holidays d) as [ks [Hs [Hrs Hss]]].
  destruct (calculateExtraEndDate_run holidays (addDays d (n - 1)))
    as [ke [He [Hre Hse]]].
  exists ks, ke. cbn [periodAt startDate endDate].
  rewrite Hs, He, addDays_addDays. repeat split; trivial.
  - unfold extraDaysOf, calculateTotalDaysOff, getTime.
    cbn [periodAt startDate endDate daysCount].
    rewrite Hs, He, addDays_addDays. unfold addDays.
    replace (d + (n - 1 + Z.of_nat ke) * msPerDay
             - (d + - Z.of_nat ks * msPerDay))
      with ((n - 1 + Z.of_nat ke + Z.of_nat ks) * msPerDay)
      by (unfold Date in *; ring).
    rewrite Z.div_mul by (pose proof msPerDay_pos; lia). lia.
  - intros ->. exact Hss.
  - intros Hw. destruct ks as [|ks]; trivial.
    assert (H1 : isWeekendOrHoliday holidays (addDays d (-1)) = true)
      by (apply (Hrs 1); lia).
    rewrite H1 in Hw. discriminate.
  - intros ->. rewrite addDays_addDays in Hse.
    replace (n - 1 + (Z.of_nat 0 + 1)) with n in Hse by lia. exact Hse.
  - intros Hw. destruct ke as [|ke]; trivial.
    specialize (Hre 1). rewrite addDays_addDays in Hre.
    replace (n - 1 + 1) with n in Hre by lia.
    rewrite Hre in Hw by lia. discriminate.
Qed.

(** X3. Expanding twice attaches nothing more: both expanders are
    idempotent. *)
Theorem X3_expansion_idempotent (d : Date) :
  calculateExtraStartDate holidays (calculateExtraStartDate holidays d)
  = calculateExtraStartDate holidays d /\
  calculateExtraEndDate holidays (calculateExtraEndDate holidays d)
  = calculateExtraEndDate holidays d.
Proof.
  destruct (calculateExtraStartDate_run holidays d) as [ks [Hs [_ Hss]]].
  destruct (calculateExtraEndDate_run holidays d) as [ke [He [_ Hse]]].
  split.
  - rewrite <- (addDays_0 (calculateExtraStartDate holidays d)) at 2.
    apply (calculateExtraStartDate_unique holidays _ 0); [lia | intros; lia |].
    rewrite Hs, addDays_addDays.
    replace (- Z.of_nat ks + (- 0 - 1)) with (- Z.of_nat ks - 1) by lia.
    exact Hss.
  - rewrite <- (addDays_0 (calculateExtraEndDate holidays d)) at 2.
    apply (calculateExtraEndDate_unique holidays _ 0); [lia | intros; lia |].
    rewrite He, addDays_addDays. exact Hse.
Qed.

End RankingFacts.

(** ** The result as a whole *)

Lemma NoDup_map_injective {A B : Type} (f : A -> B) (l : list A) :
  (forall x y, f x = f y -> x = y) -> NoDup l -> NoDup (map f l).
Proof.
  intros Hinj. induction 1 as [|x l Hx Hl IH]; simpl; constructor; trivial.
  rewrite in_map_iff. intros [y [Hy Hin]]. apply Hinj in Hy. now subst.
Qed.

Lemma NoDup_flat_map {A B : Type} (f : A -> list B) (l : list A) :
  NoDup l -> (forall a, NoDup (f a)) ->
  (forall a a' x, In x (f a) -> In x (f a') -> a = a') ->
  NoDup (flat_map f l).
Proof.
  intros Hl Hf Hdisj. induction Hl as [|a l Ha Hl IH]; simpl; [constructor|].
  apply NoDup_app; [apply Hf | exact IH |].
  intros x Hx Hx'. apply in_flat_map in Hx'. destruct Hx' as [a' [Ha' Hx']].
  assert (a = a') by (eapply Hdisj; eassumption). now subst.
Qed.

Lemma fromTo_NoDup (lo hi : Z) : NoDup (fromTo lo hi).
Proof.
  unfold fromTo. apply NoDup_map_injective; [|apply seq_NoDup].
  intros x y H. lia.
Qed.

Lemma length_flat_map_le {A B : Type} (f : A -> list B) (l : list A)
    (b : nat) :
  (forall a, List.length (f a) <= b)%nat ->
  (List.length (flat_map f l) <= List.length l * b)%nat.
Proof.
  intros Hb. induction l as [|a l IH]; simpl; [lia|].
  rewrite length_app. specialize (Hb a). lia.
Qed.

Lemma contribution_NoDup (holidays : list Holiday) (s e : Date)
    (ex : list VacationPeriod) (n g : Z) :
  NoDup (contribution (findBestAvailablePeriods holidays s e ex n g)).
Proof.
  destruct (findBestAvailablePeriods holidays s e ex n g) as [l|msg] eqn:F;
    [|constructor].
  apply findBest_Ok_Permutation in F.
  apply (Permutation_NoDup (Permutation_sym F)).
  apply NoDup_map_injective.
  - intros x y H. now apply (f_equal usedStartDate) in H.
  - apply NoDup_filter, daysFrom_NoDup.
Qed.

Lemma contribution_length (holidays : list Holiday) (s e : Date)
    (ex : list VacationPeriod) (n g : Z) :
  (List.length (contribution (findBestAvailablePeriods holidays s e ex n g))
   <= List.length (horizonDates s e))%nat.
Proof.
  destruct (findBestAvailablePeriods holidays s e ex n g) as [l|msg] eqn:F;
    [|simpl; lia].
  apply findBest_Ok_Permutation in F. simpl.
  rewrite (Permutation_length F), length_map. apply filter_length_le.
Qed.

Lemma daysFrom_length (m : nat) (d : Date) : List.length (daysFrom m d) = m.
Proof. revert d. induction m as [|m IH]; intros d; simpl; auto. Qed.

(** X6. The result never lists a period twice, and it has at most one
    period for each day count of the sweep and each scanned date of the
    horizon. *)
Theorem X6_result_distinct_and_bounded (holidays : list Holiday)
    (formData : FormData) :
  NoDup (handleCalculate holidays formData) /\
  (List.length (handleCalculate holidays formData)
   <= Z.to_nat (maxVacationDays formData - minVacationDays formData + 1)
      * Z.to_nat ((formEndDate formData - formStartDate formData) / msPerDay
                  + 1))%nat.
Proof.
  unfold handleCalculate. split.
  - eapply Permutation_NoDup; [apply sortBy_Permutation|].
    apply NoDup_filter. rewrite collectAllCandidates_eq.
    apply NoDup_flat_map.
    + apply fromTo_NoDup.
    + intros n. apply contribution_NoDup.
    + intros n n' p Hp Hp'. apply contribution_In in Hp, Hp'.
      destruct Hp as [d [_ [_ ->]]]. destruct Hp' as [d' [_ [_ Hp']]].
      now apply (f_equal daysCount) in Hp'.
  - rewrite <- (Permutation_length (sortBy_Permutation comparePeriods _)).
    etransitivity; [apply filter_length_le|].
    rewrite collectAllCandidates_eq.
    etransitivity.
    + apply (length_flat_map_le _ _
               (List.length (horizonDates (formStartDate formData)
                               (formEndDate formData)))).
      intros n. apply contribution_length.
    + unfold fromTo, horizonDates.
      rewrite length_map, length_seq, daysFrom_length. lia.
Qed.



(** ** The holiday index, seen from a date *)

(** X8. Which dates the holiday list makes holidays: a date is a holiday
    exactly when, for a year of the range and a span the provider returns
    for it, its calendar day is a whole number of days after the day the
    span starts on, with the start moved forward by that many days still
    strictly before the end of the span. *)
Theorem X8_holiday_dates (getHolidays : Z -> list ProviderHoliday)
    (yearFrom yearTo : Z) (d : Date) :
  isHoliday (buildHolidayList getHolidays yearFrom yearTo) d = true <->
  exists y h k,
    yearFrom <= y <= yearTo /\ In h (getHolidays y) /\ 0 <= k /\
    dayNumber d = dayNumber (h_start h) + k /\
    addDays (h_start h) k < h_end h.
Proof.
  rewrite isHoliday_iff, buildHolidayList_eq. split.
  - intros [x [Hx Hd]]. apply in_flat_map in Hx. destruct Hx as [y [Hy Hx]].
    apply fromTo_In in Hy. apply in_flat_map in Hx.
    destruct Hx as [h [Hh Hx]]. apply flattenSpan_In in Hx.
    destruct Hx as [_ [k [Hk [Hdate Hlt]]]].
    exists y, h, k. rewrite Hdate in Hd, Hlt.
    rewrite dayNumber_addDays in Hd. auto 10.
  - intros [y [h [k [Hy [Hh [Hk [Hd Hlt]]]]]]].
    exists (mkHoliday (addDays (h_start h) k) (h_name h)). split.
    + apply in_flat_map. exists y. split; [now apply fromTo_In|].
      apply in_flat_map. exists h. split; [exact Hh|].
      apply flattenSpan_In. cbn [date name]. eauto.
    + cbn [date]. rewrite dayNumber_addDays. lia.
Qed.


(** ** The name shown on a holiday *)

Lemma find_first {A : Type} (f : A -> bool) (l : list A) (x : A) :
  find f l = Some x ->
  exists l1 l2, l = l1 ++ x :: l2 /\ f x = true /\
                forall y, In y l1 -> f y = false.
Proof.
  induction l as [|a l IH]; simpl; [discriminate|].
  destruct (f a) eqn:Fa.
  - intros H. injection H as <-. exists [], l. repeat split; trivial.
    intros y [].
  - intros H. destruct (IH H) as [l1 [l2 [-> [Hx Hl1]]]].
    exists (a :: l1), l2. repeat split; trivial.
    intros y [<-|Hy]; auto.
Qed.

(** X10. [getHolidayName] agrees with [isHoliday]: for a date that is not a
    holiday it is the empty string, and for a holiday it is the name of the
    first record of the list that falls on that calendar day.  It depends on
    the calendar day only, and the title of a calendar cell is always
    [getHolidayName] of the cell date. *)
Theorem X10_holiday_name (holidays : list Holiday) (d : Date) :
  (isHoliday holidays d = false -> getHolidayName holidays d = EmptyString) /\
  (isHoliday holidays d = true ->
   exists l1 h l2,
     holidays = l1 ++ h :: l2 /\
     dayNumber (date h) = dayNumber d /\
     (forall x, In x l1 -> dayNumber (date x) <> dayNumber d) /\
     getHolidayName holidays d = name h) /\
  (forall d', dayNumber d' = dayNumber d ->
              getHolidayName holidays d' = getHolidayName holidays d) /\
  (forall s e us ue,
     holidayName (calendarCell holidays s e us ue d)
     = getHolidayName holidays d /\
     showHolidayIcon (calendarCell holidays s e us ue d)
     = isHoliday holidays d).
Proof.
  assert (Hnone : forall a, isHoliday holidays a = false ->
                            getHolidayName holidays a = EmptyString).
  { intros a H. unfold getHolidayName, isHoliday in *.
    destruct (find _ holidays) as [h|] eqn:F; [|reflexivity].
    apply find_some in F. destruct F as [Hin Hf].
    assert (Ht : existsb (fun holiday =>
                   getTime (setHoursZero (date holiday))
                   =? getTime (setHoursZero a)) holidays = true)
      by (apply existsb_exists; eauto).
    cbv zeta in H. rewrite Ht in H. discriminate. }
  assert (Hday : forall a b, dayNumber a = dayNumber b ->
                             getHolidayName holidays a
                             = getHolidayName holidays b).
  { intros a b H. unfold getHolidayName, setHoursZero. now rewrite H. }
  split; [apply Hnone|]. split; [|split].
  - intros H. unfold getHolidayName.
    destruct (find _ holidays) as [h|] eqn:F.
    + apply find_first in F. destruct F as [l1 [l2 [Hl [Hh Hl1]]]].
      exists l1, h, l2. unfold getTime in *. repeat split; trivial.
      * apply Z.eqb_eq in Hh. now apply setHoursZero_eq_iff.
      * intros x Hx Hd. apply Hl1 in Hx. apply Z.eqb_neq in Hx.
        apply Hx. now apply setHoursZero_eq_iff.
    + apply isHoliday_iff in H. destruct H as [h [Hin Hd]].
      pose proof (find_none _ _ F h Hin) as Hf. cbv beta zeta in Hf.
      unfold getTime in Hf. apply Z.eqb_neq in Hf. exfalso. apply Hf.
      now apply setHoursZero_eq_iff.
  - intros d' H. now apply Hday.
  - intros s e us ue. cbn [calendarCell holidayName showHolidayIcon].
    assert (Hsame : dayNumber (setHoursZero d) = dayNumber d).
    { unfold setHoursZero, dayNumber at 1. apply Z.div_mul.
      pose proof msPerDay_pos. lia. }
    rewrite (isHoliday_same_day holidays _ _ Hsame). split; [|reflexivity].
    destruct (isHoliday holidays d) eqn:H.
    + now apply Hday.
    + symmetry. now apply Hnone.
Qed.

(** ** The calendar view *)

Lemma dayNumber_setHoursZero (d : Date) :
  dayNumber (setHoursZero d) = dayNumber d.
Proof.
  unfold setHoursZero, dayNumber at 1. apply Z.div_mul.
  pose proof msPerDay_pos. lia.
Qed.

Lemma setHoursZero_le_iff (a b : Date) :
  setHoursZero a <= setHoursZero b <-> dayNumber a <= dayNumber b.
Proof. unfold setHoursZero. pose proof msPerDay_pos. nia. Qed.

Lemma setHoursZero_lt_iff (a b : Date) :
  setHoursZero a < setHoursZero b <-> dayNumber a < dayNumber b.
Proof. unfold setHoursZero. pose proof msPerDay_pos. nia. Qed.

Lemma totalDaysLoop_counts (e : Date) :
  forall (m fuel : nat) (cur : Date) (total : Z),
    (m < fuel)%nat ->
    Z.of_nat m = Z.max 0 ((e - cur) / msPerDay + 1) ->
    totalDaysLoop fuel cur e total = Some (total + Z.of_nat m).
Proof.
  pose proof msPerDay_pos as Hpos.
  induction m as [|m IH]; intros fuel cur total Hfuel Hm;
    (destruct fuel as [|fuel]; [lia|]); cbn [totalDaysLoop].
  - assert (Hlt : e < cur).
    { destruct (Z.lt_ge_cases e cur) as [?|Hc]; trivial.
      assert (0 <= (e - cur) / msPerDay) by (apply Z.div_pos; lia). lia. }
    apply Z.leb_gt in Hlt. rewrite Hlt. f_equal. lia.
  - assert (Hle : cur <= e).
    { destruct (Z.le_gt_cases cur e) as [?|Hc]; trivial.
      assert ((e - cur) / msPerDay < 0)
        by (apply Z.div_lt_upper_bound; lia). lia. }
    apply Z.leb_le in Hle. rewrite Hle. rewrite (IH fuel); [f_equal; lia|lia|].
    unfold addDays.
    replace (e - (cur + 1 * msPerDay)) with (e - cur + (-1) * msPerDay)
      by (unfold Date in *; ring).
    rewrite Z.div_add by lia. lia.
Qed.

Lemma viewTotalDays_eq (s e : Date) :
  viewTotalDays s e = Z.max 0 (dayNumber e - dayNumber s + 1).
Proof.
  unfold viewTotalDays.
  assert (Hq : (setHoursZero e - setHoursZero s) / msPerDay
               = dayNumber e - dayNumber s).
  { unfold setHoursZero.
    replace (dayNumber e * msPerDay - dayNumber s * msPerDay)
      with ((dayNumber e - dayNumber s) * msPerDay) by ring.
    apply Z.div_mul. pose proof msPerDay_pos. lia. }
  rewrite (totalDaysLoop_counts (setHoursZero e)
             (Z.to_nat ((setHoursZero e - setHoursZero s) / msPerDay + 1)));
    [|lia|lia].
  rewrite Hq. lia.
Qed.

Lemma hasErrors_false (formData : FormData) :
  hasErrors formData = false ->
  formStartDate formData < formEndDate formData /\
  1 <= minVacationDays formData <= maxVacationDays formData.
Proof.
  unfold hasErrors.
  destruct (formEndDate formData <=? formStartDate formData) eqn:A;
    [discriminate|].
  destruct (minVacationDays formData <=? 0) eqn:B; [discriminate|].
  destruct (maxVacationDays formData <=? 0) eqn:C; [discriminate|].
  destruct (minVacationDays formData >? maxVacationDays formData) eqn:D;
    [discriminate|].
  intros _. apply Z.leb_gt in A, B, C. rewrite Z.gtb_ltb in D.
  apply Z.ltb_ge in D. lia.
Qed.

(** The days of the extended window outside the core window are days off. *)
Lemma periodAt_days_off (holidays : list Holiday) (n : Z) (d c : Date) :
  dayNumber (startDate (periodAt holidays n d)) <= dayNumber c < dayNumber d \/
  dayNumber (addDays d (n - 1)) < dayNumber c
  <= dayNumber (endDate (periodAt holidays n d)) ->
  isWeekendOrHoliday holidays c = true.
Proof.
  cbn [periodAt startDate endDate].
  destruct (calculateExtraStartDate_run holidays d) as [ks [Hs [Hrs _]]].
  destruct (calculateExtraEndDate_run holidays (addDays d (n - 1)))
    as [ke [He [Hre _]]].
  rewrite Hs, He, !dayNumber_addDays. intros [H|H].
  - rewrite (isWeekendOrHoliday_same_day holidays c
               (addDays d (- (dayNumber d - dayNumber c)))).
    + apply Hrs. lia.
    + rewrite dayNumber_addDays. lia.
  - rewrite (isWeekendOrHoliday_same_day holidays c
               (addDays (addDays d (n - 1))
                        (dayNumber c - dayNumber (addDays d (n - 1))))).
    + apply Hre. rewrite dayNumber_addDays. lia.
    + rewrite !dayNumber_addDays. lia.
Qed.

(** X12. How the calendar colours the days of a period of the result: a
    cell is a vacation day exactly when its calendar day lies in the core
    window, an extra day exactly when it lies in the extended window outside
    the core window (the test for a weekend or a holiday never excludes such
    a day), and never both; so every day of the extended window is coloured
    and no other day is.  This is for a form that [hasErrors] accepts. *)
Theorem X12_calendar_colours_whole_window (holidays : list Holiday)
    (formData : FormData) (Hvalid : hasErrors formData = false) :
  Forall (fun p => forall c : Date,
            let cell := calendarCell holidays (startDate p) (endDate p)
                          (usedStartDate p) (usedEndDate p) c in
            (isVacationDay cell = true <->
             dayNumber (usedStartDate p) <= dayNumber c
             <= dayNumber (usedEndDate p)) /\
            (isExtraDay cell = true <->
             dayNumber (startDate p) <= dayNumber c
             < dayNumber (usedStartDate p) \/
             dayNumber (usedEndDate p) < dayNumber c
             <= dayNumber (endDate p)) /\
            isVacationDay cell && isExtraDay cell = false /\
            (isVacationDay cell || isExtraDay cell = true <->
             dayNumber (startDate p) <= dayNumber c <= dayNumber (endDate p)))
         (handleCalculate holidays formData).
Proof.
  apply Forall_forall. intros p Hp c. apply handleCalculate_In in Hp.
  destruct Hp as [Hp _]. apply collectAllCandidates_In in Hp.
  destruct Hp as [n [d [Hn [_ [_ ->]]]]].
  apply hasErrors_false in Hvalid.
  assert (Hcore : dayNumber d <= dayNumber (addDays d (n - 1)))
    by (rewrite dayNumber_addDays; lia).
  pose proof (periodAt_days_off holidays n d c) as Hoff.
  pose proof (calculateExtraStartDate_le holidays d) as Hs.
  pose proof (calculateExtraEndDate_ge holidays (addDays d (n - 1))) as He.
  apply dayNumber_mono in Hs, He.
  cbn [periodAt startDate endDate usedStartDate usedEndDate] in *.
  cbn [calendarCell isVacationDay isExtraDay]. unfold getTime.
  fold (isWeekendOrHoliday holidays (setHoursZero c)).
  rewrite (isWeekendOrHoliday_same_day holidays _ c
             (dayNumber_setHoursZero c)).
  set (ds := dayNumber (calculateExtraStartDate holidays d)) in *.
  set (de := dayNumber (calculateExtraEndDate holidays (addDays d (n - 1))))
    in *.
  assert (V : (setHoursZero c >=? setHoursZero d)
              && (setHoursZero c <=? setHoursZero (addDays d (n - 1))) = true
              <-> dayNumber d <= dayNumber c <= dayNumber (addDays d (n - 1))).
  { rewrite andb_true_iff, Z.geb_le, Z.leb_le, !setHoursZero_le_iff. tauto. }
  assert (E : ((setHoursZero c
                >=? setHoursZero (calculateExtraStartDate holidays d))
               && (setHoursZero c <? setHoursZero d)
               || (setHoursZero c >? setHoursZero (addDays d (n - 1)))
                  && (setHoursZero c
                      <=? setHoursZero
                            (calculateExtraEndDate holidays
                               (addDays d (n - 1)))))
              && isWeekendOrHoliday holidays c = true
              <-> ds <= dayNumber c < dayNumber d \/
                  dayNumber (addDays d (n - 1)) < dayNumber c <= de).
  { rewrite andb_true_iff, orb_true_iff, !andb_true_iff, Z.geb_le, Z.ltb_lt,
      Z.gtb_lt, Z.leb_le, !setHoursZero_le_iff, !setHoursZero_lt_iff.
    fold ds de. split; [tauto|]. intros H. split; [tauto|]. now apply Hoff. }
  split; [exact V|]. split; [exact E|]. split.
  - apply not_true_is_false. rewrite andb_true_iff, V, E. lia.
  - rewrite orb_true_iff, V, E. lia.
Qed.

Lemma X12_calendar_colours_whole_window_witness :
  hasErrors (weekForm 5 6) = false /\
  isVacationDay (calendarCell scenarioHolidays (startDate weekPeriod)
                   (endDate weekPeriod) (usedStartDate weekPeriod)
                   (usedEndDate weekPeriod) (ymdhm 2025 1 11 9 0))
  && isExtraDay (calendarCell scenarioHolidays (startDate weekPeriod)
                   (endDate weekPeriod) (usedStartDate weekPeriod)
                   (usedEndDate weekPeriod) (ymdhm 2025 1 11 9 0))
  = false.
Proof.
  split; [reflexivity|].
  pose proof (X12_calendar_colours_whole_window scenarioHolidays
                (weekForm 5 6) eq_refl) as H.
  rewrite Forall_forall in H.
  assert (Hin : In weekPeriod (handleCalculate scenarioHolidays (weekForm 5 6)))
    by (vm_compute; left; reflexivity).
  destruct (H weekPeriod Hin (ymdhm 2025 1 11 9 0)) as [_ [_ [Hx _]]].
  exact Hx.
Defined.

(** ** The accordion of the results column *)

Lemma mapGet_mapSet (k k' : Z) (v : list VacationPeriod) (m : PeriodMap) :
  mapGet k (mapSet k' v m) = if k' =? k then Some v else mapGet k m.
Proof.
  induction m as [|[k0 v0] m IH]; simpl; [reflexivity|].
  destruct (k0 =? k') eqn:E0; simpl.
  - apply Z.eqb_eq in E0. subst k0. destruct (k' =? k); reflexivity.
  - rewrite IH. destruct (k0 =? k) eqn:E1; [|reflexivity].
    apply Z.eqb_eq in E1. subst k0. now rewrite Z.eqb_sym, E0.
Qed.

Lemma mapGet_mapPush (k k' : Z) (p : VacationPeriod) (m : PeriodMap) :
  mapGet k (mapPush k' p m)
  = if k' =? k then option_map (fun l => l ++ [p]) (mapGet k m)
    else mapGet k m.
Proof.
  induction m as [|[k0 v0] m IH]; simpl; [now destruct (k' =? k)|].
  destruct (k0 =? k') eqn:E0; simpl.
  - apply Z.eqb_eq in E0. subst k0. destruct (k' =? k); reflexivity.
  - rewrite IH. destruct (k0 =? k) eqn:E1; [|reflexivity].
    apply Z.eqb_eq in E1. subst k0. now rewrite Z.eqb_sym, E0.
Qed.

Lemma mapHas_mapGet (k : Z) (m : PeriodMap) :
  mapHas k m = match mapGet k m with Some _ => true | None => false end.
Proof.
  induction m as [|[k0 v0] m IH]; simpl; [reflexivity|].
  now destruct (k0 =? k).
Qed.

Lemma mapHas_keys (k : Z) (m : PeriodMap) :
  mapHas k m = true <-> In k (map fst m).
Proof.
  induction m as [|[k0 v0] m IH]; simpl; [split; [discriminate | tauto]|].
  destruct (k0 =? k) eqn:E.
  - apply Z.eqb_eq in E. tauto.
  - apply Z.eqb_neq in E. rewrite IH. split; [tauto | intros [?|?]; tauto].
Qed.

Lemma mapPush_keys (k : Z) (p : VacationPeriod) (m : PeriodMap) :
  map fst (mapPush k p m) = map fst m.
Proof.
  induction m as [|[k0 v0] m IH]; simpl; [reflexivity|].
  destruct (k0 =? k); simpl; [reflexivity | now rewrite IH].
Qed.

Lemma mapSet_new_key (k : Z) (v : list VacationPeriod) (m : PeriodMap) :
  mapHas k m = false -> map fst (mapSet k v m) = map fst m ++ [k].
Proof.
  induction m as [|[k0 v0] m IH]; simpl; [reflexivity|].
  destruct (k0 =? k); [discriminate|]. intros H. simpl. now rewrite IH.
Qed.

Lemma groupStep_eq (m : PeriodMap) (p : VacationPeriod) :
  groupStep m p =
  mapPush (extraDaysOf p) p
    (if negb (mapHas (extraDaysOf p) m) then mapSet (extraDaysOf p) [] m
     else m).
Proof. reflexivity. Qed.

Lemma groupPeriods_snoc (ps : list VacationPeriod) (p : VacationPeriod) :
  groupPeriods (ps ++ [p]) = groupStep (groupPeriods ps) p.
Proof. unfold groupPeriods. now rewrite fold_left_app. Qed.

Lemma mapGet_groupStep (k : Z) (m : PeriodMap) (p : VacationPeriod) :
  mapGet k (groupStep m p)
  = if extraDaysOf p =? k
    then Some (match mapGet k m with Some l => l ++ [p] | None => [p] end)
    else mapGet k m.
Proof.
  rewrite groupStep_eq, mapGet_mapPush.
  destruct (extraDaysOf p =? k) eqn:E.
  - apply Z.eqb_eq in E. subst k. rewrite mapHas_mapGet.
    destruct (mapGet (extraDaysOf p) m) as [l|] eqn:G; cbn [negb].
    + now rewrite G.
    + now rewrite mapGet_mapSet, Z.eqb_refl.
  - destruct (negb (mapHas (extraDaysOf p) m)); [|reflexivity].
    now rewrite mapGet_mapSet, E.
Qed.

(** Under each key the map holds the periods with that many extra days, in
    the order they came. *)
Lemma groupPeriods_get (k : Z) (ps : list VacationPeriod) :
  mapGet k (groupPeriods ps)
  = match filter (fun p => extraDaysOf p =? k) ps with
    | [] => None
    | l => Some l
    end.
Proof.
  induction ps as [|p ps IH] using rev_ind; [reflexivity|].
  rewrite groupPeriods_snoc, mapGet_groupStep, IH, filter_app. cbn [filter].
  destruct (extraDaysOf p =? k).
  - destruct (filter _ ps); reflexivity.
  - now rewrite app_nil_r.
Qed.

Lemma groupPeriods_keys_NoDup (ps : list VacationPeriod) :
  NoDup (map fst (groupPeriods ps)).
Proof.
  induction ps as [|p ps IH] using rev_ind; [constructor|].
  rewrite groupPeriods_snoc, groupStep_eq, mapPush_keys.
  destruct (mapHas (extraDaysOf p) (groupPeriods ps)) eqn:H; cbn [negb];
    [exact IH|].
  rewrite mapSet_new_key by exact H.
  apply NoDup_app; [exact IH | repeat constructor; intros [] |].
  intros k Hk [<-|[]]. apply mapHas_keys in Hk. congruence.
Qed.

Lemma groupPeriods_keys (k : Z) (ps : list VacationPeriod) :
  In k (map fst (groupPeriods ps)) <->
  exists p, In p ps /\ extraDaysOf p = k.
Proof.
  rewrite <- mapHas_keys, mapHas_mapGet, groupPeriods_get.
  destruct (filter (fun p => extraDaysOf p =? k) ps) as [|p l] eqn:F.
  - split; [discriminate|]. intros [p [Hp Hk]].
    assert (Hin : In p (filter (fun p => extraDaysOf p =? k) ps))
      by (apply filter_In; split; [exact Hp | now apply Z.eqb_eq]).
    rewrite F in Hin. destruct Hin.
  - split; [intros _ | reflexivity].
    assert (Hin : In p (filter (fun p => extraDaysOf p =? k) ps))
      by (rewrite F; now left).
    apply filter_In in Hin. destruct Hin as [Hp Hk].
    apply Z.eqb_eq in Hk. eauto.
Qed.

Lemma StronglySorted_strict (l : list Z) :
  NoDup l -> StronglySorted (fun a b => b - a <= 0) l ->
  StronglySorted (fun a b => b < a) l.
Proof.
  intros Hn Hs. induction Hs as [|x l Hs IH Hall]; constructor.
  - apply IH. now inversion Hn.
  - inversion Hn as [|? ? Hx _]; subst.
    rewrite Forall_forall in *. intros b Hb. specialize (Hall b Hb).
    assert (b <> x) by (intros ->; contradiction). lia.
Qed.

Lemma sortedExtraDays_sorted (ps : list VacationPeriod) :
  StronglySorted (fun a b => b < a) (sortedExtraDays (groupPeriods ps)).
Proof.
  unfold sortedExtraDays. apply StronglySorted_strict.
  - eapply Permutation_NoDup; [apply sortBy_Permutation|].
    apply groupPeriods_keys_NoDup.
  - apply (sortBy_sorted (fun a b => b - a)); intros; lia.
Qed.

Lemma sortedExtraDays_In (k : Z) (ps : list VacationPeriod) :
  In k (sortedExtraDays (groupPeriods ps)) <->
  exists p, In p ps /\ extraDaysOf p = k.
Proof. unfold sortedExtraDays. now rewrite sortBy_In, groupPeriods_keys. Qed.

Lemma accordion_eq (ps : list VacationPeriod) :
  accordion ps
  = map (fun k => (k, filter (fun p => extraDaysOf p =? k) ps))
        (sortedExtraDays (groupPeriods ps)).
Proof.
  unfold accordion. apply map_ext. intros k. rewrite groupPeriods_get.
  now destruct (filter _ ps).
Qed.

Lemma flat_map_filter_none {A : Type} (key : A -> Z) (ks : list Z) :
  flat_map (fun k => filter (fun p => key p =? k) (@nil A)) ks = [].
Proof. induction ks as [|k ks IH]; simpl; trivial. Qed.

Lemma flat_map_filter_other {A : Type} (key : A -> Z) (p : A) (l : list A)
    (ks : list Z) :
  ~ In (key p) ks ->
  flat_map (fun k => filter (fun q => key q =? k) (p :: l)) ks
  = flat_map (fun k => filter (fun q => key q =? k) l) ks.
Proof.
  induction ks as [|k ks IH]; cbn [flat_map]; intros H; [reflexivity|].
  f_equal.
  - cbn [filter].
    replace (key p =? k) with false; [reflexivity|].
    symmetry. apply Z.eqb_neq. intros E. apply H. now left.
  - apply IH. intros Hin. apply H. now right.
Qed.

(** Grouping by key over a duplicate-free list of keys that covers the
    list loses and repeats nothing. *)
Lemma regroup_Permutation {A : Type} (key : A -> Z) (ks : list Z)
    (l : list A) :
  NoDup ks -> (forall p, In p l -> In (key p) ks) ->
  Permutation (flat_map (fun k => filter (fun p => key p =? k) l) ks) l.
Proof.
  intros Hks. induction l as [|p l IH]; intros Hcov.
  - now rewrite flat_map_filter_none.
  - destruct (in_split (key p) ks (Hcov p (or_introl eq_refl)))
      as [ks1 [ks2 ->]].
    assert (H1 : ~ In (key p) ks1).
    { intros Hin. apply NoDup_remove_2 in Hks. apply Hks.
      apply in_or_app. now left. }
    assert (H2 : ~ In (key p) ks2).
    { intros Hin. apply NoDup_remove_2 in Hks. apply Hks.
      apply in_or_app. now right. }
    assert (IH' : Permutation
              (flat_map (fun k => filter (fun q => key q =? k) l)
                        (ks1 ++ key p :: ks2)) l).
    { apply IH. intros q Hq. apply Hcov. now right. }
    rewrite flat_map_app in *. cbn [flat_map] in *.
    rewrite !(flat_map_filter_other key p l) by assumption.
    cbn [filter]. rewrite Z.eqb_refl.
    etransitivity; [symmetry; apply Permutation_middle|].
    now constructor.
Qed.

Lemma StronglySorted_filter {A : Type} (R : A -> A -> Prop) (f : A -> bool)
    (l : list A) :
  StronglySorted R l -> StronglySorted R (filter f l).
Proof.
  induction 1 as [|x l Hs IH Hall]; simpl; [constructor|].
  destruct (f x); [constructor|]; trivial.
  rewrite Forall_forall in *. intros b Hb. apply filter_In in Hb.
  now apply Hall.
Qed.

Lemma filter_all {A : Type} (f : A -> bool) (l : list A) :
  (forall x, In x l -> f x = true) -> filter f l = l.
Proof.
  induction l as [|x l IH]; simpl; intros H; [reflexivity|].
  rewrite (H x) by now left. f_equal. apply IH. intros y Hy. apply H.
  now right.
Qed.

(** A list in descending key order splits into the elements with the
    greatest key followed by the others. *)
Lemma sorted_split_top {A : Type} (key : A -> Z) (k : Z) (l : list A) :
  StronglySorted (fun a b => key b <= key a) l ->
  (forall p, In p l -> key p <= k) ->
  l = filter (fun p => key p =? k) l ++ filter (fun p => key p <? k) l.
Proof.
  induction 1 as [|x l Hs IH Hall]; intros Hk; [reflexivity|].
  cbn [filter]. destruct (key x =? k) eqn:E.
  - apply Z.eqb_eq in E.
    replace (key x <? k) with false by (symmetry; apply Z.ltb_ge; lia).
    cbn [app]. f_equal. apply IH. intros p Hp. apply Hk. now right.
  - apply Z.eqb_neq in E. pose proof (Hk x (or_introl eq_refl)) as Hx.
    replace (key x <? k) with true by (symmetry; apply Z.ltb_lt; lia).
    rewrite Forall_forall in Hall.
    rewrite (filter_none (fun p => key p =? k) l).
    + cbn [app]. f_equal. symmetry. apply filter_all.
      intros p Hp. apply Z.ltb_lt. specialize (Hall p Hp). lia.
    + intros p Hp. apply Z.eqb_neq. specialize (Hall p Hp). lia.
Qed.

(** Over keys in strictly descending order, grouping a list that is in
    descending key order gives the list back. *)
Lemma regroup_sorted {A : Type} (key : A -> Z) (ks : list Z) :
  StronglySorted (fun a b => b < a) ks ->
  forall l : list A,
    StronglySorted (fun a b => key b <= key a) l ->
    (forall p, In p l -> In (key p) ks) ->
    flat_map (fun k => filter (fun p => key p =? k) l) ks = l.
Proof.
  induction 1 as [|k ks Hs IH Hall]; intros l Hl Hcov.
  - destruct l as [|p l]; [reflexivity|].
    destruct (Hcov p (or_introl eq_refl)).
  - rewrite Forall_forall in Hall. cbn [flat_map].
    assert (Hk : forall p, In p l -> key p <= k).
    { intros p Hp. destruct (Hcov p Hp) as [<-|Hin]; [lia|].
      specialize (Hall _ Hin). lia. }
    etransitivity; [|symmetry; apply (sorted_split_top key k l Hl Hk)].
    f_equal.
    rewrite <- (IH (filter (fun p => key p <? k) l)).
    + rewrite !flat_map_concat_map. f_equal. apply map_ext_in.
      intros k' Hk'. specialize (Hall k' Hk').
      induction l as [|p l IHl]; [reflexivity|]. cbn [filter].
      inversion Hl; subst.
      assert (Hrec : filter (fun p0 => key p0 =? k') l
                     = filter (fun p0 => key p0 =? k')
                              (filter (fun p0 => key p0 <? k) l)).
      { apply IHl; trivial; intros q Hq; [apply Hcov | apply Hk]; now right. }
      destruct (key p =? k') eqn:E.
      * apply Z.eqb_eq in E.
        replace (key p <? k) with true by (symmetry; apply Z.ltb_lt; lia).
        cbn [filter]. rewrite (proj2 (Z.eqb_eq _ _) E). now f_equal.
      * destruct (key p <? k); [cbn [filter]; rewrite E|]; exact Hrec.
    + now apply StronglySorted_filter.
    + intros p Hp. apply filter_In in Hp. destruct Hp as [Hp Hlt].
      apply Z.ltb_lt in Hlt. destruct (Hcov p Hp) as [E|Hin]; [lia | exact Hin].
Qed.

(** X13. The accordion groups any list of periods by extra days: its rows
    have pairwise different keys in strictly descending order, a key has a
    row exactly when some period has that many extra days, the row of a key
    holds exactly the periods with that many extra days, in the order of the
    list, and is never empty; the lookup of a row's key in the map always
    finds an entry; and the rows together hold every period of the list
    once. *)
Theorem X13_accordion_groups (vacationPeriods : list VacationPeriod) :
  let rows := accordion vacationPeriods in
  StronglySorted (fun a b => b < a) (map fst rows) /\
  (forall k, In k (map fst rows) <->
             exists p, In p vacationPeriods /\ extraDaysOf p = k) /\
  (forall k l, In (k, l) rows ->
               l = filter (fun p => extraDaysOf p =? k) vacationPeriods /\
               l <> [] /\
               mapGet k (groupPeriods vacationPeriods) = Some l) /\
  Permutation (List.concat (map snd rows)) vacationPeriods.
Proof.
  intros rows.
  assert (Hkeys : map fst rows
                  = sortedExtraDays (groupPeriods vacationPeriods)).
  { unfold rows. rewrite accordion_eq, map_map. cbn [fst]. apply map_id. }
  split; [rewrite Hkeys; apply sortedExtraDays_sorted|].
  split; [intros k; rewrite Hkeys; apply sortedExtraDays_In|].
  split.
  - intros k l Hin. unfold rows in Hin. rewrite accordion_eq in Hin.
    apply in_map_iff in Hin. destruct Hin as [k' [Heq Hk']].
    injection Heq as -> <-. apply sortedExtraDays_In in Hk'.
    destruct Hk' as [p [Hp Hk]].
    assert (Hin : In p (filter (fun q => extraDaysOf q =? k) vacationPeriods))
      by (apply filter_In; split; [exact Hp | now apply Z.eqb_eq]).
    split; [reflexivity|]. rewrite groupPeriods_get.
    destruct (filter _ vacationPeriods); [destruct Hin|].
    split; [discriminate | reflexivity].
  - unfold rows. rewrite accordion_eq, map_map. cbn [snd].
    rewrite <- flat_map_concat_map.
    apply (regroup_Permutation extraDaysOf).
    + eapply Permutation_NoDup; [apply sortBy_Permutation|].
      apply groupPeriods_keys_NoDup.
    + intros p Hp. apply sortedExtraDays_In. eauto.
Qed.

(** X14. For the result of [handleCalculate] the accordion keeps the order
    of the engine: its rows read one after the other are the result itself,
    every row is for a positive number of extra days, and inside a row the
    periods are in ascending order of their first vacation day. *)
Theorem X14_accordion_keeps_engine_order (holidays : list Holiday)
    (formData : FormData) :
  let rows := accordion (handleCalculate holidays formData) in
  List.concat (map snd rows) = handleCalculate holidays formData /\
  Forall (fun row =>
            0 < fst row /\
            StronglySorted
              (fun a b => usedStartDate a <= usedStartDate b) (snd row))
         rows.
Proof.
  intros rows. unfold rows. rewrite accordion_eq. split.
  - rewrite map_map. cbn [snd]. rewrite <- flat_map_concat_map.
    apply (regroup_sorted extraDaysOf).
    + apply sortedExtraDays_sorted.
    + eapply StronglySorted_weaken; [|apply handleCalculate_sorted].
      intros a b H. unfold rankedBefore in H. lia.
    + intros p Hp. apply sortedExtraDays_In. eauto.
  - apply Forall_forall. intros [k l] Hin. apply in_map_iff in Hin.
    destruct Hin as [k' [Heq Hk']]. injection Heq as -> <-. cbn [fst snd].
    split.
    + apply sortedExtraDays_In in Hk'. destruct Hk' as [p [Hp <-]].
      now apply handleCalculate_In in Hp.
    + eapply StronglySorted_weaken_In;
        [|apply StronglySorted_filter, handleCalculate_sorted].
      intros a b Ha Hb H. apply filter_In in Ha, Hb.
      destruct Ha as [_ Ha]. destruct Hb as [_ Hb].
      apply Z.eqb_eq in Ha, Hb. unfold rankedBefore in H. lia.
Qed.

(** ** The form *)

(** X15. The Calculate button is disabled exactly when the form shows a
    warning: [hasErrors] is true if and only if one of the five warnings
    (the two number fields, minimum above maximum, the two date fields) is
    displayed.  It is false exactly when both dates are valid and in order,
    neither day count is an integer below one, and the two day counts, where
    both are integers, are in order: a day count that is NaN (what
    [parseInt] gives for a text without leading digits) is accepted and
    raises no warning. *)
Theorem X15_disabled_iff_warning_shown (st : FormState) :
  (hasErrorsState st = true <->
   exists msg, In (Some msg) (displayedWarnings st)) /\
  (hasErrorsState st = false <->
   exists s e,
     st_startDate st = Some s /\ st_endDate st = Some e /\ s < e /\
     (forall lo, st_minVacationDays st = Some lo -> 1 <= lo) /\
     (forall hi, st_maxVacationDays st = Some hi -> 1 <= hi) /\
     (forall lo hi, st_minVacationDays st = Some lo ->
                    st_maxVacationDays st = Some hi -> lo <= hi)).
Proof.
  destruct st as [c w lo hi [s|] [e|]];
    unfold hasErrorsState, displayedWarnings, getStartDateErrorMessage,
      getEndDateErrorMessage, numberFieldWarning;
    cbn [st_startDate st_endDate st_minVacationDays st_maxVacationDays
         st_workCountry st_workState In].
  - destruct (e <=? s) eqn:A;
      [apply Z.leb_le in A | apply Z.leb_gt in A];
      destruct lo as [lo|]; destruct hi as [hi|];
      unfold numGt, numLt, numLe;
      repeat match goal with
             | |- context [?x <=? ?y] =>
                 let E := fresh "E" in
                 destruct (x <=? y) eqn:E;
                 [apply Z.leb_le in E | apply Z.leb_gt in E]
             | |- context [?x <? ?y] =>
                 let E := fresh "E" in
                 destruct (x <? y) eqn:E;
                 [apply Z.ltb_lt in E | apply Z.ltb_ge in E]
             end;
      cbn [orb];
      (split; split;
       [ first [discriminate | intros _; eauto 10]
       | first [intros; reflexivity
               | intros [msg H]; intuition discriminate]
       | first [discriminate
               | intros _; exists s, e;
                 repeat split; trivial;
                 intros; repeat match goal with
                                | H : Some _ = Some _ |- _ =>
                                    injection H as <-
                                | H : None = Some _ |- _ => discriminate H
                                end; lia]
       | first [intros; reflexivity
               | intros [s' [e' [Hs [He [Hlt [Hlo [Hhi Hord]]]]]]];
                 injection Hs as <-; injection He as <-;
                 try (specialize (Hlo _ eq_refl));
                 try (specialize (Hhi _ eq_refl));
                 try (specialize (Hord _ _ eq_refl eq_refl)); lia] ]).
  - split; split; try discriminate; trivial.
    + intros _. eauto 10.
    + intros [s' [e' [_ [He _]]]]. discriminate.
  - split; split; try discriminate; trivial.
    + intros _. eauto 10.
    + intros [s' [e' [Hs _]]]. discriminate.
  - split; split; try discriminate; trivial.
    + intros _. eauto 10.
    + intros [s' [e' [Hs _]]]. discriminate.
Qed.

(** ** The complete order of the result *)

Section StableSort.

Context {A : Type}.
Variable cmp : A -> A -> Z.
Variable P : A -> bool.

(** The elements picked by [P] compare as equal or smaller to one another. *)
Hypothesis class_le : forall x y, P x = true -> P y = true -> cmp x y <= 0.

Lemma insertBy_filter (x : A) (l : list A) :
  filter P (insertBy cmp x l) = filter P (x :: l).
Proof.
  induction l as [|y l IH]; [reflexivity|]. cbn [insertBy].
  destruct (cmp x y <=? 0) eqn:C; [reflexivity|].
  apply Z.leb_gt in C. cbn [filter] in *.
  destruct (P y) eqn:Py.
  - destruct (P x) eqn:Px.
    + specialize (class_le x y Px Py). lia.
    + now rewrite IH.
  - exact IH.
Qed.

(** The sort keeps the elements picked by [P] in the order they had. *)
Lemma sortBy_filter (l : list A) : filter P (sortBy cmp l) = filter P l.
Proof.
  induction l as [|x l IH]; [reflexivity|]. cbn [sortBy fold_right].
  fold (sortBy cmp l). rewrite insertBy_filter. cbn [filter].
  now rewrite IH.
Qed.

End StableSort.

Lemma filter_sorted_pairs {A : Type} (R : A -> A -> Prop) (P : A -> bool)
    (l : list A) :
  StronglySorted R (filter P l) ->
  forall (i j : nat) (a b : A),
    (i < j)%nat -> nth_error l i = Some a -> nth_error l j = Some b ->
    P a = true -> P b = true -> R a b.
Proof.
  induction l as [|x l IH]; intros Hs i j a b Hij Hi Hj Pa Pb.
  - destruct i; discriminate.
  - destruct j as [|j]; [lia|]. cbn [nth_error] in Hj. cbn [filter] in Hs.
    destruct i as [|i].
    + injection Hi as ->. rewrite Pa in Hs. inversion Hs as [|? ? _ Hall].
      subst. rewrite Forall_forall in Hall. apply Hall.
      apply filter_In. split; [eapply nth_error_In, Hj | exact Pb].
    + cbn [nth_error] in Hi. apply (IH) with (i := i) (j := j); trivial;
        [|lia].
      destruct (P x); [now inversion Hs | exact Hs].
Qed.

Lemma pairs_StronglySorted {A : Type} (R : A -> A -> Prop) (l : list A) :
  (forall (i j : nat) (a b : A),
     (i < j)%nat -> nth_error l i = Some a -> nth_error l j = Some b ->
     R a b) ->
  StronglySorted R l.
Proof.
  induction l as [|x l IH]; intros H; constructor.
  - apply IH. intros i j a b Hij Hi Hj.
    apply (H (S i) (S j)); trivial. lia.
  - apply Forall_forall. intros b Hb. apply In_nth_error in Hb.
    destruct Hb as [j Hj]. apply (H O (S j)); trivial. lia.
Qed.

Lemma StronglySorted_app {A : Type} (R : A -> A -> Prop) (l1 l2 : list A) :
  StronglySorted R l1 -> StronglySorted R l2 ->
  (forall a b, In a l1 -> In b l2 -> R a b) ->
  StronglySorted R (l1 ++ l2).
Proof.
  induction 1 as [|x l1 Hs IH Hall]; intros H2 Hc; [exact H2|].
  cbn [app]. constructor.
  - apply IH; trivial. intros a b Ha Hb. apply Hc; [now right | exact Hb].
  - apply Forall_app. split; [exact Hall|].
    apply Forall_forall. intros b Hb. apply Hc; [now left | exact Hb].
Qed.

Lemma NoDup_map_StronglySorted {A B : Type} (f : A -> B) (l : list A) :
  NoDup (map f l) -> StronglySorted (fun a b => f a <> f b) l.
Proof.
  induction l as [|x l IH]; cbn [map]; intros H; constructor;
    inversion H as [|? ? Hx Hl]; subst.
  - now apply IH.
  - apply Forall_forall. intros b Hb E. apply Hx. rewrite E.
    now apply in_map.
Qed.

Section CompleteOrder.

Variable holidays : list Holiday.

(** In the order of collection a later period has a greater day count, or,
    inside one day count, another first vacation day. *)
Lemma collected_in_sweep_order (lo hi : Z) (s e : Date) :
  StronglySorted
    (fun a b => daysCount a < daysCount b \/
                usedStartDate a <> usedStartDate b)
    (collectAllCandidates holidays lo hi s e).
Proof.
  rewrite collectAllCandidates_eq.
  assert (Hgen : forall ks,
             StronglySorted Z.lt ks ->
             StronglySorted
               (fun a b => daysCount a < daysCount b \/
                           usedStartDate a <> usedStartDate b)
               (flat_map (fun n => contribution
                            (findBestAvailablePeriods holidays s e [] n 0))
                         ks)).
  { induction 1 as [|k ks Hs IH Hall]; cbn [flat_map]; [constructor|].
    apply StronglySorted_app; [|exact IH|].
    - eapply StronglySorted_weaken;
        [|apply (NoDup_map_StronglySorted usedStartDate)].
      + intros a b H. now right.
      + destruct (findBestAvailablePeriods holidays s e [] k 0) as [l|msg]
          eqn:F; [|constructor].
        apply findBest_Ok_Permutation in F. cbn [contribution].
        apply (Permutation_NoDup
                 (Permutation_sym (Permutation_map usedStartDate F))).
        rewrite map_map. cbn [periodAt usedStartDate]. rewrite map_id.
        apply NoDup_filter, daysFrom_NoDup.
    - intros a b Ha Hb. left. apply contribution_In in Ha.
      destruct Ha as [da [_ [_ ->]]]. apply in_flat_map in Hb.
      destruct Hb as [k' [Hk' Hb]]. apply contribution_In in Hb.
      destruct Hb as [db [_ [_ ->]]]. cbn [periodAt daysCount].
      rewrite Forall_forall in Hall. now apply Hall. }
  apply Hgen. unfold fromTo.
  generalize (Z.to_nat (hi - lo + 1)). intros m. generalize 0%nat.
  induction m as [|m IH]; intros st; cbn [seq map]; constructor.
  - apply IH.
  - apply Forall_forall. intros b Hb. apply in_map_iff in Hb.
    destruct Hb as [k [<- Hk]]. apply in_seq in Hk. lia.
Qed.

(** X16. The order of the final result is complete: of any two periods of
    the result the earlier one has more extra days, or as many and an
    earlier first vacation day, or as many, the same first vacation day and
    a smaller day count.  The last tie-break is not in the comparator: it
    comes from the sort being stable and the sweep collecting the day counts
    in ascending order.  No two periods tie on all three. *)
Theorem X16_result_completely_ordered (formData : FormData) :
  StronglySorted fullRank (handleCalculate holidays formData).
Proof.
  apply pairs_StronglySorted. intros i j a b Hij Hi Hj.
  pose proof (StronglySorted_nth_error _ _
                (handleCalculate_sorted holidays formData) i j a b Hij Hi Hj)
    as Hrank.
  unfold rankedBefore in Hrank. unfold fullRank.
  destruct (Z.eq_dec (extraDaysOf a) (extraDaysOf b)) as [Ex|Ex]; [|lia].
  destruct (Z.eq_dec (usedStartDate a) (usedStartDate b)) as [Es|Es]; [|lia].
  right. split; [exact Ex|]. right. split; [exact Es|].
  set (P := fun p : VacationPeriod =>
              (extraDaysOf p =? extraDaysOf a)
              && (usedStartDate p =? usedStartDate a)).
  assert (Pa : P a = true) by (unfold P; now rewrite !Z.eqb_refl).
  assert (Pb : P b = true)
    by (unfold P; rewrite <- Ex, <- Es; now rewrite !Z.eqb_refl).
  assert (Hs : StronglySorted
                 (fun a b => daysCount a < daysCount b \/
                             usedStartDate a <> usedStartDate b)
                 (filter P (handleCalculate holidays formData))).
  { unfold handleCalculate. rewrite (sortBy_filter comparePeriods P).
    - apply StronglySorted_filter, StronglySorted_filter,
        collected_in_sweep_order.
    - intros x y Px Py. unfold P in Px, Py.
      apply andb_true_iff in Px, Py. destruct Px as [Px1 Px2].
      destruct Py as [Py1 Py2]. apply Z.eqb_eq in Px1, Px2, Py1, Py2.
      apply comparePeriods_le. unfold rankedBefore. lia. }
  destruct (filter_sorted_pairs _ P _ Hs i j a b Hij Hi Hj Pa Pb) as [H|H];
    [exact H | contradiction].
Qed.

End CompleteOrder.

(** ** The month grid of the calendar *)

Lemma pushBlanks_eq (first : Z) :
  forall (m fuel : nat) (i : Z) (days : list (option Z)),
    (m < fuel)%nat -> Z.of_nat m = Z.max 0 (first - i) ->
    pushBlanks fuel i first days = Some (days ++ repeat None m).
Proof.
  induction m as [|m IH]; intros fuel i days Hfuel Hm;
    (destruct fuel as [|fuel]; [lia|]); cbn [pushBlanks].
  - replace (i <? first) with false by (symmetry; apply Z.ltb_ge; lia).
    cbn [repeat]. now rewrite app_nil_r.
  - replace (i <? first) with true by (symmetry; apply Z.ltb_lt; lia).
    rewrite (IH fuel) by lia. cbn [repeat]. now rewrite <- app_assoc.
Qed.

Lemma pushDays_eq (dim : Z) :
  forall (m fuel : nat) (i : Z) (days : list (option Z)),
    (m < fuel)%nat -> Z.of_nat m = Z.max 0 (dim - i + 1) ->
    pushDays fuel i dim days = Some (days ++ map Some (fromTo i dim)).
Proof.
  induction m as [|m IH]; intros fuel i days Hfuel Hm;
    (destruct fuel as [|fuel]; [lia|]); cbn [pushDays].
  - replace (i <=? dim) with false by (symmetry; apply Z.leb_gt; lia).
    rewrite fromTo_nil by lia. cbn [map]. now rewrite app_nil_r.
  - replace (i <=? dim) with true by (symmetry; apply Z.leb_le; lia).
    rewrite (IH fuel) by lia. rewrite (fromTo_cons i dim) by lia.
    cbn [map]. now rewrite <- app_assoc.
Qed.

Lemma getDay_range (d : Date) : 0 <= getDay d <= 6.
Proof.
  unfold getDay. pose proof (Z.mod_pos_bound (dayNumber d + 4) 7). lia.
Qed.

Lemma monthDays_eq (month : Date) :
  monthDays month
  = repeat None
      (Z.to_nat (getDay (newDate (getFullYear month) (getMonth month) 1)))
    ++ map Some
         (fromTo 1 (getDate (newDate (getFullYear month)
                               (getMonth month + 1) 0))).
Proof.
  unfold monthDays. cbv zeta.
  pose proof (getDay_range (newDate (getFullYear month) (getMonth month) 1)).
  rewrite (pushBlanks_eq _ (Z.to_nat (getDay (newDate (getFullYear month)
                                            (getMonth month) 1))))
    by lia.
  cbn [app].
  rewrite (pushDays_eq _ (Z.to_nat (getDate (newDate (getFullYear month)
                                          (getMonth month + 1) 0))))
    by lia.
  reflexivity.
Qed.

Lemma dayNumber_newDate (year monthIndex day : Z) :
  dayNumber (newDate year monthIndex day)
  = dayNumber (newDate year monthIndex 1) + (day - 1).
Proof.
  unfold newDate, dayNumber. pose proof msPerDay_pos.
  rewrite !Z.div_mul by lia. lia.
Qed.

Lemma mod7_shift (i b : Z) : (i + (b - b mod 7)) mod 7 = i mod 7.
Proof.
  pose proof (Z.div_mod b 7 ltac:(lia)) as H.
  replace (i + (b - b mod 7)) with (i + (b / 7) * 7) by lia.
  apply Z.mod_add. lia.
Qed.

Lemma grid_nth (f : nat) (dim : Z) (idx : nat) :
  ((idx < f)%nat ->
   nth_error (repeat (@None Z) f ++ map Some (fromTo 1 dim)) idx
   = Some None) /\
  (forall day,
     nth_error (repeat (@None Z) f ++ map Some (fromTo 1 dim)) idx
     = Some (Some day) <->
     day = Z.of_nat idx - Z.of_nat f + 1 /\ 1 <= day <= dim).
Proof.
  split.
  - intros Hlt. rewrite nth_error_app1 by (rewrite repeat_length; lia).
    now apply nth_error_repeat.
  - intros day. split.
    + intros Hday. destruct (Nat.lt_ge_cases idx f) as [Hlt|Hge].
      * rewrite nth_error_app1 in Hday by (rewrite repeat_length; lia).
        rewrite nth_error_repeat in Hday by lia. discriminate.
      * rewrite nth_error_app2 in Hday by (rewrite repeat_length; lia).
        rewrite repeat_length, nth_error_map in Hday.
        destruct (nth_error (fromTo 1 dim) (idx - f)) as [x|] eqn:E;
          [|discriminate].
        assert (x = day) by (cbn [option_map] in Hday; congruence). subst x.
        assert (Hin : In day (fromTo 1 dim)) by (eapply nth_error_In, E).
        apply fromTo_In in Hin. split; [|exact Hin].
        unfold fromTo in E. rewrite nth_error_map, nth_error_seq in E.
        destruct (Nat.ltb _ _); [|discriminate].
        cbn [option_map] in E.
        assert (1 + Z.of_nat (0 + (idx - f)) = day) by congruence.
        lia.
    + intros [Hd Hb].
      rewrite nth_error_app2 by (rewrite repeat_length; lia).
      rewrite repeat_length, nth_error_map. unfold fromTo.
      rewrite nth_error_map, nth_error_seq.
      replace (Nat.ltb (idx - f) (Z.to_nat (dim - 1 + 1))) with true
        by (symmetry; apply Nat.ltb_lt; lia).
      cbn [option_map]. do 2 f_equal. lia.
Qed.

Lemma getDay_cellDate (month : Date) (day : Z) :
  getDay (cellDate month day)
  = (getDay (newDate (getFullYear month) (getMonth month) 1) + (day - 1))
    mod 7.
Proof.
  unfold cellDate, getDay. rewrite dayNumber_newDate.
  generalize (dayNumber (newDate (getFullYear month) (getMonth month) 1)).
  intros base. rewrite Z.add_mod_idemp_l by lia. f_equal. lia.
Qed.

(** X17. The month grid puts every day under its weekday.  The grid is
    the blanks, as many as the weekday number of the first of the month and
    so at most six, followed by the day numbers from 1 to [daysInMonth] in
    order: a day number is at position [idx] exactly when it is
    [idx - firstDayOfMonth + 1] and lies between 1 and [daysInMonth], so
    every such day is listed, once.  The columns being Sunday to Saturday,
    seven to a row, the day at position [idx] is the day whose date falls on
    weekday [idx mod 7]. *)
Theorem X17_month_grid_aligned (month : Date) (idx : nat) :
  0 <= getDay (newDate (getFullYear month) (getMonth month) 1) <= 6 /\
  monthDays month
  = repeat None
      (Z.to_nat (getDay (newDate (getFullYear month) (getMonth month) 1)))
    ++ map Some
         (fromTo 1 (getDate (newDate (getFullYear month)
                               (getMonth month + 1) 0))) /\
  (Z.of_nat idx < getDay (newDate (getFullYear month) (getMonth month) 1) ->
   nth_error (monthDays month) idx = Some None) /\
  (forall day,
     nth_error (monthDays month) idx = Some (Some day) <->
     day = Z.of_nat idx
           - getDay (newDate (getFullYear month) (getMonth month) 1) + 1 /\
     1 <= day <= getDate (newDate (getFullYear month)
                            (getMonth month + 1) 0)) /\
  (forall day,
     nth_error (monthDays month) idx = Some (Some day) ->
     Z.of_nat idx mod 7 = getDay (cellDate month day)).
Proof.
  pose proof (getDay_range (newDate (getFullYear month) (getMonth month) 1))
    as Hr.
  split; [exact Hr|]. split; [apply monthDays_eq|].
  rewrite monthDays_eq.
  destruct (grid_nth
              (Z.to_nat (getDay (newDate (getFullYear month)
                                   (getMonth month) 1)))
              (getDate (newDate (getFullYear month) (getMonth month + 1) 0))
              idx) as [Hblank Hday].
  remember (getDay (newDate (getFullYear month) (getMonth month) 1))
    as first eqn:Hfirst.
  split; [|split].
  - intros Hlt. apply Hblank. lia.
  - intros day. rewrite Hday. split; intros [Hd Hb]; (split; [lia | exact Hb]).
  - intros day Hnth. apply Hday in Hnth. destruct Hnth as [Hd Hb].
    rewrite getDay_cellDate, <- Hfirst.
    replace (first + (day - 1)) with (Z.of_nat idx) by lia. reflexivity.
Qed.

(** * The engine on time values: where it leaves the calendar *)

(** ** Agreement of the two levels

    In a zone with a fixed offset the calendar date [d] is the time value
    [d - offset], and as long as a date stays within the range of time
    values the setters and getters of the two levels agree; beyond the
    range the time value is NaN. *)

Lemma fixed_zone_getDay (offset : Z) (d : Date) :
  Js.getDay (Js.fixedZone offset) (Some (d - offset)) = Some (getDay d).
Proof.
  unfold Js.getDay, Js.LocalTime, getDay, dayNumber.
  cbn [Js.fixedZone Js.offsetOfUTC].
  replace (d - offset + offset) with d by (unfold Date in *; lia).
  reflexivity.
Qed.

Lemma fixed_zone_addDays (offset : Z) (d : Date) (n : Z) :
  Js.addDays (Js.fixedZone offset) (Some (d - offset)) (Some n)
  = if Z.abs (addDays d n - offset) >? Js.maxTimeValue then None
    else Some (addDays d n - offset).
Proof.
  unfold Js.addDays, Js.LocalTime, Js.UTC, Js.TimeClip, addDays.
  cbn [Js.fixedZone Js.offsetOfUTC Js.offsetOfLocal].
  replace (d - offset + offset + n * msPerDay - offset)
    with (d + n * msPerDay - offset) by (unfold Date in *; lia).
  reflexivity.
Qed.

Lemma fixed_zone_setHoursZero (offset : Z) (d : Date) :
  Js.setHoursZero (Js.fixedZone offset) (Some (d - offset))
  = if Z.abs (setHoursZero d - offset) >? Js.maxTimeValue then None
    else Some (setHoursZero d - offset).
Proof.
  unfold Js.setHoursZero, Js.LocalTime, Js.UTC, Js.TimeClip, setHoursZero,
    dayNumber.
  cbn [Js.fixedZone Js.offsetOfUTC Js.offsetOfLocal].
  replace (d - offset + offset) with d by (unfold Date in *; lia).
  reflexivity.
Qed.

Lemma fixed_zone_totalDaysOff (offset : Z) (p : VacationPeriod) :
  Js.calculateTotalDaysOff
    (Js.mkVacationPeriod (Some (startDate p - offset))
       (Some (endDate p - offset)) (Some (usedStartDate p - offset))
       (Some (usedEndDate p - offset)) (Some (daysCount p)))
  = Some (calculateTotalDaysOff p).
Proof.
  unfold Js.calculateTotalDaysOff, calculateTotalDaysOff, Js.getTime, getTime.
  cbn [Js.startDate Js.endDate numSub numFloorDiv numAdd].
  replace (endDate p - offset - (startDate p - offset))
    with (endDate p - startDate p) by (unfold Date in *; lia).
  reflexivity.
Qed.

(** An Invalid Date stays invalid and answers no comparison. *)
Lemma invalid_date_is_absorbing (zone : Js.TimeZone) (n : Number)
    (d : Js.Date) :
  Js.addDays zone None n = None /\
  Js.setHoursZero zone None = None /\
  Js.getDay zone None = None /\
  numLe None d = false /\ numLe d None = false /\
  numGt None d = false /\ numGt d None = false.
Proof. destruct d; repeat split; reflexivity. Qed.

(** ** The day count across a change of the clocks *)

(** C1. The ranking does not follow the extra days of the specification in
    a zone with daylight saving.  In New York, for the horizon entered as
    2025-03-04 to 2025-03-22 with five vacation days and no holidays, a
    form [hasErrors] accepts: the result begins with the period of Monday
    03-17 followed by the period of Monday 03-03, although both have four
    extra calendar days and the second starts earlier.  The window of the
    second is 8 days less one hour long, the clocks going forward in its
    last night, so [calculateTotalDaysOff] gives 8 days and ranks it with 3
    extra days, while [CalendarView] counts 9 days for the same window.  The
    period of Tuesday 03-04, with Sunday 03-09 attached and one extra
    calendar day, is collected and then filtered out as having none. *)
Theorem C1_day_count_across_clock_change :
  Js.hasErrors marchForm = false /\
  (exists rest,
     Js.handleCalculate Js.newYork2025 [] 100 marchForm
     = Js.Returns (marchSeventeenthPeriod :: marchThirdPeriod :: rest) /\
     ~ In marchFourthPeriod rest) /\
  (Js.calendarExtraDays Js.newYork2025 marchSeventeenthPeriod = Some 4 /\
   Js.calendarExtraDays Js.newYork2025 marchThirdPeriod = Some 4 /\
   numLt (Js.usedStartDate marchThirdPeriod)
         (Js.usedStartDate marchSeventeenthPeriod) = true) /\
  (numSub (Js.endDate marchThirdPeriod) (Js.startDate marchThirdPeriod)
   = Some (8 * msPerDay - 3600000) /\
   Js.calculateTotalDaysOff marchThirdPeriod = Some 8 /\
   Js.extraDaysOf marchThirdPeriod = Some 3 /\
   Js.extraDaysOf marchSeventeenthPeriod = Some 4 /\
   Js.viewTotalDays Js.newYork2025 100 (Js.startDate marchThirdPeriod)
     (Js.endDate marchThirdPeriod) = Js.Returns 9) /\
  (exists l,
     Js.findBestAvailablePeriods Js.newYork2025 [] 100
       (Js.formStartDate marchForm) (Js.formEndDate marchForm) [] (Some 5)
       (Some 0) = Js.Returns l /\
     In marchFourthPeriod l /\
     Js.isWeekendOrHoliday Js.newYork2025 []
       (Js.endDate marchFourthPeriod) = true /\
     Js.calendarExtraDays Js.newYork2025 marchFourthPeriod = Some 1 /\
     Js.extraDaysOf marchFourthPeriod = Some 0 /\
     Js.keepPeriod marchFourthPeriod = false).
Proof.
  split; [reflexivity|]. split.
  - eexists. split; [vm_compute; reflexivity|].
    vm_compute. intros H.
    repeat match goal with
           | H : _ \/ _ |- _ => destruct H as [H|H]
           end; try discriminate H; exact H.
  - split; [repeat split; vm_compute; reflexivity|].
    split; [repeat split; vm_compute; reflexivity|].
    eexists. split; [vm_compute; reflexivity|].
    split; [vm_compute; tauto|].
    repeat split; vm_compute; reflexivity.
Qed.

(** ** Dates past the last time value *)

(** C2. The invariants of a period fail for day counts that carry the core
    end past the last time value.  For the week Monday 2025-01-06 to Friday
    2025-01-10 and 100 000 000 vacation days, a form [hasErrors] accepts,
    [findBestAvailablePeriods] returns five periods whose [usedEndDate] and
    [endDate] are Invalid Dates: for none of them does
    [usedStartDate <= usedEndDate] or [usedEndDate <= endDate] hold, and the
    core window has no length.  The filter of [handleCalculate] drops them
    all. *)
Theorem C2_invalid_core_end_breaks_invariants :
  Js.hasErrors (hugeForm hugeDayCount) = false /\
  Js.findBestAvailablePeriods Js.utcZone [] 100 (Some (ymd 2025 1 6))
    (Some (ymd 2025 1 10)) [] (Some hugeDayCount) (Some 0)
  = Js.Returns (brokenWeek hugeDayCount) /\
  Forall (fun p =>
            Js.usedEndDate p = None /\ Js.endDate p = None /\
            numLe (Js.usedStartDate p) (Js.usedEndDate p) = false /\
            numLe (Js.usedEndDate p) (Js.endDate p) = false /\
            numSub (Js.localDay Js.utcZone (Js.usedEndDate p))
                   (Js.localDay Js.utcZone (Js.usedStartDate p)) = None)
         (brokenWeek hugeDayCount) /\
  Js.handleCalculate Js.utcZone [] 100 (hugeForm hugeDayCount)
  = Js.Returns [].
Proof.
  split; [reflexivity|]. split; [vm_compute; reflexivity|].
  split; [|vm_compute; reflexivity].
  repeat constructor.
Qed.

(** C4. The scan collects candidates whose core window does not end inside
    the horizon when the core end is an Invalid Date.  For the week Monday
    2025-01-06 to Friday 2025-01-10 and 100 000 000 vacation days the core
    end of every start date is past the last time value; the test
    [vacationEndDate > maxSearchDate] is then false, the scan does not stop,
    and it collects a candidate for each of the five workdays, none of which
    has a core end that is not after the end of the horizon.  With
    99 979 907 days, the last day count whose core end is still a date, the
    scan stops at the first workday and collects nothing. *)
Theorem C4_scan_passes_invalid_core_end :
  Js.searchLoop Js.utcZone [] 100 (Some (ymd 2025 1 10)) [] (Some hugeDayCount)
    (Some 0) (Some (ymd 2025 1 6)) []
  = Js.Returns (map (fun p => Js.mkCandidate p None)
                    (brokenWeek hugeDayCount)) /\
  Js.addDays Js.utcZone (Some (ymd 2025 1 6))
    (numSub (Some hugeDayCount) (Some 1)) = None /\
  numGt None (Some (ymd 2025 1 10)) = false /\
  Forall (fun p => numLe (Js.usedEndDate p) (Some (ymd 2025 1 10)) = false)
         (brokenWeek hugeDayCount) /\
  Js.searchLoop Js.utcZone [] 100 (Some (ymd 2025 1 10)) []
    (Some (firstOverflowingDayCount - 1)) (Some 0) (Some (ymd 2025 1 6)) []
  = Js.Returns [].
Proof.
  split; [vm_compute; reflexivity|]. split; [vm_compute; reflexivity|].
  split; [reflexivity|]. split; [repeat constructor|].
  vm_compute. reflexivity.
Qed.

(** C5. A day count far larger than the horizon does not always throw.  On
    the horizon of five days from Monday 2025-01-06 to Friday 2025-01-10,
    [findBestAvailablePeriods] throws for 99 979 907 days but returns five
    periods for 99 979 908 days, the first day count whose core end is
    past the last time value, and for every day count tried above it; the
    sweep of [handleCalculate] then adds those periods to the list it
    collects instead of skipping the day count. *)
Theorem C5_no_throw_past_last_time_value :
  5 < firstOverflowingDayCount /\
  Js.hasErrors (hugeForm firstOverflowingDayCount) = false /\
  Js.findBestAvailablePeriods Js.utcZone [] 100 (Some (ymd 2025 1 6))
    (Some (ymd 2025 1 10)) [] (Some (firstOverflowingDayCount - 1)) (Some 0)
  = Js.Throws noPeriodMessage /\
  Js.findBestAvailablePeriods Js.utcZone [] 100 (Some (ymd 2025 1 6))
    (Some (ymd 2025 1 10)) [] (Some firstOverflowingDayCount) (Some 0)
  = Js.Returns (brokenWeek firstOverflowingDayCount) /\
  Js.findBestAvailablePeriods Js.utcZone [] 100 (Some (ymd 2025 1 6))
    (Some (ymd 2025 1 10)) [] (Some hugeDayCount) (Some 0)
  = Js.Returns (brokenWeek hugeDayCount) /\
  Js.sweepLoop Js.utcZone [] 100 (Some (ymd 2025 1 6)) (Some (ymd 2025 1 10))
    (Some firstOverflowingDayCount) (Some firstOverflowingDayCount) []
  = Js.Returns (brokenWeek firstOverflowingDayCount).
Proof.
  split; [reflexivity|]. split; [reflexivity|].
  repeat split; vm_compute; reflexivity.
Qed.


(** ** The overlap check on time values *)

Section OverlapOnTimeValues.

Variable zone : Js.TimeZone.
Variable holidays : list Js.Holiday.

(** The test of [checkForOverlaps] for one existing period. *)
Let reaches (s e : Js.Date) (g : Number) (q : Js.VacationPeriod) : bool :=
  numLe (Js.addDays zone s (numSub (Some 0) g)) (Js.endDate q)
  && numGe (Js.addDays zone e g) (Js.startDate q).

Lemma js_checkForOverlaps_false (s e : Js.Date)
    (ex : list Js.VacationPeriod) (g : Number) :
  Js.checkForOverlaps zone s e ex g = false <->
  Forall (fun q => reaches s e g q = false) ex.
Proof.
  unfold Js.checkForOverlaps, reaches. induction ex as [|q ex IH].
  - split; [constructor | reflexivity].
  - destruct (numLe (Js.addDays zone s (numSub (Some 0) g)) (Js.endDate q)
              && numGe (Js.addDays zone e g) (Js.startDate q)) eqn:C.
    + split; [discriminate|]. intros H. inversion H; subst. congruence.
    + rewrite IH. split; [now constructor | now inversion 1].
Qed.

Lemma js_searchLoop_checked (e : Js.Date) (ex : list Js.VacationPeriod)
    (n g : Number) :
  forall (fuel : nat) (cur : Js.Date) (acc l : list Js.Candidate),
    Forall (fun c => Js.checkForOverlaps zone (Js.startDate (Js.period c))
                       (Js.endDate (Js.period c)) ex g = false) acc ->
    Js.searchLoop zone holidays fuel e ex n g cur acc = Js.Returns l ->
    Forall (fun c => Js.checkForOverlaps zone (Js.startDate (Js.period c))
                       (Js.endDate (Js.period c)) ex g = false) l.
Proof.
  induction fuel as [|fuel IH]; intros cur acc l Hacc H; [discriminate|].
  cbn [Js.searchLoop] in H.
  destruct (numLe cur e); [|now injection H as <-].
  destruct (numNe (Js.getDay zone cur) (Some 0)
            && numNe (Js.getDay zone cur) (Some 6)
            && negb (Js.isHoliday zone holidays cur));
    [|now apply (IH _ _ _ Hacc H)].
  destruct (numGt _ e); [now injection H as <-|].
  destruct (Js.calculateExtraStartDate zone holidays (S fuel) cur)
    as [es|msg|]; cbn [Js.bind] in H; try discriminate.
  destruct (Js.calculateExtraEndDate zone holidays (S fuel) _)
    as [ee|msg|]; cbn [Js.bind] in H; try discriminate.
  destruct (Js.checkForOverlaps zone es ee ex g) eqn:C; cbn [negb] in H.
  - now apply (IH _ _ _ Hacc H).
  - apply (IH _ _ _) in H; [exact H|].
    apply Forall_app. split; [exact Hacc|]. now repeat constructor.
Qed.

(** X4. In any zone and for any gap, every period
    [findBestAvailablePeriods] returns has passed the overlap test against
    every existing period; when the two buffer dates and the dates of the
    existing period are valid, this means that the existing period ends
    before the buffer starts or starts after the buffer ends. *)
Theorem X4_returned_periods_pass_overlap_check (fuel : nat)
    (s e : Js.Date) (ex : list Js.VacationPeriod) (n g : Number) :
  match Js.findBestAvailablePeriods zone holidays fuel s e ex n g with
  | Js.Returns l =>
      Forall (fun p =>
        Js.checkForOverlaps zone (Js.startDate p) (Js.endDate p) ex g = false
        /\
        Forall (fun q =>
          forall bufferStart bufferEnd qStart qEnd : Z,
            Js.addDays zone (Js.startDate p) (numSub (Some 0) g)
            = Some bufferStart ->
            Js.addDays zone (Js.endDate p) g = Some bufferEnd ->
            Js.startDate q = Some qStart -> Js.endDate q = Some qEnd ->
            qEnd < bufferStart \/ bufferEnd < qStart) ex) l
  | _ => True
  end.
Proof.
  unfold Js.findBestAvailablePeriods.
  destruct (Js.searchLoop zone holidays fuel e ex n g s []) as [cs|msg|]
    eqn:L; cbn [Js.bind]; trivial.
  destruct (Z.of_nat (List.length cs) =? 0); trivial.
  apply js_searchLoop_checked in L; [|constructor].
  rewrite Forall_forall in L. apply Forall_forall. intros p Hp.
  apply in_map_iff in Hp. destruct Hp as [c [<- Hc]].
  apply sortBy_In in Hc. specialize (L c Hc). split; [exact L|].
  apply js_checkForOverlaps_false in L. rewrite Forall_forall in L.
  apply Forall_forall. intros q Hq bs be qs qe Hbs Hbe Hqs Hqe.
  specialize (L q Hq). unfold reaches in L.
  rewrite Hbs, Hbe, Hqs, Hqe in L. unfold numGe, numLe in L.
  apply andb_false_iff in L. destruct L as [L|L]; apply Z.leb_gt in L; lia.
Qed.

End OverlapOnTimeValues.
